(** * media-scraper: the matching-and-enrichment pipeline of [src/main.py]

    A shallow embedding of the pipeline functions of the scraper
    ([get_film_name_year], [get_film_id], [get_raw_film_info],
    [get_raw_staff_info], [get_clean_film_info], [get_clean_staff_info],
    [create_nfo], [create_posters], [process_folder]) together with
    [validate_types] and [check_request_status] of
    [src/utils/validators.py] and the constants of [config/settings.py].

    Conventions.
    - In the pipeline a Python [str] is a [string]; each [ascii] stands for
      the code point of the same number (0..255).  The character classes
      below ([\d], [\s], [str.isdigit], [str.isspace]) are CPython's,
      restricted to that range.  The Russian message constants are kept as
      the bytes of the source file and are never inspected.
    - Key extraction is where the characters of a file name are inspected,
      and file names are any [str].  [Uni] embeds [get_film_name_year] on
      the whole of [str], a sequence of Unicode code points, with the
      character classes of the Unicode database; on a name of the range
      0..255 the pipeline's [get_film_name_year] is that function
      ([key_extraction_on_latin1]).
    - A JSON value is a [pyval]; a Python [dict] keeps insertion order and is
      an association list whose first binding of a key is the live one.
    - A raised exception is the [Raise] case of [result]; code that writes
      to disk threads a [world].  The catalogue, the downloads, the XML
      serialiser and the file system are parameters of the pipeline; they
      answer the same question the same way, so the [ttl_cache] memoisation
      of the three lookups cannot be observed and is left out, as are the
      calls of the logger.
    - An argument that every caller passes as a [str] is a [string], and the
      [validate_types] check on it, which cannot fail, is not repeated. *)

From Stdlib Require Import String Ascii List ZArith Lia Bool Arith.
From Stdlib Require Import DecimalString.
Import ListNotations.

Local Open Scope string_scope.
Local Open Scope list_scope.
Local Open Scope nat_scope.

(** String concatenation, kept apart from list [++]. *)
Infix "+++" := String.append (right associativity, at level 60).

(* ===================================================================== *)
(** * Exceptions and results *)
(* ===================================================================== *)

(** The exception classes of [src/utils/exceptions.py] and the built-in ones
    the pipeline can meet.  Every one of them derives from [Exception]. *)
Inductive exn_class : Type :=
  | TypeError | ValueError | KeyError | AttributeError | OverflowError
  | OSError | RequestException
  | MissingVariableError | NoYearError | APIConnectionError
  | APIAnswerWrongDataError | NoFilmsError | UnauthorisedError
  | RequestLimitExceededError | TooManyRequestsError | NotFoundError.

(** An exception instance: its class and [str(e)]. *)
Record exn : Type := Exn { exn_cls : exn_class; exn_str : string }.

Inductive result (A : Type) : Type :=
  | Ok (a : A)
  | Raise (e : exn).
Arguments Ok {A} a.
Arguments Raise {A} e.

Definition rbind {A B} (r : result A) (k : A -> result B) : result B :=
  match r with
  | Ok a => k a
  | Raise e => Raise e
  end.

Declare Scope py_scope.
Delimit Scope py_scope with py.
Notation "x <- r ;; k" := (rbind r (fun x => k))
  (at level 61, r at next level, right associativity) : py_scope.
Notation "r ;;; k" := (rbind r (fun _ => k))
  (at level 61, right associativity) : py_scope.

(* ===================================================================== *)
(** * Characters and strings *)
(* ===================================================================== *)

Definition code (c : ascii) : nat := nat_of_ascii c.

(** [\d] of [re] on a [str] pattern: the decimal digits. *)
Definition is_decimal (c : ascii) : bool :=
  (48 <=? code c) && (code c <=? 57).

(** [str.isdigit] per character: the decimal digits and the superscript
    digits U+00B2, U+00B3, U+00B9. *)
Definition char_isdigit (c : ascii) : bool :=
  is_decimal c || (code c =? 178) || (code c =? 179) || (code c =? 185).

(** [str.isspace] per character, which is also [\s] of [re]. *)
Definition char_isspace (c : ascii) : bool :=
  ((9 <=? code c) && (code c <=? 13))
  || ((28 <=? code c) && (code c <=? 32))
  || (code c =? 133) || (code c =? 160).

Fixpoint str_all (p : ascii -> bool) (s : string) : bool :=
  match s with
  | EmptyString => true
  | String c s' => p c && str_all p s'
  end.

Fixpoint str_map (f : ascii -> ascii) (s : string) : string :=
  match s with
  | EmptyString => EmptyString
  | String c s' => String (f c) (str_map f s')
  end.

Fixpoint str_rev_onto (s acc : string) : string :=
  match s with
  | EmptyString => acc
  | String c s' => str_rev_onto s' (String c acc)
  end.

Definition str_rev (s : string) : string := str_rev_onto s EmptyString.

(** [s[:n]] and [s[n:]] for [0 <= n]. *)
Fixpoint str_take (n : nat) (s : string) : string :=
  match n, s with
  | S n', String c s' => String c (str_take n' s')
  | _, _ => EmptyString
  end.

Fixpoint str_drop (n : nat) (s : string) : string :=
  match n, s with
  | S n', String _ s' => str_drop n' s'
  | _, _ => s
  end.

(** [str.isdigit]: false on the empty string. *)
Definition py_isdigit (s : string) : bool :=
  match s with
  | EmptyString => false
  | _ => str_all char_isdigit s
  end.

Fixpoint py_lstrip (s : string) : string :=
  match s with
  | EmptyString => EmptyString
  | String c s' => if char_isspace c then py_lstrip s' else s
  end.

Definition py_rstrip (s : string) : string :=
  str_rev (py_lstrip (str_rev s)).

(** [str.strip()] *)
Definition py_strip (s : string) : string := py_rstrip (py_lstrip s).

(** [sep.join(parts)] *)
Fixpoint py_join (sep : string) (parts : list string) : string :=
  match parts with
  | [] => EmptyString
  | [p] => p
  | p :: rest => p +++ sep +++ py_join sep rest
  end.

(** Comparison of two [str] by code point: [s > t]. *)
Fixpoint str_gt (s t : string) : bool :=
  match s, t with
  | EmptyString, _ => false
  | String _ _, EmptyString => true
  | String a s', String b t' =>
      if code a =? code b then str_gt s' t' else code b <? code a
  end.

(** [str(n)] for an [int]. *)
Definition str_of_int (n : Z) : string :=
  NilZero.string_of_int (Z.to_int n).

(* ===================================================================== *)
(** * The fragment of [re] the scraper uses *)
(* ===================================================================== *)

Module Re.

(** Patterns.  Every constructor consumes at least one character, so no
    pattern of this fragment matches the empty string. *)
Inductive regex : Type :=
  | Lit (c : ascii)             (* a literal character *)
  | OneOf (cs : list ascii)     (* [...] *)
  | Digit                       (* \d *)
  | Space                       (* \s *)
  | Cat (r1 r2 : regex)         (* r1 r2 *)
  | Alt (r1 r2 : regex)         (* r1|r2, the left branch is tried first *)
  | Plus (r : regex).           (* r+, greedy *)

Definition one (p : ascii -> bool) (s : string) : list string :=
  match s with
  | String c s' => if p c then [s'] else []
  | EmptyString => []
  end.

(** [rmatch r s]: what is left of [s] after each way [r] matches a prefix
    of it, in the order a backtracking matcher tries them. *)
Fixpoint rmatch (r : regex) (s : string) : list string :=
  match r with
  | Lit c => one (Ascii.eqb c) s
  | OneOf cs => one (fun x => existsb (Ascii.eqb x) cs) s
  | Digit => one is_decimal s
  | Space => one char_isspace s
  | Cat r1 r2 => flat_map (rmatch r2) (rmatch r1 s)
  | Alt r1 r2 => rmatch r1 s ++ rmatch r2 s
  | Plus r' =>
      (fix more (fuel : nat) (s0 : string) {struct fuel} : list string :=
         flat_map
           (fun s1 => match fuel with
                      | O => []
                      | S fuel' => more fuel' s1
                      end ++ [s1])
           (rmatch r' s0))
        (String.length s) s
  end.

(** A match object: [m.start()] and [m.group()]. *)
Record match_obj : Type := Match { m_start : nat; m_group : string }.

Definition match_here (r : regex) (s : string) : option string :=
  match rmatch r s with
  | rest :: _ => Some (str_take (String.length s - String.length rest) s)
  | [] => None
  end.

(** [re.search(r, s)]: the leftmost match. *)
Fixpoint search (r : regex) (s : string) : option match_obj :=
  match match_here r s with
  | Some g => Some (Match 0 g)
  | None =>
      match s with
      | EmptyString => None
      | String _ s' =>
          match search r s' with
          | Some m => Some (Match (S (m_start m)) (m_group m))
          | None => None
          end
      end
  end.

(** [re.sub(r, repl, s)] for a literal replacement: the non-overlapping
    matches are replaced from left to right.  [skip] counts the characters
    of the current match that are still to be passed over. *)
Fixpoint sub_from (r : regex) (repl : string) (skip : nat) (s : string)
  : string :=
  match s with
  | EmptyString => EmptyString
  | String c s' =>
      match skip with
      | S k => sub_from r repl k s'
      | O =>
          match match_here r s with
          | Some g => repl +++ sub_from r repl (String.length g - 1) s'
          | None => String c (sub_from r repl 0 s')
          end
      end
  end.

Definition sub (r : regex) (repl : string) (s : string) : string :=
  sub_from r repl 0 s.

End Re.

(* ===================================================================== *)
(** * Python values *)
(* ===================================================================== *)

(** A [float]: not-a-number, an infinity, or a finite value given by the
    fraction [num/den] it denotes exactly. *)
Inductive pyfloat : Type :=
  | FNan
  | FInf (negative : bool)
  | FFinite (num : Z) (den : positive).

#[local] Set Warnings "-register-all".

(** What [response.json()] can deliver. *)
Inductive pyval : Type :=
  | PNone
  | PBool (b : bool)
  | PInt (n : Z)
  | PFloat (x : pyfloat)
  | PStr (s : string)
  | PList (l : list pyval)
  | PDict (d : list (string * pyval)).

(** A [dict] with [str] keys, in insertion order. *)
Definition dict : Type := list (string * pyval).

Fixpoint dict_get {V : Type} (k : string) (d : list (string * V)) : option V :=
  match d with
  | [] => None
  | (k', v) :: d' => if String.eqb k k' then Some v else dict_get k d'
  end.

(** [d[k] = v]: an existing key keeps its place, a new one goes last. *)
Fixpoint dict_set {V : Type} (k : string) (v : V) (d : list (string * V))
  : list (string * V) :=
  match d with
  | [] => [(k, v)]
  | (k', v') :: d' =>
      if String.eqb k k' then (k', v) :: d' else (k', v') :: dict_set k v d'
  end.

(** [k in d] *)
Definition dict_has {V : Type} (k : string) (d : list (string * V)) : bool :=
  match dict_get k d with Some _ => true | None => false end.

(** [d.get(k)] *)
Definition py_get (k : string) (d : dict) : pyval :=
  match dict_get k d with Some v => v | None => PNone end.

Inductive pytype : Type :=
  | TNoneType | TBool | TInt | TFloat | TStr | TList | TDict.

Definition type_of (v : pyval) : pytype :=
  match v with
  | PNone => TNoneType
  | PBool _ => TBool
  | PInt _ => TInt
  | PFloat _ => TFloat
  | PStr _ => TStr
  | PList _ => TList
  | PDict _ => TDict
  end.

(** [t.__name__] *)
Definition type_name (t : pytype) : string :=
  match t with
  | TNoneType => "NoneType"
  | TBool => "bool"
  | TInt => "int"
  | TFloat => "float"
  | TStr => "str"
  | TList => "list"
  | TDict => "dict"
  end.

(** [isinstance(v, t)]; [bool] is a subclass of [int]. *)
Definition py_isinstance (v : pyval) (t : pytype) : bool :=
  match type_of v, t with
  | TNoneType, TNoneType | TBool, TBool | TBool, TInt | TInt, TInt
  | TFloat, TFloat | TStr, TStr | TList, TList | TDict, TDict => true
  | _, _ => false
  end.

(** Truth value of [v] in a condition. *)
Definition py_truthy (v : pyval) : bool :=
  match v with
  | PNone => false
  | PBool b => b
  | PInt n => negb (Z.eqb n 0)
  | PFloat (FFinite n _) => negb (Z.eqb n 0)
  | PFloat _ => true
  | PStr s => negb (String.eqb s "")
  | PList l => match l with [] => false | _ => true end
  | PDict d => match d with [] => false | _ => true end
  end.

Definition raise {A} (c : exn_class) (msg : string) : result A :=
  Raise (Exn c msg).

Definition not_subscriptable (v : pyval) : string :=
  "'" +++ type_name (type_of v) +++ "' object is not subscriptable".

(** [v[k]] for a [str] key [k]. *)
Definition py_getitem (v : pyval) (k : string) : result pyval :=
  match v with
  | PDict d =>
      match dict_get k d with
      | Some x => Ok x
      | None => raise KeyError ("'" +++ k +++ "'")
      end
  | PList _ => raise TypeError "list indices must be integers or slices, not str"
  | PStr _ => raise TypeError "string indices must be integers, not 'str'"
  | _ => raise TypeError (not_subscriptable v)
  end.

(** [v.get(k)]; only a [dict] has the method. *)
Definition py_get_method (v : pyval) (k : string) : result pyval :=
  match v with
  | PDict d => Ok (py_get k d)
  | _ => raise AttributeError
           ("'" +++ type_name (type_of v) +++ "' object has no attribute 'get'")
  end.

(** [len(v)] *)
Definition py_len (v : pyval) : result nat :=
  match v with
  | PStr s => Ok (String.length s)
  | PList l => Ok (List.length l)
  | PDict d => Ok (List.length d)
  | _ => raise TypeError
           ("object of type '" +++ type_name (type_of v) +++ "' has no len()")
  end.

Fixpoint str_chars (s : string) : list pyval :=
  match s with
  | EmptyString => []
  | String c s' => PStr (String c EmptyString) :: str_chars s'
  end.

(** The items a [for] loop over [v] visits. *)
Definition py_iter (v : pyval) : result (list pyval) :=
  match v with
  | PList l => Ok l
  | PStr s => Ok (str_chars s)
  | PDict d => Ok (map (fun kv => PStr (fst kv)) d)
  | _ => raise TypeError
           ("'" +++ type_name (type_of v) +++ "' object is not iterable")
  end.

(** [v.isdigit()]; only a [str] has the method. *)
Definition py_isdigit_method (v : pyval) : result bool :=
  match v with
  | PStr s => Ok (py_isdigit s)
  | _ => raise AttributeError
           ("'" +++ type_name (type_of v) +++ "' object has no attribute 'isdigit'")
  end.

(** [v == s] for a [str] [s]. *)
Definition py_eq_str (v : pyval) (s : string) : bool :=
  match v with
  | PStr t => String.eqb t s
  | _ => false
  end.

(** ** [int(v)] *)

(** Whitespace that [int] accepts around a literal. *)
Definition int_space (c : ascii) : bool :=
  ((9 <=? code c) && (code c <=? 13))
  || (code c =? 32) || (code c =? 133) || (code c =? 160).

Fixpoint int_lstrip (s : string) : string :=
  match s with
  | EmptyString => EmptyString
  | String c s' => if int_space c then int_lstrip s' else s
  end.

Definition digit_value (c : ascii) : Z := Z.of_nat (code c - 48).

(** The digits of a literal, single underscores allowed between digits:
    the value read so far and the number of digits. *)
Fixpoint int_digits (after_digit : bool) (acc : Z) (count : nat) (s : string)
  : option (Z * nat) :=
  match s with
  | EmptyString => if after_digit then Some (acc, count) else None
  | String c s' =>
      if is_decimal c
      then int_digits true (10 * acc + digit_value c)%Z (S count) s'
      else if Ascii.eqb c "_" && after_digit
           then int_digits false acc count s'
           else None
  end.

(** [sys.get_int_max_str_digits()] by default. *)
Definition MAX_STR_DIGITS : nat := 4300.

Definition int_of_str (s : string) : option Z :=
  let t := str_rev (int_lstrip (str_rev (int_lstrip s))) in
  let '(negative, body) :=
    match t with
    | String "+" r => (false, r)
    | String "-" r => (true, r)
    | _ => (false, t)
    end in
  match int_digits false 0%Z 0 body with
  | Some (n, count) =>
      if MAX_STR_DIGITS <? count then None
      else Some (if negative then (- n)%Z else n)
  | None => None
  end.

(** [int(v)].  The text of the [ValueError] for a [str] quotes [repr(v)]
    and is kept short here. *)
Definition py_int (v : pyval) : result Z :=
  match v with
  | PBool b => Ok (if b then 1%Z else 0%Z)
  | PInt n => Ok n
  | PFloat FNan => raise ValueError "cannot convert float NaN to integer"
  | PFloat (FInf _) =>
      raise OverflowError "cannot convert float infinity to integer"
  | PFloat (FFinite n d) => Ok (Z.quot n (Zpos d))
  | PStr s =>
      match int_of_str s with
      | Some n => Ok n
      | None => raise ValueError "invalid literal for int() with base 10"
      end
  | _ => raise TypeError
           ("int() argument must be a string, a bytes-like object or a real number, not '"
            +++ type_name (type_of v) +++ "'")
  end.

(* ===================================================================== *)
(** * utils/validators.py *)
(* ===================================================================== *)

Definition is_none (v : pyval) : bool :=
  match v with PNone => true | _ => false end.

(** [validate_types(name=(value, expected_type), ...)] *)
Fixpoint validate_types (kwargs : list (string * (pyval * pytype)))
  : result unit :=
  match kwargs with
  | [] => Ok tt
  | (name, (value, expected_type)) :: rest =>
      if is_none value || negb (py_isinstance value expected_type) then
        raise TypeError
          ("Для " +++ name +++ " ожидался " +++ type_name expected_type
           +++ ", Получен " +++ type_name (type_of value))
      else validate_types rest
  end.

Definition HTTP_OK : Z := 200.
Definition HTTP_UNAUTHORIZED : Z := 401.
Definition HTTP_PAYMENT_REQUIRED : Z := 402.
Definition HTTP_NOT_FOUND : Z := 404.
Definition HTTP_TOO_MANY_REQUESTS : Z := 429.

Definition check_request_status (status_code : Z) : result unit :=
  if Z.eqb status_code HTTP_UNAUTHORIZED then
    raise UnauthorisedError "Ошибка авторизации, проверьте токен API"
  else if Z.eqb status_code HTTP_PAYMENT_REQUIRED then
    raise RequestLimitExceededError
      "Превышен дневной или общий лимит на запросы к API"
  else if Z.eqb status_code HTTP_TOO_MANY_REQUESTS then
    raise TooManyRequestsError "Превышен секундный лимит на запросы к API"
  else if Z.eqb status_code HTTP_OK then Ok tt
  else if Z.eqb status_code HTTP_NOT_FOUND then Ok tt
  else raise APIConnectionError ("API вернул код: " +++ str_of_int status_code).

(* ===================================================================== *)
(** * config/settings.py *)
(* ===================================================================== *)

(** [YEAR_STAMP = r'(19|20)\d{2}'] *)
Definition YEAR_STAMP : Re.regex :=
  Re.Cat (Re.Alt (Re.Cat (Re.Lit "1") (Re.Lit "9"))
                 (Re.Cat (Re.Lit "2") (Re.Lit "0")))
         (Re.Cat Re.Digit Re.Digit).

Definition VIDEO_EXT : list string := [".mp4"; ".mkv"; ".avi"; ".mov"].

Definition MAX_ACTORS : nat := 10.

Definition ENDPOINT_SEARCH_BY_KEYWORDS : string :=
  "https://kinopoiskapiunofficial.tech/api/v2.1/films/search-by-keyword".
Definition ENDPOINT_DATA_BY_FILM_ID : string :=
  "https://kinopoiskapiunofficial.tech/api/v2.2/films".
Definition ENDPOINT_STAFF_BY_FILM_ID : string :=
  "https://kinopoiskapiunofficial.tech/api/v1/staff".

(** [FILM_INFO_STRUCTURE]: output key, catalogue key. *)
Definition FILM_INFO_STRUCTURE : list (string * string) :=
  [ ("title", "nameRu");
    ("originaltitle", "nameOriginal");
    ("year", "year");
    ("plot", "description");
    ("runtime", "filmLength");
    ("rating", "ratingKinopoisk");
    ("votes", "ratingKinopoiskVoteCount");
    ("mpaa", "ratingMpaa");
    ("certification", "ratingMpaa");
    ("genres", "genres");
    ("countries", "countries");
    ("kinopoisk_id", "kinopoiskId");
    ("poster", "posterUrl");
    ("fanart", "coverUrl") ].

(* ===================================================================== *)
(** * main.py: key extraction *)
(* ===================================================================== *)

(** [SPLITTERS = r'[_.()]'] *)
Definition SPLITTERS : Re.regex := Re.OneOf ["_"; "."; "("; ")"]%char.

Definition no_year_message (raw_file_name : string) : string :=
  "У файла " +++ raw_file_name +++ " год выпуска не найден." +++
  String (ascii_of_nat 10) "Проверьте имя файла.".

Definition get_film_name_year (raw_file_name : string)
  : result (string * string) :=
  match Re.search YEAR_STAMP raw_file_name with
  | Some m =>
      let year := Re.m_group m in
      let raw_title := str_take (Re.m_start m) raw_file_name in
      let title := Re.sub SPLITTERS " " raw_title in
      let title := py_strip (Re.sub (Re.Plus Re.Space) " " title) in
      Ok (title, year)
  | None => Raise (Exn NoYearError (no_year_message raw_file_name))
  end.

(* ===================================================================== *)
(** * The outside world *)
(* ===================================================================== *)

(** What [requests.get] hands back: the status code and the outcome of
    [.json()] on the body. *)
Record response : Type := Response {
  status_code : Z;
  json : result pyval
}.

(** An element of the sidecar tree; [PNone] as text is an element without
    text. *)
Inductive xml : Type :=
  | Element (tag : string) (text : pyval) (children : list xml).

(** What the pipeline leaves on disk, oldest first. *)
Inductive event : Type :=
  | WroteFile (path : string) (content : string)
  | MadeDirs (path : string).

Definition world : Type := list event.

Definition written_paths (w : world) : list string :=
  flat_map (fun ev => match ev with
                      | WroteFile p _ => [p]
                      | MadeDirs _ => []
                      end) w.

(** [os.path.join(a, b)] on POSIX. *)
Definition starts_with_slash (s : string) : bool :=
  match s with
  | String c _ => Ascii.eqb c "/"
  | EmptyString => false
  end.

Definition path_join (a b : string) : string :=
  if starts_with_slash b then b
  else if String.eqb a "" || starts_with_slash (str_rev a) then a +++ b
  else a +++ "/" +++ b.

(** [s.rfind(c)], with [None] for -1. *)
Fixpoint str_rfind (c : ascii) (s : string) : option nat :=
  match s with
  | EmptyString => None
  | String x s' =>
      match str_rfind c s' with
      | Some i => Some (S i)
      | None => if Ascii.eqb x c then Some 0 else None
      end
  end.

(** Some character of [s[lo:hi]] differs from [c]. *)
Definition differs_within (c : ascii) (lo hi : nat) (s : string) : bool :=
  negb (str_all (Ascii.eqb c) (str_take (hi - lo) (str_drop lo s))).

(** [os.path.splitext(p)] on POSIX: the extension starts at the last dot of
    the last path component, leading dots of the component apart. *)
Definition splitext (p : string) : string * string :=
  match str_rfind "." p with
  | None => (p, "")
  | Some dot =>
      let name_start :=
        match str_rfind "/" p with Some i => S i | None => 0 end in
      if (name_start <=? dot) && differs_within "." name_start dot p
      then (str_take dot p, str_drop dot p)
      else (p, "")
  end.

Definition str_in (s : string) (l : list string) : bool :=
  existsb (String.eqb s) l.

Definition nl : string := String (ascii_of_nat 10) EmptyString.

(** ** Keys of a [dict] that are not known to be [str] *)

Definition numeric_view (v : pyval) : option (Z * positive) :=
  match v with
  | PBool b => Some (if b then 1%Z else 0%Z, 1%positive)
  | PInt n => Some (n, 1%positive)
  | PFloat (FFinite n d) => Some (n, d)
  | _ => None
  end.

(** [a == b] between two hashable values that are distinct objects. *)
Definition key_eqb (a b : pyval) : bool :=
  match numeric_view a, numeric_view b with
  | Some (n1, d1), Some (n2, d2) => Z.eqb (n1 * Zpos d2) (n2 * Zpos d1)
  | _, _ =>
      match a, b with
      | PNone, PNone => true
      | PStr s, PStr t => String.eqb s t
      | PFloat (FInf x), PFloat (FInf y) => Bool.eqb x y
      | _, _ => false
      end
  end.

Fixpoint kdict_set (k v : pyval) (d : list (pyval * pyval))
  : list (pyval * pyval) :=
  match d with
  | [] => [(k, v)]
  | (k', v') :: d' =>
      if key_eqb k k' then (k', v) :: d' else (k', v') :: kdict_set k v d'
  end.

(** [d[k] = v] for any key: lists and dicts cannot be hashed. *)
Definition py_setitem (k v : pyval) (d : list (pyval * pyval))
  : result (list (pyval * pyval)) :=
  match k with
  | PList _ | PDict _ =>
      raise TypeError ("unhashable type: '" +++ type_name (type_of k) +++ "'")
  | _ => Ok (kdict_set k v d)
  end.

(** [sep.join(items)] where the items need not be [str]. *)
Fixpoint join_values (sep : string) (i : nat) (items : list pyval)
  : result (list string) :=
  match items with
  | [] => Ok []
  | PStr s :: rest =>
      match join_values sep (S i) rest with
      | Ok l => Ok (s :: l)
      | Raise e => Raise e
      end
  | v :: _ =>
      raise TypeError
        ("sequence item " +++ str_of_int (Z.of_nat i)
         +++ ": expected str instance, " +++ type_name (type_of v) +++ " found")
  end.

Definition py_join_values (sep : string) (items : list pyval) : result string :=
  match join_values sep 0 items with
  | Ok l => Ok (py_join sep l)
  | Raise e => Raise e
  end.

(** ** Effects *)

(** A computation that may raise and may write to disk. *)
Definition M (A : Type) : Type := world -> result A * world.

Definition mret {A} (a : A) : M A := fun w => (Ok a, w).

Definition mbind {A B} (m : M A) (k : A -> M B) : M B :=
  fun w => match m w with
           | (Ok a, w') => k a w'
           | (Raise e, w') => (Raise e, w')
           end.

Definition lift {A} (r : result A) : M A := fun w => (r, w).

Definition emit (ev : event) : M unit := fun w => (Ok tt, w ++ [ev]).

(** [try: body except Exception as e: handler(e)].  Every exception class of
    this development derives from [Exception]. *)
Definition try_except {A} (body : M A) (handler : exn -> M A) : M A :=
  fun w => match body w with
           | (Ok a, w') => (Ok a, w')
           | (Raise e, w') => handler e w'
           end.

Notation "x <~ m ;; k" := (mbind m (fun x => k))
  (at level 61, m at next level, right associativity) : py_scope.
Notation "m ;;~ k" := (mbind m (fun _ => k))
  (at level 61, right associativity) : py_scope.

Local Open Scope py_scope.

Fixpoint mfor {A} (f : A -> M unit) (items : list A) : M unit :=
  match items with
  | [] => mret tt
  | x :: rest => f x ;;~ mfor f rest
  end.

Fixpoint rfold {A S} (f : S -> A -> result S) (items : list A) (st : S)
  : result S :=
  match items with
  | [] => Ok st
  | x :: rest => st' <- f st x ;; rfold f rest st'
  end.

(** What the pipeline asks of its surroundings. *)
Record environment : Type := Environment {
  (** the interpreter's [repr] of a value *)
  py_repr : pyval -> string;
  (** [os.getenv('x_api_key')] *)
  X_API_KEY : pyval;
  (** [requests.get] with the keyword arguments [request_params] *)
  requests_get : pyval -> result response;
  (** [requests.get(url=u).content] *)
  fetch_content : pyval -> result string;
  (** [tostring], [minidom.parseString], [toprettyxml] and the removal of
      the blank lines *)
  render_xml : xml -> result string;
  (** whether [open(path, 'w')] with the write fails on a path *)
  write_error : string -> option exn;
  (** whether [os.makedirs(path, exist_ok=True)] fails on a path *)
  makedirs_error : string -> option exn
}.

(* ===================================================================== *)
(** * main.py: the pipeline *)
(* ===================================================================== *)

Section Pipeline.

Variable env : environment.

(** [str(v)], also what an f-string puts for [{v}]. *)
Definition py_str (v : pyval) : string :=
  match v with
  | PStr s => s
  | PInt n => str_of_int n
  | PNone => "None"
  | PBool true => "True"
  | PBool false => "False"
  | _ => py_repr env v
  end.

Definition write_file (path content : string) : M unit :=
  match write_error env path with
  | Some e => lift (Raise e)
  | None => emit (WroteFile path content)
  end.

Definition makedirs (path : string) : M unit :=
  match makedirs_error env path with
  | Some e => lift (Raise e)
  | None => emit (MadeDirs path)
  end.

(** The [try: requests.get(...) except RequestException] of the three
    lookups. *)
Definition api_get (request_params : pyval) : result response :=
  match requests_get env request_params with
  | Ok r => Ok r
  | Raise e =>
      match exn_cls e with
      | RequestException =>
          raise APIConnectionError
            ("Ошибка при получении ответа от API " +++ py_str request_params
             +++ ": " +++ exn_str e)
      | _ => Raise e
      end
  end.

(** ** get_film_id *)

Definition found_message (name_ru : pyval) (year : string) : string :=
  "Данные о фильме " +++ py_str name_ru +++ " (" +++ year +++ ") "
  +++ "успешно получены".

Definition fallback_message (title year : string) : string :=
  "Год выпуска при поиске " +++ title +++ " (" +++ year +++ ") "
  +++ "не найден в ответе API, сохранены данные о фильме "
  +++ "с самым свежим годом релиза.".

Definition malformed_year_message : string :=
  "В ответе формат данных года не соответствует ожидаемым".

(** The [for idx, film in enumerate(films)] loop and the [return] after it;
    [rest] are the films still to visit, [idx] the index of the first of
    them.  [films[idx]] is read off the list of visited items: when [films]
    is not a list its items are strings and [film['year']] has raised
    before.  Once [isdigit] has answered, [film_year] is a [str]. *)
Fixpoint films_loop (title year : string) (films rest : list pyval)
    (idx : nat) (last_release_year : string) (last_released_film_idx : nat)
  : result (bool * string * string) :=
  match rest with
  | [] =>
      film_id <- py_getitem (nth last_released_film_idx films PNone) "filmId" ;;
      Ok (false, py_str film_id, fallback_message title year)
  | film :: rest' =>
      film_year <- py_getitem film "year" ;;
      n <- py_len film_year ;;
      if negb (n =? 4) then
        raise APIAnswerWrongDataError malformed_year_message
      else
        isdigit <- py_isdigit_method film_year ;;
        if negb isdigit then
          raise APIAnswerWrongDataError malformed_year_message
        else
          let film_year := match film_year with PStr y => y | _ => "" end in
          let newer := str_gt film_year last_release_year in
          let last_release_year :=
            if newer then film_year else last_release_year in
          let last_released_film_idx :=
            if newer then idx else last_released_film_idx in
          if String.eqb film_year year then
            name_ru <- py_getitem film "nameRu" ;;
            film_id <- py_getitem (nth idx films PNone) "filmId" ;;
            Ok (true, py_str film_id, found_message name_ru year)
          else
            films_loop title year films rest' (S idx)
              last_release_year last_released_film_idx
  end.

(** What [get_film_id] does with a 200 response. *)
Definition film_id_of_response (title year : string) (r : response)
  : result (option (bool * string * string)) :=
  request_data <- json r ;;
  validate_types [("request_data", (request_data, TDict))] ;;;
  match request_data with
  | PDict d =>
      match dict_get "films" d with
      | None => raise APIAnswerWrongDataError "Ключ films отсутствует в ответе API"
      | Some films =>
          n <- py_len films ;;
          if n =? 0 then
            raise NoFilmsError
              ("Поиск (" +++ title +++ "). В ответе API список films пуст."
               +++ nl +++ "Проверьте имя файла.")
          else
            items <- py_iter films ;;
            res <- films_loop title year items items 0 "0000" 0 ;;
            Ok (Some res)
      end
  | _ => raise TypeError "request_data" (* excluded by [validate_types] *)
  end.

Definition search_request (title : string) : pyval :=
  PDict [ ("url", PStr ENDPOINT_SEARCH_BY_KEYWORDS);
          ("headers", PDict [("x-api-key", X_API_KEY env)]);
          ("params", PDict [("keyword", PStr title)]) ].

Definition get_film_id (title year : string)
  : result (option (bool * string * string)) :=
  request_films <- api_get (search_request title) ;;
  check_request_status (status_code request_films) ;;;
  if Z.eqb (status_code request_films) HTTP_NOT_FOUND then Ok None
  else film_id_of_response title year request_films.

(** ** get_raw_film_info *)

Definition film_info_of_response (r : response) : result (option pyval) :=
  raw_film_info <- json r ;;
  validate_types [("raw_film_info", (raw_film_info, TDict))] ;;;
  Ok (Some raw_film_info).

Definition detail_request (film_id : string) : pyval :=
  PDict [ ("url", PStr (ENDPOINT_DATA_BY_FILM_ID +++ "/" +++ film_id));
          ("headers", PDict [("x-api-key", X_API_KEY env)]) ].

Definition get_raw_film_info (film_id : string) : result (option pyval) :=
  request_film_info <- api_get (detail_request film_id) ;;
  check_request_status (status_code request_film_info) ;;;
  if Z.eqb (status_code request_film_info) HTTP_NOT_FOUND then Ok None
  else film_info_of_response request_film_info.

(** ** get_raw_staff_info *)

(** [{'ACTORS': [...], 'DIRECTORS': [...]}] *)
Definition staff_dict (actors directors : list pyval)
  : list (string * list pyval) :=
  [("ACTORS", actors); ("DIRECTORS", directors)].

Definition staff_step (max_actors : nat) (st : list pyval * list pyval)
    (person : pyval) : result (list pyval * list pyval) :=
  let '(actors, directors) := st in
  key <- py_getitem person "professionKey" ;;
  let actors :=
    if py_eq_str key "ACTOR" && (List.length actors <? max_actors)
    then actors ++ [person] else actors in
  key <- py_getitem person "professionKey" ;;
  let directors :=
    if py_eq_str key "DIRECTOR" then directors ++ [person] else directors in
  Ok (actors, directors).

Definition staff_of_response (max_actors : nat) (r : response)
  : result (option (list (string * list pyval))) :=
  raw_film_staff_info <- json r ;;
  validate_types [("raw_film_staff_info", (raw_film_staff_info, TList))] ;;;
  match raw_film_staff_info with
  | PList persons =>
      st <- rfold (staff_step max_actors) persons ([], []) ;;
      Ok (Some (staff_dict (fst st) (snd st)))
  | _ => raise TypeError "raw_film_staff_info" (* excluded by [validate_types] *)
  end.

Definition staff_request (film_id : string) : pyval :=
  PDict [ ("url", PStr (ENDPOINT_STAFF_BY_FILM_ID +++ "?filmId=" +++ film_id));
          ("headers", PDict [("x-api-key", X_API_KEY env)]) ].

Definition get_raw_staff_info (film_id : string) (max_actors : nat)
  : result (option (list (string * list pyval))) :=
  request_staff_info <- api_get (staff_request film_id) ;;
  check_request_status (status_code request_staff_info) ;;;
  if Z.eqb (status_code request_staff_info) HTTP_NOT_FOUND then Ok None
  else staff_of_response max_actors request_staff_info.

(** ** get_clean_film_info *)

(** The three values the loop of [get_clean_film_info] builds:
    [clean_film_info], [posters_urls], [empty_fields]. *)
Definition clean_state : Type := dict * dict * list string.

Definition initial_clean_state : clean_state :=
  ([], [("poster", PNone); ("cover", PNone)], []).

Definition clean_step (raw_film_info : dict) (st : clean_state)
    (entry : string * string) : result clean_state :=
  let '(key, api_field) := entry in
  let '(clean_film_info, posters_urls, empty_fields) := st in
  let value := py_get api_field raw_film_info in
  if py_truthy value then
    if String.eqb key "runtime" then
      match py_int value with
      | Ok n =>
          Ok (dict_set key (PInt (n * 60)) clean_film_info, posters_urls,
              empty_fields)
      | Raise e =>
          match exn_cls e with
          | TypeError | ValueError =>
              Ok (dict_set key PNone clean_film_info, posters_urls,
                  empty_fields ++ [key])
          | _ => Raise e
          end
      end
    else if str_in key ["poster"; "fanart"] then
      Ok (clean_film_info, dict_set key value posters_urls, empty_fields)
    else
      Ok (dict_set key value clean_film_info, posters_urls, empty_fields)
  else
    Ok (clean_film_info, posters_urls, empty_fields ++ [key]).

(** The loop over [FILM_INFO_STRUCTURE.items()]. *)
Definition clean_film_fields (raw_film_info : dict) : result clean_state :=
  rfold (clean_step raw_film_info) FILM_INFO_STRUCTURE initial_clean_state.

Definition get_clean_film_info (raw_film_info : pyval)
  : result (dict * dict * string) :=
  validate_types [("raw_film_info", (raw_film_info, TDict))] ;;;
  match raw_film_info with
  | PDict d =>
      st <- clean_film_fields d ;;
      let '(clean_film_info, posters_urls, empty_fields) := st in
      Ok (clean_film_info, posters_urls, py_join ", " empty_fields)
  | _ => raise TypeError "raw_film_info" (* excluded by [validate_types] *)
  end.

(** ** get_clean_staff_info *)

(** [clean_staff_info], [staff_posters], [empty_posters] *)
Definition staff_state : Type :=
  list (string * list dict) * list (pyval * pyval) * list pyval.

Definition initial_staff_state : staff_state :=
  ([("ACTORS", []); ("DIRECTORS", [])], [], []).

Definition clean_person (profession : string) (st : staff_state)
    (person : pyval) : result staff_state :=
  let '(clean_staff_info, staff_posters, empty_posters) := st in
  name_ru <- py_get_method person "nameRu" ;;
  person_name <-
    (if py_truthy name_ru then py_getitem person "nameRu"
     else
       name_en <- py_get_method person "nameEn" ;;
       if py_truthy name_en then py_getitem person "nameEn" else Ok PNone) ;;
  clean_staff_info <-
    (if py_truthy person_name then
       match dict_get profession clean_staff_info with
       | None => raise KeyError ("'" +++ profession +++ "'")
       | Some persons =>
           role <- py_getitem person "description" ;;
           Ok (dict_set profession
                 (persons ++ [[("name", person_name); ("role", role)]])
                 clean_staff_info)
       end
     else Ok clean_staff_info) ;;
  poster_url <- py_get_method person "posterUrl" ;;
  if py_truthy poster_url then
    url <- py_getitem person "posterUrl" ;;
    staff_posters <- py_setitem person_name url staff_posters ;;
    Ok (clean_staff_info, staff_posters, empty_posters)
  else
    Ok (clean_staff_info, staff_posters, empty_posters ++ [person_name]).

Definition clean_profession (st : staff_state)
    (entry : string * list pyval) : result staff_state :=
  rfold (clean_person (fst entry)) (snd entry) st.

Definition get_clean_staff_info (raw_staff_info : list (string * list pyval))
  : result (list (string * list dict) * list (pyval * pyval) * string) :=
  st <- rfold clean_profession raw_staff_info initial_staff_state ;;
  let '(clean_staff_info, staff_posters, empty_posters) := st in
  empty_posters_str <- py_join_values ", " empty_posters ;;
  Ok (clean_staff_info, staff_posters, empty_posters_str).

(** ** create_nfo *)

Definition leaf (tag : string) (text : pyval) : xml := Element tag text [].

(** One child per entry of a [genres] or [countries] list. *)
Definition list_elements (tag field : string) (tag_value : pyval)
  : result (list xml) :=
  items <- py_iter tag_value ;;
  rfold (fun acc item =>
           x <- py_getitem item field ;;
           Ok (acc ++ [leaf tag (PStr (py_str x))]))
        items [].

Definition film_elements (children : list xml) (entry : string * pyval)
  : result (list xml) :=
  let '(tag, tag_value) := entry in
  if py_truthy tag_value then
    if String.eqb tag "genres" then
      l <- list_elements "genre" "genre" tag_value ;; Ok (children ++ l)
    else if String.eqb tag "countries" then
      l <- list_elements "country" "country" tag_value ;; Ok (children ++ l)
    else Ok (children ++ [leaf tag (PStr (py_str tag_value))])
  else Ok children.

Fixpoint actor_elements (idx : nat) (persons : list dict) : list xml :=
  match persons with
  | [] => []
  | person :: rest =>
      Element "actor" PNone
        [ leaf "name" (py_get "name" person);
          leaf "role" (py_get "role" person);
          leaf "order" (PStr (str_of_int (Z.of_nat idx))) ]
      :: actor_elements (S idx) rest
  end.

Definition staff_elements (entry : string * list dict) : list xml :=
  let '(profession, persons) := entry in
  if String.eqb profession "ACTORS" then actor_elements 0 persons
  else if String.eqb profession "DIRECTORS" then
    map (fun person => leaf "director" (py_get "name" person)) persons
  else [].

(** The body of the [try] of [create_nfo]. *)
Definition create_nfo_body (clean_film_info : dict)
    (clean_staff_info : list (string * list dict))
    (path raw_file_name : string) : M (bool * string) :=
  let nfo_path := path_join path (raw_file_name +++ ".nfo") in
  film <~ lift (rfold film_elements clean_film_info []) ;;
  let root :=
    Element "movie" PNone (film ++ flat_map staff_elements clean_staff_info) in
  final_xml <~ lift (render_xml env root) ;;
  write_file nfo_path final_xml ;;~
  mret (true, "*.nfo файл успешно создан.").

Definition create_nfo (clean_film_info : dict)
    (clean_staff_info : list (string * list dict))
    (path raw_file_name : string) : M (bool * string) :=
  try_except
    (create_nfo_body clean_film_info clean_staff_info path raw_file_name)
    (fun e => mret (false, "Ошибка при создании *.nfo: " +++ exn_str e)).

(** ** create_posters *)

Definition save_poster (root raw_file_name : string) (entry : string * pyval)
  : M unit :=
  let '(key, value) := entry in
  if py_truthy value then
    let file_root :=
      path_join root (raw_file_name +++ "-" +++ key +++ ".jpg") in
    picture <~ lift (fetch_content env value) ;;
    write_file file_root picture
  else mret tt.

Definition save_staff_photo (root : string) (entry : pyval * pyval) : M unit :=
  let '(name, poster_url) := entry in
  name <~ lift (match name with
                | PStr s => Ok (Re.sub (Re.Lit " ") "_" s)
                | _ => raise TypeError
                         ("expected string or bytes-like object, got '"
                          +++ type_name (type_of name) +++ "'")
                end) ;;
  let actors_dir := path_join root ".actors" in
  makedirs actors_dir ;;~
  let poster_root := path_join actors_dir (name +++ ".jpg") in
  poster <~ lift (fetch_content env poster_url) ;;
  write_file poster_root poster.

(** The body of the [try] of [create_posters]. *)
Definition create_posters_body (posters_urls : dict)
    (staff_posters : list (pyval * pyval)) (root raw_file_name : string)
  : M (bool * string) :=
  mfor (save_poster root raw_file_name) posters_urls ;;~
  mfor (save_staff_photo root) staff_posters ;;~
  mret (true, "Постеры успешно сохранены.").

Definition create_posters (posters_urls : dict)
    (staff_posters : list (pyval * pyval)) (root raw_file_name : string)
  : M (bool * string) :=
  try_except
    (create_posters_body posters_urls staff_posters root raw_file_name)
    (fun e => mret (false, "Ошибка при сохранении постеров: " +++ exn_str e)).

(** ** process_folder *)

Definition is_nfo_file_exists (video_file_name : string) (files : list string)
  : bool :=
  str_in (video_file_name +++ ".nfo") files.

(** A file is taken up when it has a video extension and no sidecar. *)
Definition eligible (files : list string) (file : string) : bool :=
  let '(raw_file_name, ext) := splitext file in
  str_in ext VIDEO_EXT && negb (is_nfo_file_exists raw_file_name files).

(** What [process_folder] does for one file that it takes up; [message] is
    the summary so far, the result the summary with this file's lines. *)
Definition process_file (root raw_file_name message : string) : M string :=
  ty <~ lift (get_film_name_year raw_file_name) ;;
  let '(title, year) := ty in
  result_film_id <~ lift (get_film_id title year) ;;
  match result_film_id with
  | None =>
      lift (raise NotFoundError
              ("В API для " +++ title +++ " (" +++ year +++ ") "
               +++ "id не найден"))
  | Some (is_ok_film_id, film_id, msg_id) =>
      result_raw_film_info <~ lift (get_raw_film_info film_id) ;;
      match result_raw_film_info with
      | None =>
          lift (raise NotFoundError
                  ("В API для id " +++ film_id +++ ") "
                   +++ "Информация о фильме не найдена"))
      | Some raw_film_info =>
          result_raw_staff_info <~ lift (get_raw_staff_info film_id MAX_ACTORS) ;;
          match result_raw_staff_info with
          | None =>
              lift (raise NotFoundError
                      ("В API для id " +++ film_id +++ ") "
                       +++ "Информация об актерах не найдена"))
          | Some raw_staff_info =>
              cleaned <~ lift (get_clean_film_info raw_film_info) ;;
              let '(clean_film_info, posters_urls, empty_fields) := cleaned in
              film_title <~ lift (py_getitem (PDict clean_film_info) "title") ;;
              film_year <~ lift (py_getitem (PDict clean_film_info) "year") ;;
              let message :=
                message +++ py_str film_title +++ " ("
                +++ py_str film_year +++ "):" in
              staff <~ lift (get_clean_staff_info raw_staff_info) ;;
              let '(clean_staff_info, staff_posters, empty_posters) := staff in
              nfo <~ create_nfo clean_film_info clean_staff_info root
                       raw_file_name ;;
              let message := message +++ nl +++ "- " +++ snd nfo in
              posters <~ create_posters posters_urls staff_posters root
                           raw_file_name ;;
              let message := message +++ nl +++ "- " +++ snd posters in
              mret (if is_ok_film_id then message
                    else message +++ nl +++ "- " +++ msg_id)
          end
      end
  end.

(** The [for file in files] loop; [rest] are the files still to visit. *)
Fixpoint process_files (root : string) (files rest : list string)
    (files_processed : nat) (message : string) : M (nat * string) :=
  match rest with
  | [] => mret (files_processed, message)
  | file :: rest' =>
      if eligible files file then
        message <~ process_file root (fst (splitext file)) message ;;
        process_files root files rest' (S files_processed) message
      else process_files root files rest' files_processed message
  end.

Definition process_folder (root : string) (files : list string)
  : M (nat * string) :=
  process_files root files files 0 "".

End Pipeline.

(* ===================================================================== *)
(** * The specification's own words *)
(* ===================================================================== *)

(** ** Key extraction on a [string], step by step *)

(** The text starts with a 4-digit run of the form 19xx or 20xx. *)
Definition year_here (s : string) : bool :=
  match s with
  | String a (String b (String c (String d _))) =>
      ((Ascii.eqb "1" a && Ascii.eqb "9" b) || (Ascii.eqb "2" a && Ascii.eqb "0" b))
      && is_decimal c && is_decimal d
  | _ => false
  end.

(** Position of the first such run. *)
Fixpoint first_year (s : string) : option nat :=
  if year_here s then Some 0
  else match s with
       | EmptyString => None
       | String _ s' => option_map S (first_year s')
       end.

Definition is_separator (c : ascii) : bool :=
  Ascii.eqb c "_" || Ascii.eqb c "." || Ascii.eqb c "(" || Ascii.eqb c ")".

(** Each separator character becomes a space. *)
Definition separators_to_spaces (s : string) : string :=
  str_map (fun c => if is_separator c then " "%char else c) s.

(** Each maximal run of whitespace becomes one space; [in_run] tells that
    the previous character was whitespace. *)
Fixpoint collapse_from (in_run : bool) (s : string) : string :=
  match s with
  | EmptyString => EmptyString
  | String c s' =>
      if char_isspace c
      then if in_run then collapse_from true s'
           else String " " (collapse_from true s')
      else String c (collapse_from false s')
  end.

Definition collapse_whitespace (s : string) : string := collapse_from false s.


(** ** Candidates of a search result *)

(** Exactly four decimal digits. *)
Definition four_digits (y : string) : bool :=
  (String.length y =? 4) && str_all is_decimal y.

Fixpoint number_from (acc : nat) (s : string) : nat :=
  match s with
  | EmptyString => acc
  | String c s' => number_from (10 * acc + (code c - 48)) s'
  end.

(** The number a string of decimal digits denotes. *)
Definition year_number (y : string) : nat := number_from 0 y.

(** The check of [get_film_id] on a year that is a [str]. *)
Definition year_accepted (y : string) : bool :=
  (String.length y =? 4) && py_isdigit y.

(** [film] is a JSON object whose year is the [str] [y]. *)
Definition has_year_field (film : pyval) (y : string) : Prop :=
  exists d, film = PDict d /\ dict_get "year" d = Some (PStr y).

(** The catalogue answers the search for [title] with status 200 and a body
    whose [films] is the list [films]. *)
Definition search_answers (env : environment) (title : string)
    (films : list pyval) : Prop :=
  exists r body,
    requests_get env (search_request env title) = Ok r /\
    status_code r = 200%Z /\
    json r = Ok (PDict body) /\
    dict_get "films" body = Some (PList films).

(** The year of a candidate whose [year] is a [str], and the empty text
    for any other candidate. *)
Definition year_of (film : pyval) : string :=
  match film with
  | PDict d =>
      match dict_get "year" d with
      | Some (PStr y) => y
      | _ => ""
      end
  | _ => ""
  end.

(** The candidate is a JSON object whose [year] is a string of exactly four
    decimal digits. *)
Definition has_four_digit_year (film : pyval) : bool :=
  match film with
  | PDict d =>
      match dict_get "year" d with
      | Some (PStr y) => four_digits y
      | _ => false
      end
  | _ => false
  end.

Definition has_year (year : string) (film : pyval) : bool :=
  String.eqb (year_of film) year.

(** [film], at index [i] of [films], has the numerically largest year of
    the list and is the first candidate to have that year. *)
Definition latest_first (films : list pyval) (i : nat) (film : pyval)
  : Prop :=
  nth_error films i = Some film /\
  (forall f, In f films ->
             year_number (year_of f) <= year_number (year_of film)) /\
  (forall j f, j < i -> nth_error films j = Some f ->
               year_number (year_of f) < year_number (year_of film)).

(** What the loop of [get_film_id] knows after the candidates [done] of
    [films]: [ly] is the largest year seen, the initial "0000" included, and
    [li] the index of the first candidate that has it, or 0 when nothing was
    seen. *)
Definition tracked (films done : list pyval) (ly : string) (li : nat)
  : Prop :=
  four_digits ly = true /\
  (forall f, In f done -> year_number (year_of f) <= year_number ly) /\
  ((done = [] /\ li = 0 /\ year_number ly = 0) \/
   (exists f, nth_error films li = Some f /\ li < List.length done /\
              year_number (year_of f) = year_number ly /\
              forall j f', j < li -> nth_error films j = Some f' ->
                           year_number (year_of f') < year_number ly)).

(** The outcome of the loop: with a candidate [found] that has the
    requested year, what the [return] inside the loop makes of that
    candidate; without one, what the [return] after the loop makes of the
    first candidate with the largest year. *)
Definition resolved (env : environment) (title year : string)
    (films : list pyval) (found : option pyval)
    (res : result (bool * string * string)) : Prop :=
  match found with
  | Some film =>
      res = rbind (py_getitem film "nameRu") (fun name_ru =>
            rbind (py_getitem film "filmId") (fun film_id =>
            Ok (true, py_str env film_id, found_message env name_ru year)))
  | None =>
      exists i film,
        latest_first films i film /\
        res = rbind (py_getitem film "filmId") (fun film_id =>
              Ok (false, py_str env film_id, fallback_message title year))
  end.

(** Each space becomes an underscore. *)
Definition underscored (name : string) : string :=
  str_map (fun c => if Ascii.eqb c " " then "_"%char else c) name.

(** Where the artwork of the file [raw_file_name] goes. *)
Definition artwork_path (root raw_file_name kind : string) : string :=
  path_join root (raw_file_name +++ "-" +++ kind +++ ".jpg").

(** Where the photo of [name] goes. *)
Definition photo_path (root name : string) : string :=
  path_join (path_join root ".actors") (underscored name +++ ".jpg").

(** The downloads and the file system never fail. *)
Definition output_succeeds (env : environment) : Prop :=
  (forall url, exists content, fetch_content env url = Ok content) /\
  (forall path, write_error env path = None) /\
  (forall path, makedirs_error env path = None).

(** The file system never fails, every download succeeds, and [picture url]
    is what the download of [url] yields. *)
Definition output_yields (env : environment) (picture : pyval -> string)
  : Prop :=
  (forall url, fetch_content env url = Ok (picture url)) /\
  (forall path, write_error env path = None) /\
  (forall path, makedirs_error env path = None).

(** ** The status-code contract *)

(** What a lookup returns for a status code, [on_success] being what it
    makes of a 200 response. *)
Definition status_contract {A} (status : Z) (on_success : result (option A))
  : result (option A) :=
  if Z.eqb status 200 then on_success
  else if Z.eqb status 404 then Ok None
  else if Z.eqb status 401 then
    raise UnauthorisedError "Ошибка авторизации, проверьте токен API"
  else if Z.eqb status 402 then
    raise RequestLimitExceededError
      "Превышен дневной или общий лимит на запросы к API"
  else if Z.eqb status 429 then
    raise TooManyRequestsError "Превышен секундный лимит на запросы к API"
  else raise APIConnectionError ("API вернул код: " +++ str_of_int status).

(* ===================================================================== *)
(** * A sample catalogue *)
(* ===================================================================== *)

Module Sample.

Definition film (id : Z) (name year : string) : pyval :=
  PDict [("filmId", PInt id); ("nameRu", PStr name); ("year", PStr year)].

Definition person (key name photo : string) : pyval :=
  PDict [ ("professionKey", PStr key); ("nameRu", PStr name);
          ("description", PStr "role"); ("posterUrl", PStr photo) ].

Definition staff : pyval :=
  PList [ person "ACTOR" "Leonardo Di Caprio" "http://img/actor.jpg";
          person "DIRECTOR" "Christopher Nolan" "http://img/director.jpg" ].

Definition starts_with (p s : string) : bool := String.prefix p s.

(** A catalogue that answers every search with [films], every detail
    request with [detail] and every staff request with [staff], all with
    status 200; downloads, serialisation and writes succeed. *)
Definition catalogue (films detail : pyval) : environment :=
  {| py_repr := fun _ => "<repr>";
     X_API_KEY := PStr "key";
     requests_get := fun request =>
       match request with
       | PDict d =>
           match dict_get "url" d with
           | Some (PStr url) =>
               if String.eqb url ENDPOINT_SEARCH_BY_KEYWORDS then
                 Ok (Response 200 (Ok (PDict [("films", films)])))
               else if starts_with (ENDPOINT_DATA_BY_FILM_ID +++ "/") url then
                 Ok (Response 200 (Ok detail))
               else Ok (Response 200 (Ok staff))
           | _ => raise RequestException "no url"
           end
       | _ => raise RequestException "no url"
       end;
     fetch_content := fun _ => Ok "<jpeg>";
     render_xml := fun _ => Ok "<movie/>";
     write_error := fun _ => None;
     makedirs_error := fun _ => None |}.

(** The same catalogue answering every request with one status code. *)
Definition with_status (status : Z) (e : environment) : environment :=
  {| py_repr := py_repr e;
     X_API_KEY := X_API_KEY e;
     requests_get := fun request =>
       match requests_get e request with
       | Ok r => Ok (Response status (json r))
       | Raise x => Raise x
       end;
     fetch_content := fetch_content e;
     render_xml := render_xml e;
     write_error := write_error e;
     makedirs_error := makedirs_error e |}.

Definition inception_search : pyval :=
  PList [film 1 "Начало (2009)" "2009"; film 2 "Начало" "2010"].

Definition inception_fields : dict :=
  [ ("kinopoiskId", PInt 2); ("nameRu", PStr "Начало");
    ("nameOriginal", PStr "Inception"); ("year", PInt 2010);
    ("filmLength", PInt 148);
    ("genres", PList [PDict [("genre", PStr "фантастика")]]);
    ("posterUrl", PStr "http://img/poster.jpg");
    ("coverUrl", PStr "http://img/cover.jpg") ].

Definition inception : pyval := PDict inception_fields.

(** A record without a title. *)
Definition untitled_fields : dict :=
  [("kinopoiskId", PInt 2); ("year", PInt 2010)].

Definition env : environment := catalogue inception_search inception.

(** A picture that tells where it was downloaded from. *)
Definition picture_of (url : pyval) : string :=
  match url with
  | PStr u => "<jpeg of " +++ u +++ ">"
  | _ => "<jpeg>"
  end.

(** The environment [e] with every download yielding [picture_of] its
    URL. *)
Definition with_pictures (e : environment) : environment :=
  {| py_repr := py_repr e;
     X_API_KEY := X_API_KEY e;
     requests_get := requests_get e;
     fetch_content := fun url => Ok (picture_of url);
     render_xml := render_xml e;
     write_error := write_error e;
     makedirs_error := makedirs_error e |}.

End Sample.

(* ===================================================================== *)
(** * More of the specification's words *)
(* ===================================================================== *)

Definition starts_with_space (s : string) : bool :=
  match s with
  | String c _ => char_isspace c
  | EmptyString => false
  end.

(** The catalogue answers a request with status 200 and the JSON value
    [body]. *)
Definition answers (env : environment) (request : pyval) (body : pyval)
  : Prop :=
  exists r, requests_get env request = Ok r /\
            status_code r = 200%Z /\ json r = Ok body.

(** [person['professionKey'] == key] *)
Definition profession_is (key : string) (person : pyval) : bool :=
  match py_getitem person "professionKey" with
  | Ok v => py_eq_str v key
  | Raise _ => false
  end.

Definition has_profession_key (person : pyval) : Prop :=
  exists v, py_getitem person "professionKey" = Ok v.

(** ** The people of a film *)

(** The name [get_clean_staff_info] settles on: [nameRu] when it is truthy,
    else [nameEn] when that is truthy, else [None]. *)
Definition display_name (d : dict) : pyval :=
  if py_truthy (py_get "nameRu" d) then py_get "nameRu" d
  else if py_truthy (py_get "nameEn" d) then py_get "nameEn" d
  else PNone.

Definition name_of (person : pyval) : pyval :=
  match person with
  | PDict d => display_name d
  | _ => PNone
  end.

Definition is_named (person : pyval) : bool := py_truthy (name_of person).

Definition has_photo (person : pyval) : bool :=
  match person with
  | PDict d => py_truthy (py_get "posterUrl" d)
  | _ => false
  end.

(** [{'name': person_name, 'role': person['description']}] *)
Definition roster_entry (person : pyval) : dict :=
  match person with
  | PDict d => [("name", display_name d); ("role", py_get "description" d)]
  | _ => []
  end.

(** A person as the catalogue is expected to send it: an object with a
    [description] whose name, when there is one, is a [str]. *)
Definition plain_person (person : pyval) : Prop :=
  exists d, person = PDict d /\ dict_has "description" d = true /\
            (display_name d = PNone \/ exists s, display_name d = PStr s).

(** ** The normalised document as a map *)

(** What the document holds under [key] when the field table maps [key] to
    the source key [api]. *)
Definition expected_field (d : dict) (key api : string) : option pyval :=
  let value := py_get api d in
  if str_in key ["poster"; "fanart"] then None
  else if negb (py_truthy value) then None
  else if String.eqb key "runtime" then
    match py_int value with
    | Ok n => Some (PInt (n * 60))
    | Raise _ => Some PNone
    end
  else Some value.

(** Whether [key] is reported in [empty_fields]. *)
Definition reported_empty (d : dict) (entry : string * string) : bool :=
  let value := py_get (snd entry) d in
  negb (py_truthy value)
  || (String.eqb (fst entry) "runtime"
      && match py_int value with Ok _ => false | Raise _ => true end).

(** ** utils/validation.py *)

Module Validation.

(** The second [validate_types] of the repository: its message reads
    [value.__name__], an attribute that no JSON value has. *)
Fixpoint validate_types (kwargs : list (string * (pyval * pytype)))
  : result unit :=
  match kwargs with
  | [] => Ok tt
  | (name, (value, expected_type)) :: rest =>
      if is_none value || negb (py_isinstance value expected_type) then
        raise AttributeError
          ("'" +++ type_name (type_of value)
           +++ "' object has no attribute '__name__'")
      else validate_types rest
  end.

End Validation.

(** A pair [name=(value, expected_type)] that [validate_types] accepts. *)
Definition well_typed (kw : string * (pyval * pytype)) : bool :=
  negb (is_none (fst (snd kw)))
  && py_isinstance (fst (snd kw)) (snd (snd kw)).

(* ===================================================================== *)
(** * main.py: configuration, notification and one pass of [main] *)
(* ===================================================================== *)

(** What [bot.send_message] does with a message: it delivers it, raises
    [ApiTelegramException] or [RequestException], or raises something
    else. *)
Inductive send_outcome : Type :=
  | Delivered
  | Refused
  | Crashed (e : exn).

(** A directory as [os.walk] lists it: its file names and its
    subdirectories by name, each in the order of the listing. *)
Inductive dirtree : Type :=
  | Dir (files : list string) (dirs : list (string * dirtree)).

(** What [main] asks of its surroundings beyond the pipeline.
    [TV_SHOWS_FOLDER] is imported from [config.settings], which does not
    define it in the sources at hand. *)
Record host : Type := Host {
  (** [os.getenv('media_root_path')] and the like: a [str] or [None] *)
  MEDIA_ROOT_PATH : option string;
  TELEGRAM_BOT_TOKEN : option string;
  TELEGRAM_CHAT_ID : option string;
  TV_SHOWS_FOLDER : string;
  (** [bot.send_message(TELEGRAM_CHAT_ID, message)] *)
  bot_send_message : string -> send_outcome;
  (** what [os.walk] finds under [MEDIA_ROOT_PATH] *)
  media_tree : dirtree
}.

Definition getenv_value (o : option string) : pyval :=
  match o with
  | Some s => PStr s
  | None => PNone
  end.

Section Main.

Variable env : environment.
Variable h : host.

(** [var_value is None or (isinstance(var_value, str) and
    var_value.strip() == '')] *)
Definition is_blank (var_value : pyval) : bool :=
  match var_value with
  | PNone => true
  | PStr s => String.eqb (py_strip s) ""
  | _ => false
  end.

(** The dictionary [variables] of [check_vars]; the tuple [VIDEO_EXT] is
    given as a list, which is no more a [str] than the tuple is. *)
Definition variables : list (string * list (string * pyval)) :=
  [ (".env",
     [ ("MEDIA_ROOT_PATH", getenv_value (MEDIA_ROOT_PATH h));
       ("TELEGRAM_BOT_TOKEN", getenv_value (TELEGRAM_BOT_TOKEN h));
       ("TELEGRAM_CHAT_ID", getenv_value (TELEGRAM_CHAT_ID h));
       ("X_API_KEY", X_API_KEY env) ]);
    ("settings.py",
     [ ("YEAR_STAMP", PStr "(19|20)\d{2}");
       ("VIDEO_EXT", PList (map PStr VIDEO_EXT));
       ("ENDPOINT_SEARCH_BY_KEYWORDS", PStr ENDPOINT_SEARCH_BY_KEYWORDS);
       ("ENDPOINT_DATA_BY_FILM_ID", PStr ENDPOINT_DATA_BY_FILM_ID);
       ("ENDPOINT_STAFF_BY_FILM_ID", PStr ENDPOINT_STAFF_BY_FILM_ID) ]) ].

Definition missing_in (file_vars : string * list (string * pyval))
  : list string :=
  map (fun var => fst file_vars +++ ": " +++ fst var)
      (filter (fun var => is_blank (snd var)) (snd file_vars)).

Definition check_vars : result unit :=
  let missing_vars := flat_map missing_in variables in
  match missing_vars with
  | [] => Ok tt
  | _ =>
      raise MissingVariableError
        ("В переменных окружения не определены: "
         +++ py_join ", " missing_vars)
  end.

Definition send_message (message : string) : result bool :=
  match bot_send_message h message with
  | Delivered => Ok true
  | Refused => Ok false
  | Crashed e => Raise e
  end.

(** The subdirectories that the loop body has left in [dirs], walked in
    order by [walk_sub]; [removed] tells that [dirs.remove(TV_SHOWS_FOLDER)]
    has taken its entry out. *)
Fixpoint walk_dirs (walk_sub : string -> dirtree -> nat -> string
                               -> M (nat * string))
    (root : string) (dirs : list (string * dirtree)) (removed : bool)
    (new_files : nat) (bot_message : string) {struct dirs}
  : M (nat * string) :=
  match dirs with
  | [] => mret (new_files, bot_message)
  | (name, sub) :: dirs' =>
      if negb removed && String.eqb name (TV_SHOWS_FOLDER h) then
        walk_dirs walk_sub root dirs' true new_files bot_message
      else
        totals <~ walk_sub (path_join root name) sub new_files bot_message ;;
        walk_dirs walk_sub root dirs' removed (fst totals) (snd totals)
  end.

(** The body of the [for root, dirs, files in os.walk(...)] loop for the
    directory [t] at [root] and, after it, for its subdirectories;
    [new_files] and [bot_message] are the running totals. *)
Fixpoint walk (root : string) (t : dirtree) (new_files : nat)
    (bot_message : string) {struct t} : M (nat * string) :=
  match t with
  | Dir files dirs =>
      processed <~ process_folder env root files ;;
      let bot_message :=
        if String.eqb (snd processed) "" then bot_message
        else bot_message +++ "**** " +++ snd processed +++ nl +++ nl in
      walk_dirs walk root dirs false (new_files + fst processed) bot_message
  end.

(** The [try] block of [main] up to the notification. *)
Definition scan : M (nat * string) :=
  lift check_vars ;;~
  match MEDIA_ROOT_PATH h with
  | Some top => walk top (media_tree h) 0 ""
  | None => (* excluded by [check_vars] *)
      lift (raise TypeError
              "expected str, bytes or os.PathLike object, not NoneType")
  end.

Definition failure_message (error : exn) : string :=
  "Сбой в работе программы:" +++ nl +++ exn_str error.

(** The [except Exception as error] branch of [main]: the new
    [latest_error_msg] and the messages handed to the bot. *)
Definition report_failure (latest_error_msg : string) (error : exn)
  : string * list string :=
  let error_message := failure_message error in
  if String.eqb error_message latest_error_msg then (latest_error_msg, [])
  else
    match send_message error_message with
    | Ok _ => (error_message, [error_message])
    | Raise _ => (latest_error_msg, [error_message])
    end.

(** One turn of the [while True] loop of [main], the sleep apart: the new
    [latest_error_msg], the messages handed to the bot and the lines
    printed. *)
Definition main_iteration (latest_error_msg : string) (w : world)
  : (string * list string * list string) * world :=
  match scan w with
  | (Ok (new_files, bot_message), w') =>
      if 0 <? new_files then
        let bot_message :=
          bot_message +++ "*!* Новых фильмов в медиатеке - "
          +++ str_of_int (Z.of_nat new_files) +++ "." in
        match send_message bot_message with
        | Ok _ => ((latest_error_msg, [bot_message], []), w')
        | Raise error =>
            let '(latest, sent) := report_failure latest_error_msg error in
            ((latest, bot_message :: sent, []), w')
        end
      else ((latest_error_msg, [], ["Новых файлов нет"]), w')
  | (Raise error, w') =>
      let '(latest, sent) := report_failure latest_error_msg error in
      ((latest, sent, []), w')
  end.

End Main.

(** The four variables that come from the environment. *)
Definition env_variables (env : environment) (h : host)
  : list (string * pyval) :=
  [ ("MEDIA_ROOT_PATH", getenv_value (MEDIA_ROOT_PATH h));
    ("TELEGRAM_BOT_TOKEN", getenv_value (TELEGRAM_BOT_TOKEN h));
    ("TELEGRAM_CHAT_ID", getenv_value (TELEGRAM_CHAT_ID h));
    ("X_API_KEY", X_API_KEY env) ].

(** The names of those that are [None] or blank, as [check_vars] words
    them. *)
Definition blank_variables (env : environment) (h : host) : list string :=
  map (fun var => ".env: " +++ fst var)
      (filter (fun var => is_blank (snd var)) (env_variables env h)).

Definition missing_variables_message (names : list string) : string :=
  "В переменных окружения не определены: " +++ py_join ", " names.

Fixpoint all_dirs (P : dirtree -> Prop) (dirs : list (string * dirtree))
  : Prop :=
  match dirs with
  | [] => True
  | (_, sub) :: dirs' => P sub /\ all_dirs P dirs'
  end.

(** Every video of the directory and of the directories below it has its
    sidecar in the listing. *)
Fixpoint settled (t : dirtree) : Prop :=
  match t with
  | Dir files dirs =>
      (forall file, In file files ->
         ~ In (snd (splitext file)) VIDEO_EXT \/
         In (fst (splitext file) +++ ".nfo") files) /\
      all_dirs settled dirs
  end.

Fixpoint sum_dirs (count : dirtree -> nat) (tv : string)
    (dirs : list (string * dirtree)) (removed : bool) : nat :=
  match dirs with
  | [] => 0
  | (name, sub) :: dirs' =>
      if negb removed && String.eqb name tv then sum_dirs count tv dirs' true
      else count sub + sum_dirs count tv dirs' removed
  end.

(** The number of video files without a sidecar in the directories that a
    pass visits, the first subdirectory named [tv] of each directory being
    left out. *)
Fixpoint new_videos (tv : string) (t : dirtree) : nat :=
  match t with
  | Dir files dirs =>
      List.length (filter (eligible files) files)
      + sum_dirs (new_videos tv) tv dirs false
  end.

(* ===================================================================== *)
(** * More sample data *)
(* ===================================================================== *)

Module More.

(** The environment [e] with every staff request answered by [staff],
    status 200. *)
Definition with_staff (staff : pyval) (e : environment) : environment :=
  {| py_repr := py_repr e;
     X_API_KEY := X_API_KEY e;
     requests_get := fun request =>
       match request with
       | PDict d =>
           match dict_get "url" d with
           | Some (PStr url) =>
               if Sample.starts_with ENDPOINT_STAFF_BY_FILM_ID url
               then Ok (Response 200 (Ok staff))
               else requests_get e request
           | _ => requests_get e request
           end
       | _ => requests_get e request
       end;
     fetch_content := fetch_content e;
     render_xml := render_xml e;
     write_error := write_error e;
     makedirs_error := makedirs_error e |}.

End More.

(** The names of the people without a photo, in order. *)
Definition unphotographed (persons : list pyval) : list pyval :=
  map name_of (filter (fun p => negb (has_photo p)) persons).

Definition text_of (v : pyval) : string :=
  match v with
  | PStr s => s
  | _ => EmptyString
  end.

(** The photo map with the display names as [str] keys. *)
Definition named_photos (photos : list (string * pyval))
  : list (pyval * pyval) :=
  map (fun p => (PStr (fst p), snd p)) photos.

(** The artwork files of an image map: one per entry with a truthy URL. *)
Definition artwork_paths (root raw_file_name : string) (posters_urls : dict)
  : list string :=
  map (fun e => artwork_path root raw_file_name (fst e))
      (filter (fun e => py_truthy (snd e)) posters_urls).

(** The tree that [create_nfo] hands to the serialiser. *)
Definition nfo_tree (film : list xml)
    (clean_staff_info : list (string * list dict)) : xml :=
  Element "movie" PNone (film ++ flat_map staff_elements clean_staff_info).

Definition tag_of (x : xml) : string :=
  match x with Element tag _ _ => tag end.

(* ===================================================================== *)
(** * Key extraction on the whole of [str] *)
(* ===================================================================== *)

(** A file name is any [str]: Cyrillic titles are the usual input, and the
    classes [\d] and [\s] of [re] and the whitespace of [str.strip] are
    those of the Unicode database.  [Uni] embeds [get_film_name_year] on a
    [str] as the sequence of its code points. *)
Module Uni.

Definition str : Type := list N.

(** [ord(c)] for a character of the Latin-1 range. *)
Definition ord (c : ascii) : N := N_of_ascii c.

(** A text constant of the source file, decoded from its UTF-8 bytes;
    [need] counts the continuation bytes still to come and [acc] holds the
    bits read so far. *)
Fixpoint decode_from (need : nat) (acc : N) (bytes : string) : str :=
  match bytes with
  | EmptyString => []
  | String b bytes' =>
      let n := N_of_ascii b in
      match need with
      | O =>
          if (n <? 128)%N then n :: decode_from 0 0%N bytes'
          else if (n <? 224)%N then decode_from 1 (n - 192)%N bytes'
          else if (n <? 240)%N then decode_from 2 (n - 224)%N bytes'
          else decode_from 3 (n - 240)%N bytes'
      | S O => (acc * 64 + (n - 128))%N :: decode_from 0 0%N bytes'
      | S k => decode_from k (acc * 64 + (n - 128))%N bytes'
      end
  end.

Definition text (literal : string) : str := decode_from 0 0%N literal.

Definition in_ranges (ranges : list (N * N)) (c : N) : bool :=
  existsb (fun r => (fst r <=? c)%N && (c <=? snd r)%N) ranges.

(** The characters with a decimal digit value, [str.isdecimal], which are
    what [\d] matches in a [str] pattern: the 680 characters of general
    category Nd of Unicode 15, the database of CPython 3.12 and 3.13. *)
Definition DECIMAL_DIGITS : list (N * N) :=
  [ (48, 57); (1632, 1641); (1776, 1785); (1984, 1993); (2406, 2415);
    (2534, 2543); (2662, 2671); (2790, 2799); (2918, 2927); (3046, 3055);
    (3174, 3183); (3302, 3311); (3430, 3439); (3558, 3567); (3664, 3673);
    (3792, 3801); (3872, 3881); (4160, 4169); (4240, 4249); (6112, 6121);
    (6160, 6169); (6470, 6479); (6608, 6617); (6784, 6793); (6800, 6809);
    (6992, 7001); (7088, 7097); (7232, 7241); (7248, 7257); (42528, 42537);
    (43216, 43225); (43264, 43273); (43472, 43481); (43504, 43513);
    (43600, 43609); (44016, 44025); (65296, 65305); (66720, 66729);
    (68912, 68921); (69734, 69743); (69872, 69881); (69942, 69951);
    (70096, 70105); (70384, 70393); (70736, 70745); (70864, 70873);
    (71248, 71257); (71360, 71369); (71472, 71481); (71904, 71913);
    (72016, 72025); (72784, 72793); (73040, 73049); (73120, 73129);
    (73552, 73561); (92768, 92777); (92864, 92873); (93008, 93017);
    (120782, 120831); (123200, 123209); (123632, 123641);
    (124144, 124153); (125264, 125273); (130032, 130041) ]%N.

Definition is_decimal (c : N) : bool := in_ranges DECIMAL_DIGITS c.

(** The whitespace of [str.isspace], which is what [\s] matches in a [str]
    pattern and what [str.strip()] removes. *)
Definition WHITESPACE : list (N * N) :=
  [ (9, 13); (28, 32); (133, 133); (160, 160); (5760, 5760); (8192, 8202);
    (8232, 8233); (8239, 8239); (8287, 8287); (12288, 12288) ]%N.

Definition is_space (c : N) : bool := in_ranges WHITESPACE c.

Fixpoint lstrip (s : str) : str :=
  match s with
  | [] => []
  | c :: s' => if is_space c then lstrip s' else s
  end.

Definition rstrip (s : str) : str := rev (lstrip (rev s)).

(** [str.strip()] *)
Definition strip (s : str) : str := rstrip (lstrip s).

(** ** The fragment of [re] that key extraction uses *)

Module Re.

Inductive regex : Type :=
  | Lit (c : N)                 (* a literal character *)
  | OneOf (cs : list N)         (* [...] *)
  | Digit                       (* \d *)
  | Space                       (* \s *)
  | Cat (r1 r2 : regex)         (* r1 r2 *)
  | Alt (r1 r2 : regex)         (* r1|r2, the left branch is tried first *)
  | Plus (r : regex).           (* r+, greedy *)

Definition one (p : N -> bool) (s : str) : list str :=
  match s with
  | c :: s' => if p c then [s'] else []
  | [] => []
  end.

(** [rmatch r s]: what is left of [s] after each way [r] matches a prefix
    of it, in the order a backtracking matcher tries them. *)
Fixpoint rmatch (r : regex) (s : str) : list str :=
  match r with
  | Lit c => one (N.eqb c) s
  | OneOf cs => one (fun x => existsb (N.eqb x) cs) s
  | Digit => one is_decimal s
  | Space => one is_space s
  | Cat r1 r2 => flat_map (rmatch r2) (rmatch r1 s)
  | Alt r1 r2 => rmatch r1 s ++ rmatch r2 s
  | Plus r' =>
      (fix more (fuel : nat) (s0 : str) {struct fuel} : list str :=
         flat_map
           (fun s1 => match fuel with
                      | O => []
                      | S fuel' => more fuel' s1
                      end ++ [s1])
           (rmatch r' s0))
        (List.length s) s
  end.

(** A match object: [m.start()] and [m.group()]. *)
Record match_obj : Type := Match { m_start : nat; m_group : str }.

Definition match_here (r : regex) (s : str) : option str :=
  match rmatch r s with
  | rest :: _ => Some (firstn (List.length s - List.length rest) s)
  | [] => None
  end.

(** [re.search(r, s)]: the leftmost match. *)
Fixpoint search (r : regex) (s : str) : option match_obj :=
  match match_here r s with
  | Some g => Some (Match 0 g)
  | None =>
      match s with
      | [] => None
      | _ :: s' =>
          match search r s' with
          | Some m => Some (Match (S (m_start m)) (m_group m))
          | None => None
          end
      end
  end.

(** [re.sub(r, repl, s)] for a literal replacement: the non-overlapping
    matches are replaced from left to right.  [skip] counts the characters
    of the current match that are still to be passed over. *)
Fixpoint sub_from (r : regex) (repl : str) (skip : nat) (s : str) : str :=
  match s with
  | [] => []
  | c :: s' =>
      match skip with
      | S k => sub_from r repl k s'
      | O =>
          match match_here r s with
          | Some g => repl ++ sub_from r repl (List.length g - 1) s'
          | None => c :: sub_from r repl 0 s'
          end
      end
  end.

Definition sub (r : regex) (repl : str) (s : str) : str :=
  sub_from r repl 0 s.

End Re.

(** ** [get_film_name_year] *)

(** [YEAR_STAMP = r'(19|20)\d{2}'] *)
Definition YEAR_STAMP : Re.regex :=
  Re.Cat (Re.Alt (Re.Cat (Re.Lit (ord "1")) (Re.Lit (ord "9")))
                 (Re.Cat (Re.Lit (ord "2")) (Re.Lit (ord "0"))))
         (Re.Cat Re.Digit Re.Digit).

(** [SPLITTERS = r'[_.()]'] *)
Definition SPLITTERS : Re.regex :=
  Re.OneOf [ord "_"; ord "."; ord "("; ord ")"].

(** What a call comes to: a value, or an exception of a class with its
    [str(e)]. *)
Inductive outcome (A : Type) : Type :=
  | Returns (a : A)
  | Raises (cls : exn_class) (message : str).
Arguments Returns {A} a.
Arguments Raises {A} cls message.

Definition no_year_message (raw_file_name : str) : str :=
  text "У файла " ++ raw_file_name ++ text " год выпуска не найден."
  ++ [10%N] ++ text "Проверьте имя файла.".

Definition get_film_name_year (raw_file_name : str) : outcome (str * str) :=
  match Re.search YEAR_STAMP raw_file_name with
  | Some m =>
      let year := Re.m_group m in
      let raw_title := firstn (Re.m_start m) raw_file_name in
      let title := Re.sub SPLITTERS [ord " "] raw_title in
      let title := strip (Re.sub (Re.Plus Re.Space) [ord " "] title) in
      Returns (title, year)
  | None => Raises NoYearError (no_year_message raw_file_name)
  end.

(** ** Key extraction as the specification words it *)

(** The digits 0 to 9. *)
Definition ascii_digit (c : N) : bool := (48 <=? c)%N && (c <=? 57)%N.

(** The text starts with a run of four characters of the form 19xx or
    20xx, [digit] telling what an x may be. *)
Definition year_here (digit : N -> bool) (s : str) : bool :=
  match s with
  | a :: b :: c :: d :: _ =>
      ((N.eqb a 49 && N.eqb b 57) || (N.eqb a 50 && N.eqb b 48))
      && digit c && digit d
  | _ => false
  end.

(** Position of the first such run. *)
Fixpoint first_year (digit : N -> bool) (s : str) : option nat :=
  if year_here digit s then Some 0
  else match s with
       | [] => None
       | _ :: s' => option_map S (first_year digit s')
       end.

Definition is_separator (c : N) : bool :=
  N.eqb c 95 || N.eqb c 46 || N.eqb c 40 || N.eqb c 41.

(** Each separator character becomes a space. *)
Definition separators_to_spaces (s : str) : str :=
  map (fun c => if is_separator c then 32%N else c) s.

(** Each maximal run of whitespace becomes one space; [in_run] tells that
    the previous character was whitespace. *)
Fixpoint collapse_from (in_run : bool) (s : str) : str :=
  match s with
  | [] => []
  | c :: s' =>
      if is_space c
      then if in_run then collapse_from true s'
           else 32%N :: collapse_from true s'
      else c :: collapse_from false s'
  end.

Definition collapse_whitespace (s : str) : str := collapse_from false s.

(** The text without the whitespace at its start. *)
Fixpoint trim_start (s : str) : str :=
  match s with
  | [] => []
  | c :: s' => if is_space c then trim_start s' else c :: s'
  end.

(** The text without the whitespace at its end. *)
Fixpoint trim_end (s : str) : str :=
  match s with
  | [] => []
  | c :: s' =>
      match trim_end s' with
      | [] => if is_space c then [] else [c]
      | kept => c :: kept
      end
  end.

Definition trim (s : str) : str := trim_end (trim_start s).

(** The key of a file name: the title and the year, when there is a year. *)
Definition extract_key (digit : N -> bool) (s : str) : option (str * str) :=
  match first_year digit s with
  | Some i =>
      Some (trim (collapse_whitespace (separators_to_spaces (firstn i s))),
            firstn 4 (skipn i s))
  | None => None
  end.

(** ** The shape of a key *)

Definition no_separator (s : str) : bool :=
  forallb (fun c => negb (is_separator c)) s.

Definition starts_with_space (s : str) : bool :=
  match s with
  | c :: _ => is_space c
  | [] => false
  end.

(** The text neither starts nor ends with a whitespace character. *)
Definition trimmed (s : str) : bool :=
  negb (starts_with_space s) && negb (starts_with_space (rev s)).

(** Every whitespace character of the text is a space that is not followed
    by another whitespace character. *)
Fixpoint single_spaced (s : str) : bool :=
  match s with
  | [] => true
  | c :: s' =>
      (if is_space c
       then N.eqb c 32 &&
            match s' with
            | c' :: _ => negb (is_space c')
            | [] => true
            end
       else true)
      && single_spaced s'
  end.

(** The code points of a [string] of the pipeline. *)
Fixpoint codes (s : string) : str :=
  match s with
  | EmptyString => []
  | String c s' => ord c :: codes s'
  end.

End Uni.

(* ===================================================================== *)
(** * Properties *)
(* ===================================================================== *)

(** ** The built-ins on small inputs *)

Example int_of_str_plain : int_of_str "120" = Some 120%Z.
Proof. reflexivity. Qed.

Example int_of_str_spaces_and_sign : int_of_str "  -12 " = Some (-12)%Z.
Proof. reflexivity. Qed.

Example int_of_str_underscore : int_of_str "1_000" = Some 1000%Z.
Proof. reflexivity. Qed.

Example int_of_str_rejects :
  map int_of_str [""; "abc"; "12a"; "_1"; "1_"; "1__0"; "- 1"; "1.5"]
  = [None; None; None; None; None; None; None; None].
Proof. reflexivity. Qed.

Example splitext_video :
  splitext "Inception.2010.1080p.mkv" = ("Inception.2010.1080p", ".mkv").
Proof. reflexivity. Qed.

Example splitext_hidden : splitext ".hidden" = (".hidden", "").
Proof. reflexivity. Qed.

Example splitext_none : splitext "README" = ("README", "").
Proof. reflexivity. Qed.

Example path_join_plain : path_join "/media/films" "a.nfo" = "/media/films/a.nfo".
Proof. reflexivity. Qed.

Example path_join_absolute : path_join "/media" "/etc/a" = "/etc/a".
Proof. reflexivity. Qed.

Example str_gt_years :
  (str_gt "2005" "1999", str_gt "1999" "2005", str_gt "0000" "0000")
  = (true, false, false).
Proof. reflexivity. Qed.

(** ** Key extraction *)

Example get_film_name_year_inception :
  get_film_name_year "Inception.2010.1080p" = Ok ("Inception", "2010").
Proof. reflexivity. Qed.

Example get_film_name_year_spaces :
  get_film_name_year "The_Big..Movie  (1999)" = Ok ("The Big Movie", "1999").
Proof. reflexivity. Qed.

Example get_film_name_year_none :
  exists e, get_film_name_year "Movie.1080p" = Raise e /\ exn_cls e = NoYearError.
Proof. eexists; split; reflexivity. Qed.


Lemma str_length_take (n : nat) (s : string) :
  String.length (str_take n s) = Nat.min n (String.length s).
Proof.
  revert s; induction n as [|n IH]; intros [|c s]; simpl; auto.
Qed.

Lemma py_lstrip_length (s : string) :
  String.length (py_lstrip s) <= String.length s.
Proof.
  induction s as [|c s IH]; simpl; [lia|].
  destruct (char_isspace c); simpl; lia.
Qed.

Lemma search_unfold (r : Re.regex) (s : string) :
  Re.search r s =
  match Re.match_here r s with
  | Some g => Some (Re.Match 0 g)
  | None =>
      match s with
      | EmptyString => None
      | String _ s' =>
          match Re.search r s' with
          | Some m => Some (Re.Match (S (Re.m_start m)) (Re.m_group m))
          | None => None
          end
      end
  end.
Proof. destruct s; reflexivity. Qed.

(** [YEAR_STAMP] matches at the start of a text exactly when the text
    starts with 19xx or 20xx, and then it matches those four characters. *)
Lemma match_here_YEAR_STAMP (s : string) :
  Re.match_here YEAR_STAMP s =
  if year_here s then Some (str_take 4 s) else None.
Proof.
  assert (Hlen : forall n, S (S (S (S n))) - n = 4) by (intros; lia).
  unfold Re.match_here, YEAR_STAMP.
  destruct s as [|a [|b [|c [|d s]]]];
    cbn [Re.rmatch Re.one flat_map app year_here String.length];
    try reflexivity;
    destruct (Ascii.eqb "1" a), (Ascii.eqb "2" a);
    cbn [Re.rmatch Re.one flat_map app andb orb]; try reflexivity;
    try (destruct (Ascii.eqb "9" b));
    try (destruct (Ascii.eqb "0" b));
    cbn [Re.rmatch Re.one flat_map app andb orb]; try reflexivity;
    try (destruct (is_decimal c));
    cbn [Re.rmatch Re.one flat_map app andb orb]; try reflexivity;
    try (destruct (is_decimal d));
    cbn [Re.rmatch Re.one flat_map app andb orb]; try reflexivity;
    rewrite ?Hlen; reflexivity.
Qed.

Lemma search_YEAR_STAMP (s : string) :
  Re.search YEAR_STAMP s =
  match first_year s with
  | Some i => Some (Re.Match i (str_take 4 (str_drop i s)))
  | None => None
  end.
Proof.
  induction s as [|c s IH].
  - reflexivity.
  - rewrite search_unfold, match_here_YEAR_STAMP.
    change (first_year (String c s))
      with (if year_here (String c s) then Some 0
            else option_map S (first_year s)).
    destruct (year_here (String c s)); [reflexivity|].
    rewrite IH. destruct (first_year s); reflexivity.
Qed.

(** [re.sub(SPLITTERS, ' ', s)] replaces each separator by a space. *)
Lemma sub_SPLITTERS (s : string) :
  Re.sub SPLITTERS " " s = separators_to_spaces s.
Proof.
  unfold Re.sub, separators_to_spaces.
  induction s as [|c s IH]; [reflexivity|].
  assert (Hsep : existsb (Ascii.eqb c) ["_"; "."; "("; ")"]%char = is_separator c).
  { unfold is_separator; cbn [existsb]. now rewrite orb_false_r, !orb_assoc. }
  cbn [Re.sub_from str_map]. unfold Re.match_here.
  cbn [SPLITTERS Re.rmatch Re.one]. rewrite Hsep.
  destruct (is_separator c).
  - assert (Hl : String.length (String c s) - String.length s = 1)
      by (cbn [String.length]; lia).
    rewrite Hl. cbn [str_take String.length Nat.sub String.append].
    now rewrite IH.
  - now rewrite IH.
Qed.

Lemma rmatch_plus_space_cons (c : ascii) (s : string) :
  Re.rmatch (Re.Plus Re.Space) (String c s) =
  if char_isspace c then Re.rmatch (Re.Plus Re.Space) s ++ [s] else [].
Proof.
  simpl. destruct (char_isspace c); simpl; [|reflexivity].
  now rewrite app_nil_r.
Qed.

Lemma rmatch_plus_space_head (s : string) :
  hd_error (Re.rmatch (Re.Plus Re.Space) s ++ [s]) = Some (py_lstrip s).
Proof.
  induction s as [|c s IH]; [reflexivity|].
  rewrite rmatch_plus_space_cons. cbn [py_lstrip].
  destruct (char_isspace c); [|reflexivity].
  destruct (Re.rmatch (Re.Plus Re.Space) s ++ [s]) eqn:E;
    [discriminate|]. simpl in *. exact IH.
Qed.

(** [\s+] matches at the start of a text exactly when it starts with a
    whitespace character, and then through the whole run. *)
Lemma match_here_plus_space (c : ascii) (s : string) :
  Re.match_here (Re.Plus Re.Space) (String c s) =
  if char_isspace c
  then Some (str_take (S (String.length s - String.length (py_lstrip s)))
               (String c s))
  else None.
Proof.
  unfold Re.match_here. rewrite rmatch_plus_space_cons.
  destruct (char_isspace c); [|reflexivity].
  pose proof (rmatch_plus_space_head s) as H.
  pose proof (py_lstrip_length s) as Hl.
  destruct (Re.rmatch (Re.Plus Re.Space) s ++ [s]) eqn:E; [discriminate|].
  simpl in H. injection H as ->.
  replace (String.length (String c s) - String.length (py_lstrip s))
    with (S (String.length s - String.length (py_lstrip s)))
    by (cbn [String.length]; lia).
  reflexivity.
Qed.

Lemma sub_plus_space_collapse (s : string) :
  Re.sub_from (Re.Plus Re.Space) " " 0 s = collapse_from false s /\
  Re.sub_from (Re.Plus Re.Space) " "
    (String.length s - String.length (py_lstrip s)) s = collapse_from true s.
Proof.
  induction s as [|c s [IH0 IH1]]; [split; reflexivity|].
  assert (H0 : Re.sub_from (Re.Plus Re.Space) " " 0 (String c s)
               = collapse_from false (String c s)).
  { cbn [Re.sub_from collapse_from]. rewrite match_here_plus_space.
    destruct (char_isspace c).
    - rewrite str_length_take.
      pose proof (py_lstrip_length s).
      replace (Nat.min (S (String.length s - String.length (py_lstrip s)))
                 (String.length (String c s)) - 1)
        with (String.length s - String.length (py_lstrip s))
        by (cbn [String.length]; lia).
      rewrite IH1. reflexivity.
    - now rewrite IH0. }
  split; [exact H0|].
  cbn [py_lstrip collapse_from].
  destruct (char_isspace c) eqn:Hc.
  - pose proof (py_lstrip_length s).
    replace (String.length (String c s) - String.length (py_lstrip s))
      with (S (String.length s - String.length (py_lstrip s)))
      by (cbn [String.length]; lia).
    cbn [Re.sub_from]. exact IH1.
  - rewrite Nat.sub_diag, H0. cbn [collapse_from]. now rewrite Hc.
Qed.

(** [re.sub(r'\s+', ' ', s)] collapses each run of whitespace. *)
Lemma sub_plus_space (s : string) :
  Re.sub (Re.Plus Re.Space) " " s = collapse_whitespace s.
Proof. apply sub_plus_space_collapse. Qed.

(** [first_year] is the position of the first 19xx or 20xx run. *)
Lemma first_year_is_first (s : string) :
  match first_year s with
  | Some i =>
      year_here (str_drop i s) = true /\
      forall j, j < i -> year_here (str_drop j s) = false
  | None => forall j, year_here (str_drop j s) = false
  end.
Proof.
  induction s as [|c s IH].
  - cbn. intros [|j]; reflexivity.
  - change (first_year (String c s))
      with (if year_here (String c s) then Some 0
            else option_map S (first_year s)).
    destruct (year_here (String c s)) eqn:E.
    + split; [exact E | intros j Hj; lia].
    + destruct (first_year s) as [i|]; cbn [option_map].
      * destruct IH as [H1 H2]. split; [exact H1|].
        intros [|j] Hj; [exact E | apply H2; lia].
      * intros [|j]; [exact E | apply IH].
Qed.

(** Key extraction on a [string] without the regular expressions. *)
Lemma key_extraction_unfolded (raw_file_name : string) :
  get_film_name_year raw_file_name =
  match first_year raw_file_name with
  | Some i =>
      Ok (py_strip (collapse_whitespace
                      (separators_to_spaces (str_take i raw_file_name))),
          str_take 4 (str_drop i raw_file_name))
  | None => Raise (Exn NoYearError (no_year_message raw_file_name))
  end.
Proof.
  unfold get_film_name_year. rewrite search_YEAR_STAMP.
  destruct (first_year raw_file_name) as [i|]; [|reflexivity].
  cbn [Re.m_start Re.m_group].
  now rewrite sub_SPLITTERS, sub_plus_space.
Qed.

(** ** The status-code contract *)

Lemma check_request_status_contract {A} (status : Z)
    (on_success : result (option A)) :
  rbind (check_request_status status)
    (fun _ => if Z.eqb status HTTP_NOT_FOUND then Ok None else on_success)
  = status_contract status on_success.
Proof.
  unfold check_request_status, status_contract, HTTP_UNAUTHORIZED,
    HTTP_PAYMENT_REQUIRED, HTTP_TOO_MANY_REQUESTS, HTTP_OK, HTTP_NOT_FOUND.
  destruct (Z.eqb_spec status 200) as [->|H200]; [reflexivity|].
  destruct (Z.eqb_spec status 404) as [->|H404]; [reflexivity|].
  destruct (Z.eqb_spec status 401) as [->|H401]; [reflexivity|].
  destruct (Z.eqb_spec status 402) as [->|H402]; [reflexivity|].
  destruct (Z.eqb_spec status 429) as [->|H429]; reflexivity.
Qed.

(** C7. Each of the three lookups, once the catalogue has answered, maps
    the status code the same way: 200 goes on with the body, 404 returns
    [None], 401, 402 and 429 raise their own errors and every other code
    raises [APIConnectionError]. *)
Theorem lookups_status_contract (env : environment)
    (title year film_id : string) (max_actors : nat) :
  get_film_id env title year =
    match api_get env (search_request env title) with
    | Ok r => status_contract (status_code r)
                (film_id_of_response env title year r)
    | Raise e => Raise e
    end
  /\ get_raw_film_info env film_id =
    match api_get env (detail_request env film_id) with
    | Ok r => status_contract (status_code r) (film_info_of_response r)
    | Raise e => Raise e
    end
  /\ get_raw_staff_info env film_id max_actors =
    match api_get env (staff_request env film_id) with
    | Ok r => status_contract (status_code r) (staff_of_response max_actors r)
    | Raise e => Raise e
    end.
Proof.
  unfold get_film_id, get_raw_film_info, get_raw_staff_info.
  repeat split.
  - destruct (api_get env (search_request env title)) as [r|e];
      [apply check_request_status_contract | reflexivity].
  - destruct (api_get env (detail_request env film_id)) as [r|e];
      [apply check_request_status_contract | reflexivity].
  - destruct (api_get env (staff_request env film_id)) as [r|e];
      [apply check_request_status_contract | reflexivity].
Qed.

Example status_404_is_none :
  get_film_id (Sample.with_status 404 (Sample.catalogue PNone PNone)) "x" "2010"
  = Ok None.
Proof. reflexivity. Qed.

Example status_500_raises :
  get_raw_film_info (Sample.with_status 500 (Sample.catalogue PNone PNone)) "7"
  = Raise (Exn APIConnectionError "API вернул код: 500").
Proof. reflexivity. Qed.

(** ** The writers keep their failures to themselves *)

(** C9. [create_nfo] and [create_posters] always return a pair of a flag and
    a message: the flag is true with the success message when the body ran
    through, and false with the error message of the exception otherwise. *)
Theorem writers_never_raise (env : environment)
    (clean_film_info posters_urls : dict)
    (clean_staff_info : list (string * list dict))
    (staff_posters : list (pyval * pyval))
    (path raw_file_name : string) (w : world) :
  (exists flag msg w',
      create_nfo env clean_film_info clean_staff_info path raw_file_name w
      = (Ok (flag, msg), w')
      /\ match create_nfo_body env clean_film_info clean_staff_info path
                 raw_file_name w with
         | (Ok _, w1) =>
             flag = true /\ msg = "*.nfo файл успешно создан." /\ w' = w1
         | (Raise e, w1) =>
             flag = false /\ w' = w1 /\
             msg = "Ошибка при создании *.nfo: " +++ exn_str e
         end)
  /\
  (exists flag msg w',
      create_posters env posters_urls staff_posters path raw_file_name w
      = (Ok (flag, msg), w')
      /\ match create_posters_body env posters_urls staff_posters path
                 raw_file_name w with
         | (Ok _, w1) =>
             flag = true /\ msg = "Постеры успешно сохранены." /\ w' = w1
         | (Raise e, w1) =>
             flag = false /\ w' = w1 /\
             msg = "Ошибка при сохранении постеров: " +++ exn_str e
         end).
Proof.
  split.
  - unfold create_nfo, try_except.
    destruct (create_nfo_body env clean_film_info clean_staff_info path
                raw_file_name w) as [[[flag msg]|e] w1] eqn:E.
    + exists flag, msg, w1. split; [reflexivity|].
      unfold create_nfo_body, mbind, lift, mret in E.
      destruct (rfold (film_elements env) clean_film_info []); [|discriminate].
      destruct (render_xml env _); [|discriminate].
      destruct (write_file env _ _ w) as [[[]|] w2]; [|discriminate].
      injection E as <- <- <-. auto.
    + exists false, ("Ошибка при создании *.nfo: " +++ exn_str e), w1.
      split; [reflexivity | auto].
  - unfold create_posters, try_except.
    destruct (create_posters_body env posters_urls staff_posters path
                raw_file_name w) as [[[flag msg]|e] w1] eqn:E.
    + exists flag, msg, w1. split; [reflexivity|].
      unfold create_posters_body, mbind, mret in E.
      destruct (mfor (save_poster env path raw_file_name) posters_urls w)
        as [[[]|] w2]; [|discriminate].
      destruct (mfor (save_staff_photo env path) staff_posters w2)
        as [[[]|] w3]; [|discriminate].
      injection E as <- <- <-. auto.
    + exists false, ("Ошибка при сохранении постеров: " +++ exn_str e), w1.
      split; [reflexivity | auto].
Qed.

(** ** Film normalisation *)

Lemma dict_get_set {V : Type} (k k' : string) (v : V) (d : list (string * V)) :
  dict_get k (dict_set k' v d) =
  if String.eqb k k' then Some v else dict_get k d.
Proof.
  induction d as [|[k0 v0] d IH]; simpl.
  - reflexivity.
  - destruct (String.eqb_spec k' k0) as [->|Hne]; simpl.
    + destruct (String.eqb k k0); reflexivity.
    + rewrite IH.
      destruct (String.eqb_spec k k0) as [E1|E1],
        (String.eqb_spec k k') as [E2|E2]; congruence.
Qed.

Lemma rfold_app {A S : Type} (f : S -> A -> result S) (l1 l2 : list A) (st : S) :
  rfold f (l1 ++ l2) st = rbind (rfold f l1 st) (rfold f l2).
Proof.
  revert st; induction l1 as [|x l1 IH]; intros st; simpl; [reflexivity|].
  destruct (f st x); simpl; [apply IH | reflexivity].
Qed.

(** One step of the loop leaves every other key alone. *)
Lemma clean_step_other (d : dict) (doc urls : dict) (emp : list string)
    (key api : string) (doc' urls' : dict) (emp' : list string) (k : string) :
  clean_step d (doc, urls, emp) (key, api) = Ok (doc', urls', emp') ->
  k <> key ->
  dict_get k doc' = dict_get k doc /\ (In k emp' <-> In k emp).
Proof.
  intros H Hk.
  assert (Hemp : In k (emp ++ [key]) <-> In k emp).
  { rewrite in_app_iff; simpl. intuition congruence. }
  assert (Hset : forall v, dict_get k (dict_set key v doc) = dict_get k doc).
  { intros v. rewrite dict_get_set.
    destruct (String.eqb_spec k key); congruence. }
  unfold clean_step in H.
  destruct (py_truthy (py_get api d)).
  - destruct (String.eqb key "runtime").
    + destruct (py_int (py_get api d)) as [n|e].
      * injection H as <- <- <-. split; [apply Hset | tauto].
      * destruct (exn_cls e); try discriminate;
          injection H as <- <- <-; (split; [apply Hset | exact Hemp]).
    + destruct (str_in key ["poster"; "fanart"]);
        injection H as <- <- <-; (split; [auto | tauto]).
  - injection H as <- <- <-. split; [reflexivity | exact Hemp].
Qed.

Lemma clean_fold_other (d : dict) (table : list (string * string)) (k : string) :
  ~ In k (map fst table) ->
  forall doc urls emp doc' urls' emp',
    rfold (clean_step d) table (doc, urls, emp) = Ok (doc', urls', emp') ->
    dict_get k doc' = dict_get k doc /\ (In k emp' <-> In k emp).
Proof.
  induction table as [|[key api] table IH]; intros Hk doc urls emp doc' urls' emp' H.
  - injection H as <- <- <-. tauto.
  - cbn [rfold map fst In] in H, Hk.
    destruct (clean_step d (doc, urls, emp) (key, api))
      as [[[doc1 urls1] emp1]|e] eqn:E; [|discriminate].
    cbn [rbind] in H.
    destruct (clean_step_other _ _ _ _ _ _ _ _ _ k E) as [H1 H2];
      [intuition congruence|].
    destruct (IH (fun X => Hk (or_intror X)) _ _ _ _ _ _ H) as [H3 H4].
    split; [congruence | tauto].
Qed.

(** Only the [runtime] step can raise. *)
Lemma clean_step_total (d : dict) (st : clean_state) (key api : string) :
  key <> "runtime" -> exists st', clean_step d st (key, api) = Ok st'.
Proof.
  intros Hk. destruct st as [[doc urls] emp]. unfold clean_step.
  destruct (String.eqb_spec key "runtime"); [contradiction|].
  destruct (py_truthy (py_get api d)); [|eauto].
  destruct (str_in key ["poster"; "fanart"]); eauto.
Qed.

Lemma clean_fold_total (d : dict) (table : list (string * string)) :
  ~ In "runtime" (map fst table) ->
  forall st, exists st', rfold (clean_step d) table st = Ok st'.
Proof.
  induction table as [|[key api] table IH]; intros Hk st; cbn [rfold].
  - eauto.
  - cbn [map fst In] in Hk.
    destruct (clean_step_total d st key api) as [st1 ->];
      [intuition congruence|].
    cbn [rbind]. apply IH. tauto.
Qed.

Lemma film_keys_nodup : NoDup (map fst FILM_INFO_STRUCTURE).
Proof.
  simpl. repeat (constructor; [simpl; intuition discriminate|]). constructor.
Qed.

(** The table around one of its entries: no other entry has its key. *)
Lemma film_table_split (key api : string) :
  In (key, api) FILM_INFO_STRUCTURE ->
  exists pre post,
    FILM_INFO_STRUCTURE = pre ++ (key, api) :: post /\
    ~ In key (map fst pre) /\ ~ In key (map fst post).
Proof.
  intros Hin. destruct (in_split _ _ Hin) as (pre & post & E).
  exists pre, post. split; [exact E|].
  pose proof film_keys_nodup as N. rewrite E, map_app in N. simpl in N.
  apply NoDup_remove_2 in N. rewrite in_app_iff in N. tauto.
Qed.

(** The loop of [get_clean_film_info] around one entry of the table. *)
Lemma clean_fields_around (d : dict) (key api : string)
    (doc urls : dict) (fields : list string) :
  In (key, api) FILM_INFO_STRUCTURE ->
  clean_film_fields d = Ok (doc, urls, fields) ->
  exists doc1 urls1 emp1 doc2 urls2 emp2,
    dict_get key doc1 = None /\ ~ In key emp1 /\
    clean_step d (doc1, urls1, emp1) (key, api) = Ok (doc2, urls2, emp2) /\
    dict_get key doc = dict_get key doc2 /\ (In key fields <-> In key emp2).
Proof.
  intros Hin H.
  destruct (film_table_split key api Hin) as (pre & post & E & Hpre & Hpost).
  unfold clean_film_fields in H. rewrite E, rfold_app in H.
  destruct (rfold (clean_step d) pre initial_clean_state)
    as [[[doc1 urls1] emp1]|e] eqn:E1; [|discriminate].
  cbn [rbind rfold] in H.
  destruct (clean_step d (doc1, urls1, emp1) (key, api))
    as [[[doc2 urls2] emp2]|e] eqn:E2; [|discriminate].
  cbn [rbind] in H.
  destruct (clean_fold_other d pre key Hpre _ _ _ _ _ _ E1) as [A1 A2].
  destruct (clean_fold_other d post key Hpost _ _ _ _ _ _ H) as [B1 B2].
  exists doc1, urls1, emp1, doc2, urls2, emp2.
  simpl in A1, A2. repeat split; try tauto; congruence.
Qed.

Lemma get_clean_film_info_fields (d : dict) (doc urls : dict) (s : string) :
  get_clean_film_info (PDict d) = Ok (doc, urls, s) ->
  exists fields,
    clean_film_fields d = Ok (doc, urls, fields) /\ s = py_join ", " fields.
Proof.
  unfold get_clean_film_info. simpl.
  destruct (clean_film_fields d) as [[[doc0 urls0] fields]|e]; [|discriminate].
  simpl. intros H. injection H as <- <- <-. eauto.
Qed.

Lemma falsy_field (d : dict) (key api : string)
    (doc urls : dict) (fields : list string) :
  In (key, api) FILM_INFO_STRUCTURE ->
  py_truthy (py_get api d) = false ->
  clean_film_fields d = Ok (doc, urls, fields) ->
  dict_get key doc = None /\ In key fields.
Proof.
  intros Hin Hfalsy Hf.
  destruct (clean_fields_around d key api doc urls fields Hin Hf)
    as (doc1 & urls1 & emp1 & doc2 & urls2 & emp2 & G1 & G2 & Hstep & G3 & G4).
  unfold clean_step in Hstep. rewrite Hfalsy in Hstep.
  injection Hstep as <- <- <-.
  split; [congruence|].
  apply G4, in_app_iff. right. now left.
Qed.

Lemma truthy_plain_field (d : dict) (key api : string)
    (doc urls : dict) (fields : list string) :
  In (key, api) FILM_INFO_STRUCTURE ->
  py_truthy (py_get api d) = true ->
  key <> "runtime" -> str_in key ["poster"; "fanart"] = false ->
  clean_film_fields d = Ok (doc, urls, fields) ->
  dict_get key doc = Some (py_get api d).
Proof.
  intros Hin Htruthy Hrt Hposter Hf.
  destruct (clean_fields_around d key api doc urls fields Hin Hf)
    as (doc1 & urls1 & emp1 & doc2 & urls2 & emp2 & G1 & G2 & Hstep & G3 & G4).
  unfold clean_step in Hstep. rewrite Htruthy, Hposter in Hstep.
  destruct (String.eqb_spec key "runtime"); [contradiction|].
  injection Hstep as <- <- <-.
  rewrite G3, dict_get_set. now rewrite String.eqb_refl.
Qed.

(** C8. A key of the field table whose source value is absent or falsy is
    not a key of the normalised document and is listed in [empty_fields]. *)
Theorem falsy_source_is_omitted_and_listed (d : dict) (key api : string)
    (doc urls : dict) (empty_fields_str : string) :
  In (key, api) FILM_INFO_STRUCTURE ->
  py_truthy (py_get api d) = false ->
  get_clean_film_info (PDict d) = Ok (doc, urls, empty_fields_str) ->
  dict_get key doc = None /\
  exists empty_fields,
    clean_film_fields d = Ok (doc, urls, empty_fields) /\
    empty_fields_str = py_join ", " empty_fields /\
    In key empty_fields.
Proof.
  intros Hin Hfalsy H.
  destruct (get_clean_film_info_fields d doc urls _ H) as (fields & Hf & ->).
  destruct (falsy_field d key api doc urls fields Hin Hfalsy Hf) as [H1 H2].
  split; [exact H1|]. exists fields. auto.
Qed.

(** The loop runs through unless [int] overflows on the run time. *)
Lemma clean_film_fields_total (d : dict) :
  (forall st, exists st',
      clean_step d st ("runtime", "filmLength") = Ok st') ->
  exists doc urls fields, clean_film_fields d = Ok (doc, urls, fields).
Proof.
  intros Hstep. unfold clean_film_fields.
  change FILM_INFO_STRUCTURE with
    (firstn 4 FILM_INFO_STRUCTURE
     ++ ("runtime", "filmLength") :: skipn 5 FILM_INFO_STRUCTURE).
  rewrite rfold_app.
  destruct (clean_fold_total d (firstn 4 FILM_INFO_STRUCTURE))
    with (st := initial_clean_state) as [st1 ->];
    [simpl; intuition discriminate|].
  cbn [rbind rfold].
  destruct (Hstep st1) as [st2 ->]. cbn [rbind].
  destruct (clean_fold_total d (skipn 5 FILM_INFO_STRUCTURE))
    with (st := st2) as [[[doc urls] fields] ->];
    [simpl; intuition discriminate|].
  eauto.
Qed.

Lemma in_runtime_entry : In ("runtime", "filmLength") FILM_INFO_STRUCTURE.
Proof. simpl. tauto. Qed.

(** C4, as the code has it. A truthy run time that [int] accepts, a
    non-zero integer [n] in particular, is stored as [int(value) * 60]; a
    truthy run time that [int] rejects with [TypeError] or [ValueError]
    leaves the key [runtime] in the document with the value [None] and
    lists [runtime] in [empty_fields]; in both cases normalisation
    returns. *)
Theorem runtime_normalisation (d : dict) :
  (forall n : Z,
      py_truthy (py_get "filmLength" d) = true ->
      py_int (py_get "filmLength" d) = Ok n ->
      exists doc urls empty_fields,
        get_clean_film_info (PDict d)
        = Ok (doc, urls, py_join ", " empty_fields) /\
        clean_film_fields d = Ok (doc, urls, empty_fields) /\
        dict_get "runtime" doc = Some (PInt (n * 60)) /\
        ~ In "runtime" empty_fields)
  /\
  (forall e : exn,
      py_truthy (py_get "filmLength" d) = true ->
      py_int (py_get "filmLength" d) = Raise e ->
      exn_cls e = TypeError \/ exn_cls e = ValueError ->
      exists doc urls empty_fields,
        get_clean_film_info (PDict d)
        = Ok (doc, urls, py_join ", " empty_fields) /\
        clean_film_fields d = Ok (doc, urls, empty_fields) /\
        dict_get "runtime" doc = Some PNone /\
        In "runtime" empty_fields).
Proof.
  split.
  - intros n Ht Hn.
    assert (Hstep : forall doc1 urls1 emp1,
               clean_step d (doc1, urls1, emp1) ("runtime", "filmLength")
               = Ok (dict_set "runtime" (PInt (n * 60)) doc1, urls1, emp1)).
    { intros. unfold clean_step. now rewrite Ht, Hn. }
    destruct (clean_film_fields_total d) as (doc & urls & fields & Hf).
    { intros [[doc1 urls1] emp1]. rewrite Hstep. eauto. }
    exists doc, urls, fields.
    destruct (clean_fields_around d _ _ doc urls fields in_runtime_entry Hf)
      as (doc1 & urls1 & emp1 & doc2 & urls2 & emp2 & G1 & G2 & G3 & G4 & G5).
    rewrite Hstep in G3. injection G3 as <- <- <-.
    repeat split.
    + unfold get_clean_film_info. simpl. now rewrite Hf.
    + exact Hf.
    + rewrite G4, dict_get_set. reflexivity.
    + tauto.
  - intros e Ht He Hcls.
    assert (Hstep : forall doc1 urls1 emp1,
               clean_step d (doc1, urls1, emp1) ("runtime", "filmLength")
               = Ok (dict_set "runtime" PNone doc1, urls1,
                     emp1 ++ ["runtime"])).
    { intros. unfold clean_step. rewrite Ht, He. simpl.
      destruct Hcls as [-> | ->]; reflexivity. }
    destruct (clean_film_fields_total d) as (doc & urls & fields & Hf).
    { intros [[doc1 urls1] emp1]. rewrite Hstep. eauto. }
    exists doc, urls, fields.
    destruct (clean_fields_around d _ _ doc urls fields in_runtime_entry Hf)
      as (doc1 & urls1 & emp1 & doc2 & urls2 & emp2 & G1 & G2 & G3 & G4 & G5).
    rewrite Hstep in G3. injection G3 as <- <- <-.
    repeat split.
    + unfold get_clean_film_info. simpl. now rewrite Hf.
    + exact Hf.
    + rewrite G4, dict_get_set. reflexivity.
    + apply G5, in_app_iff. right. now left.
Qed.

Lemma py_int_of_nonzero_int (n : Z) :
  n <> 0%Z -> py_truthy (PInt n) = true /\ py_int (PInt n) = Ok n.
Proof.
  intros Hn. split; [|reflexivity]. simpl.
  now destruct (Z.eqb_spec n 0).
Qed.

Example runtime_120 :
  get_clean_film_info (PDict [("filmLength", PInt 120)])
  = Ok ([("runtime", PInt 7200)],
        [("poster", PNone); ("cover", PNone)],
        "title, originaltitle, year, plot, rating, votes, mpaa, certification, genres, countries, kinopoisk_id, poster, fanart").
Proof. reflexivity. Qed.

Example runtime_zero_is_listed_as_empty :
  get_clean_film_info (PDict [("nameRu", PStr "A"); ("filmLength", PInt 0)])
  = Ok ([("title", PStr "A")],
        [("poster", PNone); ("cover", PNone)],
        "originaltitle, year, plot, runtime, rating, votes, mpaa, certification, genres, countries, kinopoisk_id, poster, fanart").
Proof. reflexivity. Qed.

Example runtime_infinite_raises :
  get_clean_film_info (PDict [("filmLength", PFloat (FInf false))])
  = Raise (Exn OverflowError "cannot convert float infinity to integer").
Proof. reflexivity. Qed.

(** C4 as stated fails: a run time that is not a number stays in the
    document as a key with the value [None]. *)
Lemma runtime_key_is_kept_not_omitted :
  get_clean_film_info (PDict [("nameRu", PStr "A"); ("filmLength", PStr "abc")])
  = Ok ([("title", PStr "A"); ("runtime", PNone)],
        [("poster", PNone); ("cover", PNone)],
        "originaltitle, year, plot, runtime, rating, votes, mpaa, certification, genres, countries, kinopoisk_id, poster, fanart")
  /\ dict_has "runtime" [("title", PStr "A"); ("runtime", PNone)] = true.
Proof. split; reflexivity. Qed.

(** ** Candidate resolution *)

Lemma four_digits_inv (y : string) :
  four_digits y = true ->
  exists a b c d,
    y = String a (String b (String c (String d EmptyString))) /\
    is_decimal a = true /\ is_decimal b = true /\
    is_decimal c = true /\ is_decimal d = true.
Proof.
  unfold four_digits. intros H. apply andb_prop in H as [Hl Ha].
  apply Nat.eqb_eq in Hl.
  destruct y as [|a [|b [|c [|d [|x y]]]]]; try discriminate.
  cbn [str_all] in Ha.
  repeat (apply andb_prop in Ha as [? Ha]).
  exists a, b, c, d. auto.
Qed.

Lemma is_decimal_bounds (c : ascii) :
  is_decimal c = true -> 48 <= code c <= 57.
Proof.
  unfold is_decimal. intros H. apply andb_prop in H as [H1 H2].
  apply Nat.leb_le in H1, H2. lia.
Qed.

(** On years of four decimal digits the comparison of the strings is the
    comparison of the numbers. *)
Lemma str_gt_number (a b : string) :
  four_digits a = true -> four_digits b = true ->
  str_gt a b = (year_number b <? year_number a).
Proof.
  intros Ha Hb.
  destruct (four_digits_inv a Ha) as (a1 & a2 & a3 & a4 & -> & A1 & A2 & A3 & A4).
  destruct (four_digits_inv b Hb) as (b1 & b2 & b3 & b4 & -> & B1 & B2 & B3 & B4).
  apply is_decimal_bounds in A1, A2, A3, A4, B1, B2, B3, B4.
  unfold year_number. cbn [number_from str_gt].
  destruct (Nat.ltb_spec
              (10 * (10 * (10 * (10 * 0 + (code b1 - 48)) + (code b2 - 48))
                     + (code b3 - 48)) + (code b4 - 48))
              (10 * (10 * (10 * (10 * 0 + (code a1 - 48)) + (code a2 - 48))
                     + (code a3 - 48)) + (code a4 - 48)));
    repeat match goal with
           | |- context [Nat.eqb ?x ?y] => destruct (Nat.eqb_spec x y)
           | |- context [Nat.ltb ?x ?y] => destruct (Nat.ltb_spec x y)
           end; try reflexivity; lia.
Qed.

Lemma is_decimal_isdigit (c : ascii) :
  is_decimal c = true -> char_isdigit c = true.
Proof. unfold char_isdigit. now intros ->. Qed.

Lemma four_digits_accepted (y : string) :
  four_digits y = true -> year_accepted y = true.
Proof.
  intros H. destruct (four_digits_inv y H) as (a & b & c & d & -> & A & B & C & D).
  unfold year_accepted, py_isdigit. cbn [String.length str_all].
  now rewrite !is_decimal_isdigit.
Qed.

(** One turn of the loop on a film whose year passes the check. *)
Lemma films_loop_accepted (env : environment) (title year : string)
    (films rest : list pyval) (idx : nat) (ly : string) (li : nat)
    (film : pyval) (y : string) :
  has_year_field film y -> year_accepted y = true ->
  films_loop env title year films (film :: rest) idx ly li =
  if String.eqb y year then
    rbind (py_getitem film "nameRu") (fun name_ru =>
    rbind (py_getitem (nth idx films PNone) "filmId") (fun film_id =>
    Ok (true, py_str env film_id, found_message env name_ru year)))
  else
    films_loop env title year films rest (S idx)
      (if str_gt y ly then y else ly) (if str_gt y ly then idx else li).
Proof.
  intros (d & -> & Hy) Hacc.
  unfold year_accepted in Hacc. apply andb_prop in Hacc as [Hl Hd].
  cbn [films_loop]. unfold py_getitem at 1. rewrite Hy.
  cbn [rbind py_len py_isdigit_method]. rewrite Hl, Hd. cbn [negb].
  reflexivity.
Qed.

(** One turn of the loop on a film whose year fails the check. *)
Lemma films_loop_rejected (env : environment) (title year : string)
    (films rest : list pyval) (idx : nat) (ly : string) (li : nat)
    (film : pyval) (y : string) :
  has_year_field film y -> year_accepted y = false ->
  films_loop env title year films (film :: rest) idx ly li =
  raise APIAnswerWrongDataError malformed_year_message.
Proof.
  intros (d & -> & Hy) Hacc.
  unfold year_accepted in Hacc.
  cbn [films_loop]. unfold py_getitem at 1. rewrite Hy.
  cbn [rbind py_len py_isdigit_method].
  destruct (String.length y =? 4); cbn [negb andb] in *; [|reflexivity].
  rewrite Hacc. reflexivity.
Qed.

Lemma get_film_id_on_films (env : environment) (title year : string)
    (films : list pyval) :
  search_answers env title films -> films <> [] ->
  get_film_id env title year =
  rbind (films_loop env title year films films 0 "0000" 0)
        (fun res => Ok (Some res)).
Proof.
  intros (r & body & Hget & Hst & Hjson & Hfilms) Hne.
  unfold get_film_id, api_get. rewrite Hget. cbn [rbind]. rewrite Hst.
  cbn [check_request_status rbind]. unfold film_id_of_response.
  rewrite Hjson. cbn [rbind validate_types is_none py_isinstance type_of orb negb].
  rewrite Hfilms. cbn [py_len rbind py_iter].
  destruct films; [contradiction | reflexivity].
Qed.

(** Films whose year passes the check and differs from the requested year
    are passed over. *)
Lemma films_loop_skip (env : environment) (title year : string)
    (films pre rest : list pyval) :
  Forall (fun f => exists y, has_year_field f y /\ year_accepted y = true
                             /\ y <> year) pre ->
  forall idx ly li, exists ly' li',
    films_loop env title year films (pre ++ rest) idx ly li =
    films_loop env title year films rest (idx + List.length pre) ly' li'.
Proof.
  induction 1 as [|f pre (y & Hy & Hacc & Hne) _ IH]; intros idx ly li.
  - exists ly, li. cbn [app List.length]. now rewrite Nat.add_0_r.
  - cbn [app]. rewrite (films_loop_accepted _ _ _ _ _ _ _ _ _ y Hy Hacc).
    destruct (String.eqb_spec y year); [contradiction|].
    destruct (IH (S idx) (if str_gt y ly then y else ly)
                 (if str_gt y ly then idx else li)) as (ly' & li' & E).
    exists ly', li'. rewrite E. cbn [List.length]. f_equal. lia.
Qed.

(** C2, as the code has it. A candidate whose year fails the format check
    makes resolution raise [APIAnswerWrongDataError] when the candidates
    before it pass the check and none of them has the requested year. *)
Theorem malformed_year_reached_is_fatal (env : environment)
    (title year : string) (pre post : list pyval) (bad : pyval) (y : string) :
  search_answers env title (pre ++ bad :: post) ->
  Forall (fun f => exists y', has_year_field f y' /\ year_accepted y' = true
                              /\ y' <> year) pre ->
  has_year_field bad y -> year_accepted y = false ->
  get_film_id env title year
  = Raise (Exn APIAnswerWrongDataError malformed_year_message).
Proof.
  intros Hans Hpre Hbad Hrej.
  rewrite (get_film_id_on_films env title year _ Hans)
    by (destruct pre; discriminate).
  destruct (films_loop_skip env title year (pre ++ bad :: post) pre
              (bad :: post) Hpre 0 "0000" 0) as (ly & li & ->).
  now rewrite (films_loop_rejected _ _ _ _ _ _ _ _ _ y Hbad Hrej).
Qed.

(** C2 as stated fails: a malformed year after the first exact match is
    never looked at. *)
Lemma malformed_year_after_match_is_ignored :
  get_film_id
    (Sample.catalogue (PList [Sample.film 1 "A" "2010"; Sample.film 2 "B" "20"])
       PNone)
    "A" "2010"
  = Ok (Some (true, "1", "Данные о фильме A (2010) успешно получены")).
Proof. reflexivity. Qed.

Example malformed_year_first_is_fatal :
  get_film_id
    (Sample.catalogue (PList [Sample.film 2 "B" "20"; Sample.film 1 "A" "2010"])
       PNone)
    "A" "2010"
  = Raise (Exn APIAnswerWrongDataError malformed_year_message).
Proof. reflexivity. Qed.

Lemma four_digit_year_field (film : pyval) :
  has_four_digit_year film = true ->
  has_year_field film (year_of film) /\ four_digits (year_of film) = true.
Proof.
  unfold has_four_digit_year, year_of, has_year_field.
  destruct film as [| b | n | x | s | l | d]; try discriminate.
  destruct (dict_get "year" d) as [[| b | n | x | y | l | d0]|] eqn:E;
    try discriminate.
  intros H. split; [exists d; auto | exact H].
Qed.

Section Resolution.

Variable env : environment.
Variables title year : string.
Variable films : list pyval.
Hypothesis years_ok : forallb has_four_digit_year films = true.

Lemma films_loop_resolves (rest : list pyval) :
  forall (done : list pyval) (ly : string) (li : nat),
    films = done ++ rest ->
    films <> [] ->
    tracked films done ly li ->
    resolved env title year films (find (has_year year) rest)
      (films_loop env title year films rest (List.length done) ly li).
Proof.
  induction rest as [|f rest IH];
    intros done ly li Ef Hne (Hly & Hmax & Hfirst).
  - (* the scan is over: the tracked candidate is returned *)
    rewrite app_nil_r in Ef. subst done.
    destruct Hfirst as [(Hnil & _) | (c & Hc & Hli & Hnum & Hbefore)];
      [contradiction|].
    cbn [find resolved films_loop].
    rewrite (nth_error_nth _ _ PNone Hc).
    exists li, c. split; [|reflexivity].
    repeat split; auto.
    + intros f Hin. rewrite Hnum. auto.
    + intros j f' Hj Hf'. rewrite Hnum. eauto.
  - assert (Hin : In f films) by (rewrite Ef; apply in_elt).
    pose proof (proj1 (forallb_forall _ _) years_ok f Hin) as Hf.
    destruct (four_digit_year_field f Hf) as [Hfield Hfour].
    rewrite (films_loop_accepted _ _ _ _ _ _ _ _ _ (year_of f)
               Hfield (four_digits_accepted _ Hfour)).
    cbn [find]. unfold has_year at 1.
    destruct (String.eqb (year_of f) year) eqn:Heq.
    + (* exact match: this candidate is returned *)
      cbn [resolved].
      assert (Hnth : nth (List.length done) films PNone = f)
        by (rewrite Ef; apply nth_middle).
      rewrite Hnth. reflexivity.
    + (* no match: on to the next candidate *)
      replace (S (List.length done)) with (List.length (done ++ [f]))
        by (rewrite length_app; cbn [List.length]; lia).
      apply (IH (done ++ [f])).
      * rewrite <- app_assoc. exact Ef.
      * exact Hne.
      * rewrite (str_gt_number _ _ Hfour Hly).
        assert (Hc : nth_error films (List.length done) = Some f)
          by (rewrite Ef, nth_error_app2, Nat.sub_diag; [reflexivity | lia]).
        destruct (Nat.ltb_spec (year_number ly) (year_number (year_of f)))
          as [Hlt | Hge].
        -- (* a later year: the candidate becomes the tracked one *)
           split; [exact Hfour|]. split.
           ++ intros f' Hf'. apply in_app_or in Hf' as [Hf' | [<- | []]];
                [specialize (Hmax f' Hf'); lia | lia].
           ++ right. exists f. repeat split; auto.
              ** rewrite length_app. cbn [List.length]. lia.
              ** intros j f' Hj Hf'.
                 assert (In f' done).
                 { rewrite Ef, nth_error_app1 in Hf' by lia.
                   eapply nth_error_In; eauto. }
                 specialize (Hmax f' H). lia.
        -- split; [exact Hly|]. split.
           ++ intros f' Hf'. apply in_app_or in Hf' as [Hf' | [<- | []]]; auto.
           ++ right.
              destruct Hfirst as [(Hnil & -> & Hzero)
                                 | (c0 & Hc0 & Hli & Hnum & Hbefore)].
              ** subst done. exists f. cbn [List.length] in Hc.
                 repeat split; auto; try (cbn [app List.length]; lia).
              ** exists c0. repeat split; auto.
                 rewrite length_app. cbn [List.length]. lia.
Qed.

End Resolution.


Example resolve_exact_match :
  get_film_id (Sample.catalogue Sample.inception_search PNone) "Inception" "2010"
  = Ok (Some (true, "2", "Данные о фильме Начало (2010) успешно получены")).
Proof. reflexivity. Qed.

Example resolve_latest_year :
  get_film_id
    (Sample.catalogue
       (PList [Sample.film 5 "A" "1999"; Sample.film 6 "B" "2005";
               Sample.film 7 "C" "2005"]) PNone)
    "OldMovie" "1950"
  = Ok (Some (false, "6", fallback_message "OldMovie" "1950")).
Proof. reflexivity. Qed.

(** ** Artwork *)

Lemma clean_fold_urls (d : dict) (table : list (string * string)) :
  Forall (fun e => str_in (fst e) ["poster"; "fanart"] = false) table ->
  forall doc urls emp doc' urls' emp',
    rfold (clean_step d) table (doc, urls, emp) = Ok (doc', urls', emp') ->
    urls' = urls.
Proof.
  induction 1 as [|[key api] table Hkey _ IH];
    intros doc urls emp doc' urls' emp' H.
  - now injection H as <- <- <-.
  - cbn [rfold] in H. cbn [fst] in Hkey.
    destruct (clean_step d (doc, urls, emp) (key, api))
      as [[[doc1 urls1] emp1]|e] eqn:E; [|discriminate].
    cbn [rbind] in H. rewrite (IH _ _ _ _ _ _ H).
    unfold clean_step in E. rewrite Hkey in E.
    destruct (py_truthy (py_get api d)).
    + destruct (String.eqb key "runtime").
      * destruct (py_int (py_get api d)) as [n|x];
          [now injection E as <- <- <- |].
        destruct (exn_cls x); try discriminate; now injection E as <- <- <-.
      * now injection E as <- <- <-.
    + now injection E as <- <- <-.
Qed.

(** The image map of a record that carries both image URLs: the cover URL
    sits under [fanart], and [cover] keeps its initial [None]. *)
Lemma clean_film_urls (d : dict) (doc urls : dict) (fields : list string) :
  clean_film_fields d = Ok (doc, urls, fields) ->
  py_truthy (py_get "posterUrl" d) = true ->
  py_truthy (py_get "coverUrl" d) = true ->
  urls = [ ("poster", py_get "posterUrl" d); ("cover", PNone);
           ("fanart", py_get "coverUrl" d) ].
Proof.
  intros H Hp Hc. unfold clean_film_fields in H.
  change FILM_INFO_STRUCTURE with
    (firstn 12 FILM_INFO_STRUCTURE
     ++ [("poster", "posterUrl"); ("fanart", "coverUrl")]) in H.
  rewrite rfold_app in H.
  destruct (rfold (clean_step d) (firstn 12 FILM_INFO_STRUCTURE)
              initial_clean_state) as [[[doc1 urls1] emp1]|e] eqn:E;
    [|discriminate].
  apply clean_fold_urls in E; [|repeat constructor]. subst urls1.
  cbn [rbind rfold] in H. unfold clean_step in H.
  rewrite Hp, Hc in H. cbn in H. now injection H as <- <- <-.
Qed.

Lemma sub_space_underscore (s : string) :
  Re.sub (Re.Lit " ") "_" s = underscored s.
Proof.
  unfold Re.sub, underscored.
  induction s as [|c s IH]; [reflexivity|].
  cbn [Re.sub_from str_map]. unfold Re.match_here.
  cbn [Re.rmatch Re.one]. rewrite (Ascii.eqb_sym " " c).
  destruct (Ascii.eqb c " ").
  - assert (Hl : String.length (String c s) - String.length s = 1)
      by (cbn [String.length]; lia).
    rewrite Hl. cbn [str_take String.length Nat.sub String.append].
    now rewrite IH.
  - now rewrite IH.
Qed.

Lemma written_paths_app (w1 w2 : world) :
  written_paths (w1 ++ w2) = written_paths w1 ++ written_paths w2.
Proof. unfold written_paths. apply flat_map_app. Qed.

Lemma mbind_ok {A B : Type} (m : M A) (k : A -> M B) (w w' : world) (a : A) :
  m w = (Ok a, w') -> mbind m k w = k a w'.
Proof. unfold mbind. now intros ->. Qed.

Lemma mbind_raise {A B : Type} (m : M A) (k : A -> M B) (w w' : world)
    (e : exn) :
  m w = (Raise e, w') -> mbind m k w = (Raise e, w').
Proof. unfold mbind. now intros ->. Qed.

Lemma save_poster_ok (env : environment) (root raw_file_name key : string)
    (value : pyval) (w : world) :
  output_succeeds env -> py_truthy value = true ->
  exists content,
    save_poster env root raw_file_name (key, value) w
    = (Ok tt, w ++ [WroteFile (artwork_path root raw_file_name key) content]).
Proof.
  intros (Hfetch & Hwrite & _) Hv.
  destruct (Hfetch value) as [content Hc]. exists content.
  unfold save_poster. rewrite Hv.
  rewrite (mbind_ok _ _ w w content) by (unfold lift; now rewrite Hc).
  unfold write_file. now rewrite Hwrite.
Qed.

Lemma save_staff_photo_ok (env : environment) (root name : string)
    (url : pyval) (w : world) :
  output_succeeds env ->
  exists content,
    save_staff_photo env root (PStr name, url) w
    = (Ok tt, w ++ [MadeDirs (path_join root ".actors");
                    WroteFile (photo_path root name) content]).
Proof.
  intros (Hfetch & Hwrite & Hdirs).
  destruct (Hfetch url) as [content Hc]. exists content.
  unfold save_staff_photo.
  rewrite (mbind_ok _ _ w w (underscored name))
    by (unfold lift; now rewrite sub_space_underscore).
  rewrite (mbind_ok _ _ w (w ++ [MadeDirs (path_join root ".actors")]) tt)
    by (unfold makedirs; now rewrite Hdirs).
  rewrite (mbind_ok _ _ _ (w ++ [MadeDirs (path_join root ".actors")]) content)
    by (unfold lift; now rewrite Hc).
  unfold write_file. rewrite Hwrite. unfold emit, photo_path.
  now rewrite <- app_assoc.
Qed.

Lemma save_staff_photos (env : environment) (root : string)
    (named : list (string * pyval)) :
  output_succeeds env ->
  forall w, exists w',
    mfor (save_staff_photo env root)
      (map (fun p => (PStr (fst p), snd p)) named) w = (Ok tt, w') /\
    written_paths w' =
    written_paths w ++ map (fun p => photo_path root (fst p)) named.
Proof.
  intros Hout.
  induction named as [|[name url] named IH]; intros w.
  - exists w. split; [reflexivity|]. cbn [map]. now rewrite app_nil_r.
  - cbn [map mfor fst snd].
    destruct (save_staff_photo_ok env root name url w Hout) as [content Hs].
    rewrite (mbind_ok _ _ _ _ _ Hs).
    destruct (IH (w ++ [MadeDirs (path_join root ".actors");
                        WroteFile (photo_path root name) content]))
      as (w' & -> & Hw').
    exists w'. split; [reflexivity|].
    rewrite Hw', written_paths_app.
    cbn [written_paths flat_map app]. now rewrite <- app_assoc.
Qed.

Lemma save_poster_yields (env : environment) (picture : pyval -> string)
    (root raw_file_name key : string) (value : pyval) (w : world) :
  output_yields env picture -> py_truthy value = true ->
  save_poster env root raw_file_name (key, value) w
  = (Ok tt, w ++ [WroteFile (artwork_path root raw_file_name key)
                    (picture value)]).
Proof.
  intros (Hfetch & Hwrite & _) Hv.
  unfold save_poster. rewrite Hv.
  rewrite (mbind_ok _ _ w w (picture value))
    by (unfold lift; now rewrite Hfetch).
  unfold write_file. now rewrite Hwrite.
Qed.

Lemma save_staff_photo_yields (env : environment) (picture : pyval -> string)
    (root name : string) (url : pyval) (w : world) :
  output_yields env picture ->
  save_staff_photo env root (PStr name, url) w
  = (Ok tt, w ++ [MadeDirs (path_join root ".actors");
                  WroteFile (photo_path root name) (picture url)]).
Proof.
  intros (Hfetch & Hwrite & Hdirs).
  unfold save_staff_photo.
  rewrite (mbind_ok _ _ w w (underscored name))
    by (unfold lift; now rewrite sub_space_underscore).
  rewrite (mbind_ok _ _ w (w ++ [MadeDirs (path_join root ".actors")]) tt)
    by (unfold makedirs; now rewrite Hdirs).
  rewrite (mbind_ok _ _ _ (w ++ [MadeDirs (path_join root ".actors")])
             (picture url))
    by (unfold lift; now rewrite Hfetch).
  unfold write_file. rewrite Hwrite. unfold emit, photo_path.
  now rewrite <- app_assoc.
Qed.

Lemma save_staff_photos_yield (env : environment) (picture : pyval -> string)
    (root : string) (named : list (string * pyval)) :
  output_yields env picture ->
  forall w,
    mfor (save_staff_photo env root)
      (map (fun p => (PStr (fst p), snd p)) named) w
    = (Ok tt,
       w ++ flat_map (fun p => [MadeDirs (path_join root ".actors");
                                WroteFile (photo_path root (fst p))
                                  (picture (snd p))]) named).
Proof.
  intros Hout.
  induction named as [|[name url] named IH]; intros w.
  - cbn [map mfor flat_map]. now rewrite app_nil_r.
  - cbn [map mfor fst snd flat_map].
    rewrite (mbind_ok _ _ _ _ _
               (save_staff_photo_yields env picture root name url w Hout)).
    rewrite IH. now rewrite <- app_assoc.
Qed.

(** C5, as the code has it. For a record that carries both image URLs, when
    downloads and writes succeed and every name of the photo map is a
    string: the artwork fetcher reports success and leaves on disk, in the
    film's directory, [B-poster.jpg] holding the download of the poster URL
    and [B-fanart.jpg] holding the download of the cover URL, and for every
    person [.actors/<person>.jpg], spaces in the name replaced by
    underscores, holding the download of that person's photo URL; the
    directory [.actors] is made before each photo and nothing else is
    written. *)
Theorem artwork_file_names (env : environment) (picture : pyval -> string)
    (d doc urls : dict) (empty_fields_str root raw_file_name : string)
    (named : list (string * pyval)) (w : world) :
  output_yields env picture ->
  get_clean_film_info (PDict d) = Ok (doc, urls, empty_fields_str) ->
  py_truthy (py_get "posterUrl" d) = true ->
  py_truthy (py_get "coverUrl" d) = true ->
  create_posters env urls (map (fun p => (PStr (fst p), snd p)) named)
    root raw_file_name w
  = (Ok (true, "Постеры успешно сохранены."),
     w ++ [ WroteFile (artwork_path root raw_file_name "poster")
              (picture (py_get "posterUrl" d));
            WroteFile (artwork_path root raw_file_name "fanart")
              (picture (py_get "coverUrl" d)) ]
       ++ flat_map (fun p => [ MadeDirs (path_join root ".actors");
                               WroteFile (photo_path root (fst p))
                                 (picture (snd p)) ]) named).
Proof.
  intros Hout Hclean Hp Hc.
  destruct (get_clean_film_info_fields d doc urls _ Hclean) as (fields & Hf & _).
  rewrite (clean_film_urls d doc urls fields Hf Hp Hc).
  unfold create_posters, try_except, create_posters_body.
  assert (Hposters :
            mfor (save_poster env root raw_file_name)
              [ ("poster", py_get "posterUrl" d); ("cover", PNone);
                ("fanart", py_get "coverUrl" d) ] w
            = (Ok tt,
               (w ++ [WroteFile (artwork_path root raw_file_name "poster")
                        (picture (py_get "posterUrl" d))])
               ++ [WroteFile (artwork_path root raw_file_name "fanart")
                     (picture (py_get "coverUrl" d))])).
  { cbn [mfor].
    rewrite (mbind_ok _ _ _ _ _
               (save_poster_yields env picture root raw_file_name "poster"
                  _ w Hout Hp)).
    rewrite (mbind_ok _ _ _ _ tt (eq_refl : save_poster env root raw_file_name
                                     ("cover", PNone) _ = (Ok tt, _))).
    rewrite (mbind_ok _ _ _ _ _
               (save_poster_yields env picture root raw_file_name "fanart"
                  _ _ Hout Hc)).
    reflexivity. }
  rewrite (mbind_ok _ _ _ _ _ Hposters).
  rewrite (mbind_ok _ _ _ _ _
             (save_staff_photos_yield env picture root named Hout _)).
  unfold mret. f_equal. rewrite <- !app_assoc. reflexivity.
Qed.

(** ** The folder pipeline *)

Lemma process_files_app (env : environment) (root : string)
    (files l1 l2 : list string) :
  forall (n : nat) (msg : string) (w : world),
    process_files env root files (l1 ++ l2) n msg w =
    mbind (process_files env root files l1 n msg)
      (fun r => process_files env root files l2 (fst r) (snd r)) w.
Proof.
  induction l1 as [|file l1 IH]; intros n msg w.
  - reflexivity.
  - cbn [app process_files]. destruct (eligible files file); [|apply IH].
    unfold mbind.
    destruct (process_file env root (fst (splitext file)) msg w)
      as [[msg1|e] w1]; [|reflexivity].
    rewrite IH. reflexivity.
Qed.

(** A file whose key extraction or resolution fails: [process_file] raises
    and writes nothing. *)
Lemma process_file_fails_early (env : environment)
    (root raw_file_name message : string) (e : exn) (w : world) :
  get_film_name_year raw_file_name = Raise e \/
  (exists title year,
      get_film_name_year raw_file_name = Ok (title, year) /\
      (get_film_id env title year = Raise e \/
       (get_film_id env title year = Ok None /\
        e = Exn NotFoundError
              ("В API для " +++ title +++ " (" +++ year +++ ") "
               +++ "id не найден")))) ->
  process_file env root raw_file_name message w = (Raise e, w).
Proof.
  unfold process_file, mbind, lift.
  intros [-> | (title & year & -> & [-> | [-> ->]])]; reflexivity.
Qed.

(** The loop stops at the first file whose processing raises. *)
Lemma process_folder_stops_at_failure (env : environment) (root : string)
    (pre post : list string) (file : string)
    (n : nat) (message : string) (e : exn) (w w1 w2 : world) :
  process_files env root (pre ++ file :: post) pre 0 "" w
  = (Ok (n, message), w1) ->
  eligible (pre ++ file :: post) file = true ->
  process_file env root (fst (splitext file)) message w1 = (Raise e, w2) ->
  process_folder env root (pre ++ file :: post) w = (Raise e, w2).
Proof.
  intros Hpre Helig Hfail.
  unfold process_folder. rewrite process_files_app.
  rewrite (mbind_ok _ _ _ _ _ Hpre). cbn [fst snd process_files].
  rewrite Helig. now apply mbind_raise.
Qed.

(** C3, as the code has it. When the files before file k have been
    processed and file k, which is eligible, fails in key extraction or in
    resolution, [process_folder] raises that failure to its caller: nothing
    is written for file k and no file after it is looked at. *)
Theorem failed_file_aborts_the_folder (env : environment) (root : string)
    (pre post : list string) (file : string)
    (n : nat) (message : string) (e : exn) (w w1 : world) :
  process_files env root (pre ++ file :: post) pre 0 "" w
  = (Ok (n, message), w1) ->
  eligible (pre ++ file :: post) file = true ->
  get_film_name_year (fst (splitext file)) = Raise e \/
  (exists title year,
      get_film_name_year (fst (splitext file)) = Ok (title, year) /\
      (get_film_id env title year = Raise e \/
       (get_film_id env title year = Ok None /\
        e = Exn NotFoundError
              ("В API для " +++ title +++ " (" +++ year +++ ") "
               +++ "id не найден")))) ->
  process_folder env root (pre ++ file :: post) w = (Raise e, w1).
Proof.
  intros Hpre Helig Hfail.
  apply (process_folder_stops_at_failure env root pre post file n message
           e w w1 w1 Hpre Helig).
  now apply process_file_fails_early.
Qed.

(** C10. When the record of an eligible file has no truthy [nameRu], or no
    truthy [year], normalisation returns but [process_folder] raises
    [KeyError] on building the summary line, before anything is written and
    whatever files follow. *)
Theorem missing_title_or_year_aborts_the_folder (env : environment)
    (root file : string) (rest : list string)
    (title year film_id msg_id : string) (is_ok_film_id : bool)
    (d doc urls : dict) (raw_staff_info : list (string * list pyval))
    (empty_fields_str : string) (w : world) :
  eligible (file :: rest) file = true ->
  get_film_name_year (fst (splitext file)) = Ok (title, year) ->
  get_film_id env title year = Ok (Some (is_ok_film_id, film_id, msg_id)) ->
  get_raw_film_info env film_id = Ok (Some (PDict d)) ->
  get_raw_staff_info env film_id MAX_ACTORS = Ok (Some raw_staff_info) ->
  get_clean_film_info (PDict d) = Ok (doc, urls, empty_fields_str) ->
  py_truthy (py_get "nameRu" d) = false \/ py_truthy (py_get "year" d) = false ->
  exists key,
    (key = "title" \/ key = "year") /\
    process_folder env root (file :: rest) w
    = (Raise (Exn KeyError ("'" +++ key +++ "'")), w).
Proof.
  intros Helig Hkey Hid Hfilm Hstaff Hclean Hfalsy.
  destruct (get_clean_film_info_fields d doc urls _ Hclean) as (fields & Hf & _).
  assert (Hrun : forall k,
             (k = "title" /\ dict_get "title" doc = None) \/
             (k = "year" /\ dict_get "year" doc = None /\
              exists v, dict_get "title" doc = Some v) ->
             process_folder env root (file :: rest) w
             = (Raise (Exn KeyError ("'" +++ k +++ "'")), w)).
  { intros k Hk. unfold process_folder. cbn [process_files]. rewrite Helig.
    apply mbind_raise. unfold process_file, mbind, lift.
    rewrite Hkey, Hid, Hfilm, Hstaff, Hclean. unfold py_getitem.
    destruct Hk as [[-> ->] | (-> & -> & v & ->)]; reflexivity. }
  destruct (py_truthy (py_get "nameRu" d)) eqn:Hname.
  - destruct Hfalsy as [? | Hyear]; [discriminate|].
    exists "year". split; [now right|]. apply Hrun. right.
    split; [reflexivity|]. split.
    + apply (falsy_field d "year" "year" doc urls fields);
        [simpl; tauto | exact Hyear | exact Hf].
    + exists (py_get "nameRu" d).
      apply (truthy_plain_field d "title" "nameRu" doc urls fields);
        [simpl; tauto | exact Hname | discriminate | reflexivity | exact Hf].
  - exists "title". split; [now left|]. apply Hrun. left.
    split; [reflexivity|].
    apply (falsy_field d "title" "nameRu" doc urls fields);
      [simpl; tauto | exact Hname | exact Hf].
Qed.

(** ** The theorems at work on the sample catalogue *)



(** Without a match the name is not read: the same candidate is returned
    for another requested year. *)
Example nameless_candidate_is_the_latest :
  get_film_id
    (Sample.catalogue
       (PList [PDict [("filmId", PInt 1); ("year", PStr "2010")]]) PNone)
    "A" "1999"
  = Ok (Some (false, "1", fallback_message "A" "1999")).
Proof. reflexivity. Qed.

Lemma malformed_year_reached_sample :
  get_film_id
    (Sample.catalogue
       (PList [Sample.film 1 "A" "1999"; Sample.film 2 "B" "20";
               Sample.film 3 "C" "2010"]) PNone)
    "C" "2010"
  = Raise (Exn APIAnswerWrongDataError malformed_year_message).
Proof.
  apply (malformed_year_reached_is_fatal _ "C" "2010"
           [Sample.film 1 "A" "1999"] [Sample.film 3 "C" "2010"]
           (Sample.film 2 "B" "20") "20").
  - eexists _, _. repeat split; reflexivity.
  - repeat constructor. exists "1999". repeat split; try reflexivity.
    + eexists. split; reflexivity.
    + discriminate.
  - eexists. split; reflexivity.
  - reflexivity.
Defined.

Lemma failed_file_aborts_sample :
  process_folder Sample.env "/media"
    ["notes.txt"; "Broken.mkv"; "Inception.2010.mkv"] []
  = (Raise (Exn NoYearError (no_year_message "Broken")), []).
Proof.
  apply (failed_file_aborts_the_folder Sample.env "/media"
           ["notes.txt"] ["Inception.2010.mkv"] "Broken.mkv" 0 ""
           (Exn NoYearError (no_year_message "Broken")) [] []).
  - reflexivity.
  - reflexivity.
  - left. reflexivity.
Defined.

(** C3 as stated fails: the file after the one without a year is eligible
    and would be processed on its own, but in the folder nothing is written
    for it. *)
Lemma file_after_a_failure_is_not_processed :
  eligible ["Broken.mkv"; "Inception.2010.mkv"] "Inception.2010.mkv" = true
  /\ written_paths
       (snd (process_folder Sample.env "/media" ["Inception.2010.mkv"] []))
     = [ "/media/Inception.2010.nfo"; "/media/Inception.2010-poster.jpg";
         "/media/Inception.2010-fanart.jpg";
         "/media/.actors/Leonardo_Di_Caprio.jpg";
         "/media/.actors/Christopher_Nolan.jpg" ]
  /\ process_folder Sample.env "/media"
       ["Broken.mkv"; "Inception.2010.mkv"] []
     = (Raise (Exn NoYearError (no_year_message "Broken")), []).
Proof. repeat split; reflexivity. Qed.

Lemma runtime_normalisation_sample :
  exists doc urls empty_fields,
    get_clean_film_info Sample.inception
    = Ok (doc, urls, py_join ", " empty_fields) /\
    clean_film_fields Sample.inception_fields = Ok (doc, urls, empty_fields) /\
    dict_get "runtime" doc = Some (PInt 8880) /\
    ~ In "runtime" empty_fields.
Proof.
  apply (proj1 (runtime_normalisation Sample.inception_fields) 148%Z).
  - reflexivity.
  - reflexivity.
Defined.

Lemma artwork_file_names_sample :
  create_posters (Sample.with_pictures Sample.env)
    [ ("poster", PStr "http://img/poster.jpg"); ("cover", PNone);
      ("fanart", PStr "http://img/cover.jpg") ]
    [(PStr "Leonardo Di Caprio", PStr "http://img/actor.jpg")]
    "/media" "Inception.2010" []
  = (Ok (true, "Постеры успешно сохранены."),
     [ WroteFile "/media/Inception.2010-poster.jpg"
         "<jpeg of http://img/poster.jpg>";
       WroteFile "/media/Inception.2010-fanart.jpg"
         "<jpeg of http://img/cover.jpg>";
       MadeDirs "/media/.actors";
       WroteFile "/media/.actors/Leonardo_Di_Caprio.jpg"
         "<jpeg of http://img/actor.jpg>" ]).
Proof.
  eapply (artwork_file_names (Sample.with_pictures Sample.env)
            Sample.picture_of Sample.inception_fields _ _ _
            "/media" "Inception.2010"
            [("Leonardo Di Caprio", PStr "http://img/actor.jpg")] []).
  - repeat split; reflexivity.
  - reflexivity.
  - reflexivity.
  - reflexivity.
Defined.

(** C5 as stated fails: the cover image of the sample record goes to
    [Inception.2010-fanart.jpg]; no [Inception.2010-cover.jpg] is written. *)
Lemma cover_image_is_not_written_as_cover :
  exists doc urls empty_fields_str w,
    get_clean_film_info Sample.inception = Ok (doc, urls, empty_fields_str) /\
    urls = [ ("poster", PStr "http://img/poster.jpg"); ("cover", PNone);
             ("fanart", PStr "http://img/cover.jpg") ] /\
    create_posters Sample.env urls [] "/media" "Inception.2010" []
    = (Ok (true, "Постеры успешно сохранены."), w) /\
    written_paths w
    = ["/media/Inception.2010-poster.jpg"; "/media/Inception.2010-fanart.jpg"] /\
    ~ In "/media/Inception.2010-cover.jpg" (written_paths w).
Proof.
  eexists _, _, _, _. split; [reflexivity|]. split; [reflexivity|].
  split; [reflexivity|]. split; [reflexivity|].
  simpl. intros [H | [H | []]]; discriminate.
Qed.

Lemma falsy_source_sample :
  exists doc urls empty_fields_str,
    get_clean_film_info Sample.inception = Ok (doc, urls, empty_fields_str) /\
    dict_get "plot" doc = None /\
    exists empty_fields,
      clean_film_fields Sample.inception_fields = Ok (doc, urls, empty_fields) /\
      empty_fields_str = py_join ", " empty_fields /\
      In "plot" empty_fields.
Proof.
  eexists _, _, _. split; [reflexivity|].
  apply (falsy_source_is_omitted_and_listed Sample.inception_fields
           "plot" "description").
  - simpl. tauto.
  - reflexivity.
  - reflexivity.
Defined.

Lemma missing_title_sample :
  exists key,
    (key = "title" \/ key = "year") /\
    process_folder
      (Sample.catalogue Sample.inception_search (PDict Sample.untitled_fields))
      "/media" ["Inception.2010.mkv"; "Other.1999.avi"] []
    = (Raise (Exn KeyError ("'" +++ key +++ "'")), []).
Proof.
  eapply (missing_title_or_year_aborts_the_folder
            (Sample.catalogue Sample.inception_search
               (PDict Sample.untitled_fields))
            "/media" "Inception.2010.mkv" ["Other.1999.avi"]
            "Inception" "2010" "2" _ true Sample.untitled_fields).
  - reflexivity.
  - reflexivity.
  - reflexivity.
  - reflexivity.
  - reflexivity.
  - reflexivity.
  - left. reflexivity.
Defined.

Example missing_title_raises_key_error :
  process_folder
    (Sample.catalogue Sample.inception_search (PDict Sample.untitled_fields))
    "/media" ["Inception.2010.mkv"; "Other.1999.avi"] []
  = (Raise (Exn KeyError "'title'"), []).
Proof. reflexivity. Qed.

(* ===================================================================== *)
(** * Further properties *)
(* ===================================================================== *)

(** ** Texts and their ends *)

Lemma str_app_assoc (a b c : string) :
  (a +++ b) +++ c = a +++ (b +++ c).
Proof. induction a as [|x a IH]; cbn; congruence. Qed.

Lemma str_rev_onto_app (s acc : string) :
  str_rev_onto s acc = str_rev s +++ acc.
Proof.
  unfold str_rev. revert acc.
  induction s as [|c s IH]; intros acc; cbn [str_rev_onto].
  - reflexivity.
  - rewrite (IH (String c acc)), (IH (String c EmptyString)).
    rewrite str_app_assoc. reflexivity.
Qed.

Lemma str_rev_cons (c : ascii) (s : string) :
  str_rev (String c s) = str_rev s +++ String c EmptyString.
Proof. unfold str_rev at 1. cbn [str_rev_onto]. apply str_rev_onto_app. Qed.

Lemma str_app_nil_r (s : string) : s +++ EmptyString = s.
Proof. induction s as [|c s IH]; cbn; congruence. Qed.

Lemma str_rev_app (a b : string) :
  str_rev (a +++ b) = str_rev b +++ str_rev a.
Proof.
  induction a as [|c a IH]; cbn [String.append].
  - now rewrite str_app_nil_r.
  - now rewrite !str_rev_cons, IH, str_app_assoc.
Qed.

Lemma str_rev_involutive (s : string) : str_rev (str_rev s) = s.
Proof.
  induction s as [|c s IH]; [reflexivity|].
  rewrite str_rev_cons, str_rev_app, IH. reflexivity.
Qed.

Lemma str_all_app (p : ascii -> bool) (a b : string) :
  str_all p (a +++ b) = str_all p a && str_all p b.
Proof.
  induction a as [|c a IH]; cbn [String.append str_all]; [reflexivity|].
  now rewrite IH, andb_assoc.
Qed.

Lemma str_all_rev (p : ascii -> bool) (s : string) :
  str_all p (str_rev s) = str_all p s.
Proof.
  induction s as [|c s IH]; [reflexivity|].
  rewrite str_rev_cons, str_all_app, IH. cbn [str_all].
  now rewrite andb_true_r, andb_comm.
Qed.

(** What [lstrip] removes is whitespace, and what it leaves does not start
    with whitespace. *)
Lemma py_lstrip_split (s : string) :
  exists p, s = p +++ py_lstrip s /\ str_all char_isspace p = true /\
            starts_with_space (py_lstrip s) = false.
Proof.
  induction s as [|c s (p & E & Hp & Hs)].
  - exists EmptyString. auto.
  - cbn [py_lstrip]. destruct (char_isspace c) eqn:Hc.
    + exists (String c p). cbn [String.append str_all].
      rewrite <- E, Hc, Hp. auto.
    + exists EmptyString. cbn. auto.
Qed.

(** What [rstrip] removes is whitespace at the end, and what it leaves does
    not end with whitespace. *)
Lemma py_rstrip_split (s : string) :
  exists q, s = py_rstrip s +++ q /\ str_all char_isspace q = true /\
            starts_with_space (str_rev (py_rstrip s)) = false.
Proof.
  unfold py_rstrip.
  destruct (py_lstrip_split (str_rev s)) as (p & E & Hp & Hs).
  exists (str_rev p). repeat split.
  - rewrite <- str_rev_app, <- E. symmetry. apply str_rev_involutive.
  - now rewrite str_all_rev.
  - now rewrite str_rev_involutive.
Qed.

(** ** Resolution without assumptions on the candidates *)

Lemma py_getitem_ok (v x : pyval) (k : string) :
  py_getitem v k = Ok x -> exists d, v = PDict d /\ dict_get k d = Some x.
Proof.
  destruct v; try discriminate. cbn [py_getitem].
  destruct (dict_get k d) eqn:E; [|discriminate].
  intros H. injection H as <-. eauto.
Qed.

(** What a turn of the loop has established when it goes on or returns. *)
Lemma films_loop_turn (env : environment) (title year : string)
    (films rest : list pyval) (idx : nat) (ly : string) (li : nat)
    (film : pyval) (res : bool * string * string) :
  films_loop env title year films (film :: rest) idx ly li = Ok res ->
  exists y,
    has_year_field film y /\ year_accepted y = true /\
    films_loop env title year films (film :: rest) idx ly li =
    if String.eqb y year then
      rbind (py_getitem film "nameRu") (fun name_ru =>
      rbind (py_getitem (nth idx films PNone) "filmId") (fun film_id =>
      Ok (true, py_str env film_id, found_message env name_ru year)))
    else
      films_loop env title year films rest (S idx)
        (if str_gt y ly then y else ly) (if str_gt y ly then idx else li).
Proof.
  intros H. cbn [films_loop] in H.
  destruct (py_getitem film "year") as [fy|e] eqn:Hy; [|discriminate].
  cbn [rbind] in H.
  destruct (py_len fy) as [n|e] eqn:Hn; [|discriminate].
  cbn [rbind] in H.
  destruct (n =? 4) eqn:H4; [|discriminate]. cbn [negb] in H.
  destruct (py_isdigit_method fy) as [b|e] eqn:Hd; [|discriminate].
  cbn [rbind] in H. destruct b; [|discriminate].
  destruct fy as [| b0 | n0 | x | y | l | d0]; try discriminate.
  cbn [py_len py_isdigit_method] in Hn, Hd.
  injection Hn as <-. injection Hd as Hd.
  destruct (py_getitem_ok _ _ _ Hy) as (d & -> & Hyear).
  assert (Hfield : has_year_field (PDict d) y) by (exists d; auto).
  assert (Hacc : year_accepted y = true)
    by (unfold year_accepted; now rewrite H4, Hd).
  exists y. split; [exact Hfield|]. split; [exact Hacc|].
  apply films_loop_accepted; assumption.
Qed.

Lemma films_loop_sound (env : environment) (title year : string)
    (films : list pyval) :
  forall (rest done : list pyval) (ly : string) (li : nat)
         (flag : bool) (id msg : string),
    films = done ++ rest ->
    films_loop env title year films rest (List.length done) ly li
    = Ok (flag, id, msg) ->
    if flag then
      exists film fid,
        In film rest /\ has_year_field film year /\
        py_getitem film "filmId" = Ok fid /\ id = py_str env fid
    else
      Forall (fun f => exists y, has_year_field f y /\ year_accepted y = true
                                 /\ y <> year) rest /\
      exists i fid,
        py_getitem (nth i films PNone) "filmId" = Ok fid /\
        id = py_str env fid.
Proof.
  induction rest as [|film rest IH]; intros done ly li flag id msg Ef H.
  - cbn [films_loop] in H.
    destruct (py_getitem (nth li films PNone) "filmId") as [fid|e] eqn:E;
      [|discriminate].
    injection H as <- <- _. split; [constructor | eauto].
  - destruct (films_loop_turn _ _ _ _ _ _ _ _ _ _ H) as (y & Hy & Hacc & Heq).
    rewrite Heq in H. clear Heq.
    destruct (String.eqb y year) eqn:Heqb.
    + apply String.eqb_eq in Heqb. subst y.
      replace (nth (List.length done) films PNone) with film in H
        by (rewrite Ef; symmetry; apply nth_middle).
      destruct (py_getitem film "nameRu") as [name|e]; [|discriminate].
      cbn [rbind] in H.
      destruct (py_getitem film "filmId") as [fid|e] eqn:E; [|discriminate].
      injection H as <- <- _.
      exists film, fid. repeat split; auto. now left.
    + apply String.eqb_neq in Heqb. rename Heqb into Hne.
      replace (S (List.length done)) with (List.length (done ++ [film])) in H
        by (rewrite length_app; cbn [List.length]; lia).
      apply IH in H; [|now rewrite <- app_assoc].
      destruct flag.
      * destruct H as (f & fid & Hin & Hrest). exists f, fid.
        split; [now right | exact Hrest].
      * destruct H as [Hall Hid]. split; [|exact Hid].
        constructor; [exists y; auto | exact Hall].
Qed.

Lemma nth_default_or_in {A : Type} (l : list A) (i : nat) (d : A) :
  nth i l d = d \/ In (nth i l d) l.
Proof.
  destruct (Nat.lt_ge_cases i (List.length l)) as [H | H].
  - right. now apply nth_In.
  - left. now apply nth_overflow.
Qed.

(** X3. Whatever the candidates look like: when resolution answers with
    [year_matched = true], some candidate has the requested year and the
    identifier is that candidate's; when it answers with
    [year_matched = false], every candidate has passed the year check, none
    has the requested year, and the identifier is that of a candidate of
    the list. *)
Theorem year_matched_flag_is_truthful (env : environment)
    (title year : string) (films : list pyval)
    (flag : bool) (id msg : string) :
  search_answers env title films ->
  get_film_id env title year = Ok (Some (flag, id, msg)) ->
  (exists film fid,
      In film films /\ py_getitem film "filmId" = Ok fid /\
      id = py_str env fid /\
      (flag = true -> has_year_field film year)) /\
  (flag = false ->
   Forall (fun f => exists y, has_year_field f y /\ year_accepted y = true
                              /\ y <> year) films).
Proof.
  intros Hans H.
  destruct films as [|f0 films'].
  - exfalso. destruct Hans as (r & body & Hget & Hst & Hjson & Hfilms).
    unfold get_film_id, api_get in H. rewrite Hget in H. cbn [rbind] in H.
    rewrite Hst in H. cbn [check_request_status rbind] in H.
    unfold film_id_of_response in H. rewrite Hjson in H.
    cbn [rbind validate_types is_none py_isinstance type_of orb negb] in H.
    rewrite Hfilms in H. discriminate.
  - rewrite (get_film_id_on_films env title year _ Hans) in H by discriminate.
    destruct (films_loop env title year (f0 :: films') (f0 :: films') 0
                "0000" 0) as [[[flag' id'] msg']|e] eqn:E; [|discriminate].
    injection H as -> -> ->.
    apply (films_loop_sound env title year (f0 :: films') (f0 :: films') [])
      in E; [|reflexivity].
    destruct flag.
    + destruct E as (film & fid & Hin & Hy & Hid & ->).
      split; [|discriminate]. exists film, fid. auto.
    + destruct E as (Hall & i & fid & Hid & ->).
      split; [|auto].
      exists (nth i (f0 :: films') PNone), fid.
      repeat split; auto; [|discriminate].
      destruct (nth_default_or_in (f0 :: films') i PNone) as [Hd | Hin];
        [|exact Hin].
      rewrite Hd in Hid. discriminate.
Qed.

Lemma year_matched_flag_sample :
  (exists film fid,
      In film [Sample.film 1 "Начало (2009)" "2009"; Sample.film 2 "Начало" "2010"]
      /\ py_getitem film "filmId" = Ok fid /\
      "2" = py_str Sample.env fid /\
      (true = true -> has_year_field film "2010")) /\
  (true = false ->
   Forall (fun f => exists y, has_year_field f y /\ year_accepted y = true
                              /\ y <> "2010")
     [Sample.film 1 "Начало (2009)" "2009"; Sample.film 2 "Начало" "2010"]).
Proof.
  apply (year_matched_flag_is_truthful Sample.env "Inception" "2010" _ true "2"
           "Данные о фильме Начало (2010) успешно получены").
  - eexists _, _. repeat split; reflexivity.
  - reflexivity.
Defined.

(** ** Answers without candidates *)

Lemma get_film_id_on_body (env : environment) (title year : string)
    (body : pyval) :
  answers env (search_request env title) body ->
  get_film_id env title year =
  film_id_of_response env title year (Response 200 (Ok body)).
Proof.
  intros (r & Hget & Hst & Hjson).
  unfold get_film_id, api_get. rewrite Hget. cbn [rbind]. rewrite Hst.
  cbn [check_request_status rbind]. unfold film_id_of_response.
  rewrite Hjson. reflexivity.
Qed.

(** X4. A 200 answer to the search that carries no candidate list: an
    empty [films] (a list, string or object of length 0) raises
    [NoFilmsError]; a body without the key [films] raises
    [APIAnswerWrongDataError]; a [films] that is [null] raises [TypeError];
    a body that is not an object raises [TypeError]. *)
Theorem search_without_candidates (env : environment) (title year : string)
    (body : pyval) :
  answers env (search_request env title) body ->
  (forall d films,
      body = PDict d -> dict_get "films" d = Some films ->
      py_len films = Ok 0 ->
      get_film_id env title year
      = Raise (Exn NoFilmsError
                 ("Поиск (" +++ title +++ "). В ответе API список films пуст."
                  +++ nl +++ "Проверьте имя файла."))) /\
  (forall d,
      body = PDict d -> dict_get "films" d = None ->
      get_film_id env title year
      = Raise (Exn APIAnswerWrongDataError
                 "Ключ films отсутствует в ответе API")) /\
  (forall d,
      body = PDict d -> dict_get "films" d = Some PNone ->
      get_film_id env title year
      = Raise (Exn TypeError "object of type 'NoneType' has no len()")) /\
  ((forall d, body <> PDict d) ->
   get_film_id env title year
   = Raise (Exn TypeError
              ("Для request_data ожидался dict, Получен "
               +++ type_name (type_of body)))).
Proof.
  intros Hans. rewrite (get_film_id_on_body env title year body Hans).
  unfold film_id_of_response. cbn [json rbind].
  repeat split.
  - intros d films -> Hf Hlen.
    cbn [validate_types is_none py_isinstance type_of orb negb rbind].
    rewrite Hf, Hlen. reflexivity.
  - intros d -> Hf.
    cbn [validate_types is_none py_isinstance type_of orb negb rbind].
    now rewrite Hf.
  - intros d -> Hf.
    cbn [validate_types is_none py_isinstance type_of orb negb rbind].
    now rewrite Hf.
  - intros Hnot. destruct body; try reflexivity.
    exfalso. eapply Hnot. reflexivity.
Qed.

Lemma search_without_candidates_sample :
  get_film_id (Sample.catalogue (PList []) PNone) "Nothing" "1999"
  = Raise (Exn NoFilmsError
             ("Поиск (Nothing). В ответе API список films пуст."
              +++ nl +++ "Проверьте имя файла.")).
Proof.
  apply (proj1 (search_without_candidates
                  (Sample.catalogue (PList []) PNone) "Nothing" "1999"
                  (PDict [("films", PList [])])
                  ltac:(eexists; repeat split; reflexivity))
           [("films", PList [])] (PList [])); reflexivity.
Defined.

(** ** The staff lookup *)

Lemma staff_steps (max_actors : nat) (persons : list pyval) :
  Forall has_profession_key persons ->
  forall actors directors,
    rfold (staff_step max_actors) persons (actors, directors) =
    Ok (actors
        ++ firstn (max_actors - List.length actors)
             (filter (profession_is "ACTOR") persons),
        directors ++ filter (profession_is "DIRECTOR") persons).
Proof.
  induction 1 as [|p persons (v & Hv) _ IH]; intros actors directors.
  - cbn [rfold filter]. now rewrite firstn_nil, !app_nil_r.
  - assert (Hp : forall k, profession_is k p = py_eq_str v k)
      by (intros k; unfold profession_is; now rewrite Hv).
    cbn [rfold]. unfold staff_step at 1. rewrite Hv. cbn [rbind].
    rewrite IH. cbn [filter]. rewrite !Hp.
    f_equal. f_equal.
    + destruct (py_eq_str v "ACTOR"); cbn [andb]; [|reflexivity].
      destruct (Nat.ltb_spec (List.length actors) max_actors) as [Hlt | Hge].
      * rewrite length_app. cbn [List.length].
        replace (max_actors - List.length actors)
          with (S (max_actors - (List.length actors + 1))) by lia.
        cbn [firstn]. now rewrite <- app_assoc.
      * replace (max_actors - List.length actors) with 0 by lia.
        reflexivity.
    + destruct (py_eq_str v "DIRECTOR"); [|reflexivity].
      now rewrite <- app_assoc.
Qed.

(** X5. When every entry of a 200 staff answer has a [professionKey], the
    staff lookup returns as [ACTORS] the first [max_actors] entries whose
    key is ACTOR and as [DIRECTORS] all entries whose key is DIRECTOR, each
    in the order of the answer; entries of other professions are dropped. *)
Theorem staff_lookup_filters_and_caps (env : environment) (film_id : string)
    (max_actors : nat) (persons : list pyval) :
  answers env (staff_request env film_id) (PList persons) ->
  Forall has_profession_key persons ->
  get_raw_staff_info env film_id max_actors =
  Ok (Some [ ("ACTORS",
              firstn max_actors (filter (profession_is "ACTOR") persons));
             ("DIRECTORS", filter (profession_is "DIRECTOR") persons) ]).
Proof.
  intros (r & Hget & Hst & Hjson) Hkeys.
  unfold get_raw_staff_info, api_get. rewrite Hget. cbn [rbind]. rewrite Hst.
  cbn [check_request_status rbind]. unfold staff_of_response.
  rewrite Hjson.
  cbn [rbind validate_types is_none py_isinstance type_of orb negb].
  rewrite (staff_steps max_actors persons Hkeys [] []).
  cbn [rbind fst snd app List.length staff_dict].
  now rewrite Nat.sub_0_r.
Qed.

Lemma staff_lookup_sample :
  get_raw_staff_info Sample.env "2" 1 =
  Ok (Some [ ("ACTORS",
              [Sample.person "ACTOR" "Leonardo Di Caprio" "http://img/actor.jpg"]);
             ("DIRECTORS",
              [Sample.person "DIRECTOR" "Christopher Nolan"
                 "http://img/director.jpg"]) ]).
Proof.
  apply (staff_lookup_filters_and_caps Sample.env "2" 1
           [ Sample.person "ACTOR" "Leonardo Di Caprio" "http://img/actor.jpg";
             Sample.person "DIRECTOR" "Christopher Nolan"
               "http://img/director.jpg" ]).
  - eexists. repeat split; reflexivity.
  - repeat constructor; eexists; reflexivity.
Defined.



(** ** The roster *)

Lemma py_get_truthy_getitem (d : dict) (k : string) :
  py_truthy (py_get k d) = true -> py_getitem (PDict d) k = Ok (py_get k d).
Proof.
  unfold py_get, py_getitem.
  destruct (dict_get k d); [reflexivity | discriminate].
Qed.

Lemma dict_has_getitem (d : dict) (k : string) :
  dict_has k d = true -> py_getitem (PDict d) k = Ok (py_get k d).
Proof.
  unfold dict_has, py_get, py_getitem.
  destruct (dict_get k d); [reflexivity | discriminate].
Qed.

(** The name the code picks is [display_name]. *)
Lemma person_name_is_display_name (d : dict) :
  (if py_truthy (py_get "nameRu" d) then py_getitem (PDict d) "nameRu"
   else if py_truthy (py_get "nameEn" d) then py_getitem (PDict d) "nameEn"
        else Ok PNone)
  = Ok (display_name d).
Proof.
  unfold display_name.
  destruct (py_truthy (py_get "nameRu" d)) eqn:Hru.
  - now apply py_get_truthy_getitem.
  - destruct (py_truthy (py_get "nameEn" d)) eqn:Hen; [|reflexivity].
    now apply py_get_truthy_getitem.
Qed.

(** One plain person, for the profession [ACTORS] or [DIRECTORS]. *)
Lemma clean_person_plain (profession : string)
    (person : pyval) (a dd : list dict)
    (posters : list (pyval * pyval)) (empties : list pyval) :
  profession = "ACTORS" \/ profession = "DIRECTORS" ->
  plain_person person ->
  exists posters',
    clean_person profession
      ([("ACTORS", a); ("DIRECTORS", dd)], posters, empties) person
    = Ok ([ ("ACTORS",
             if String.eqb profession "ACTORS" && is_named person
             then a ++ [roster_entry person] else a);
            ("DIRECTORS",
             if String.eqb profession "DIRECTORS" && is_named person
             then dd ++ [roster_entry person] else dd) ],
          posters',
          if has_photo person then empties
          else empties ++ [name_of person]).
Proof.
  intros Hprof (d & -> & Hdesc & Hname).
  unfold clean_person. cbn [py_get_method rbind].
  rewrite (person_name_is_display_name d). cbn [rbind].
  cbn [is_named name_of has_photo roster_entry].
  assert (Hrole : py_getitem (PDict d) "description"
                  = Ok (py_get "description" d))
    by now apply dict_has_getitem.
  assert (Hroster :
            (if py_truthy (display_name d)
             then match dict_get profession [("ACTORS", a); ("DIRECTORS", dd)] with
                  | None => raise KeyError ("'" +++ profession +++ "'")
                  | Some persons =>
                      rbind (py_getitem (PDict d) "description") (fun role =>
                        Ok (dict_set profession
                              (persons ++ [[("name", display_name d);
                                            ("role", role)]])
                              [("ACTORS", a); ("DIRECTORS", dd)]))
                  end
             else Ok [("ACTORS", a); ("DIRECTORS", dd)])
            = Ok [ ("ACTORS",
                    if String.eqb profession "ACTORS"
                       && py_truthy (display_name d)
                    then a ++ [[("name", display_name d);
                                ("role", py_get "description" d)]]
                    else a);
                   ("DIRECTORS",
                    if String.eqb profession "DIRECTORS"
                       && py_truthy (display_name d)
                    then dd ++ [[("name", display_name d);
                                 ("role", py_get "description" d)]]
                    else dd) ]).
  { rewrite Hrole.
    destruct Hprof as [-> | ->]; destruct (py_truthy (display_name d));
      reflexivity. }
  rewrite Hroster. cbn [rbind py_get_method].
  destruct (py_truthy (py_get "posterUrl" d)) eqn:Hphoto.
  - rewrite (py_get_truthy_getitem d "posterUrl" Hphoto). cbn [rbind].
    assert (Hset : exists posters',
               py_setitem (display_name d) (py_get "posterUrl" d) posters
               = Ok posters').
    { destruct Hname as [-> | [s ->]]; cbn [py_setitem]; eauto. }
    destruct Hset as [posters' ->]. cbn [rbind]. eauto.
  - eauto.
Qed.

Lemma clean_persons_plain (profession : string)
    (persons : list pyval) :
  profession = "ACTORS" \/ profession = "DIRECTORS" ->
  Forall plain_person persons ->
  forall a dd posters empties,
  exists posters',
    rfold (clean_person profession) persons
      ([("ACTORS", a); ("DIRECTORS", dd)], posters, empties)
    = Ok ([ ("ACTORS",
             if String.eqb profession "ACTORS"
             then a ++ map roster_entry (filter is_named persons) else a);
            ("DIRECTORS",
             if String.eqb profession "DIRECTORS"
             then dd ++ map roster_entry (filter is_named persons) else dd) ],
          posters',
          empties
          ++ map name_of (filter (fun p => negb (has_photo p)) persons)).
Proof.
  intros Hprof. induction 1 as [|p persons Hp _ IH]; intros a dd posters empties.
  - exists posters. cbn [rfold filter map].
    rewrite !app_nil_r. now destruct (String.eqb profession _), (String.eqb profession _).
  - cbn [rfold].
    destruct (clean_person_plain profession p a dd posters empties Hprof Hp)
      as (posters1 & ->).
    cbn [rbind].
    match goal with
    | |- context [rfold _ _ ([("ACTORS", ?a1); ("DIRECTORS", ?d1)], _, ?e1)] =>
        destruct (IH a1 d1 posters1 e1) as (posters' & ->)
    end.
    exists posters'. cbn [filter].
    destruct Hprof as [-> | ->]; cbn [String.eqb Ascii.eqb Bool.eqb andb];
      destruct (is_named p), (has_photo p); cbn [negb map app];
      rewrite <- ?app_assoc; reflexivity.
Qed.

Lemma staff_fold_plain (actors directors : list pyval) :
  Forall plain_person actors -> Forall plain_person directors ->
  exists posters,
    rfold clean_profession (staff_dict actors directors) initial_staff_state
    = Ok ([ ("ACTORS", map roster_entry (filter is_named actors));
            ("DIRECTORS", map roster_entry (filter is_named directors)) ],
          posters,
          unphotographed (actors ++ directors)).
Proof.
  intros Ha Hd. unfold staff_dict, initial_staff_state.
  cbn [rfold]. unfold clean_profession at 1. cbn [fst snd].
  destruct (clean_persons_plain "ACTORS" actors (or_introl eq_refl) Ha
              [] [] [] []) as (posters1 & ->).
  cbn [rbind String.eqb Ascii.eqb Bool.eqb app].
  unfold clean_profession at 1. cbn [fst snd].
  match goal with
  | |- context [rfold _ directors (_, _, ?e1)] =>
      destruct (clean_persons_plain "DIRECTORS" directors
                  (or_intror eq_refl) Hd
                  (map roster_entry (filter is_named actors)) [] posters1 e1)
        as (posters2 & ->)
  end.
  cbn [rbind String.eqb Ascii.eqb Bool.eqb app].
  exists posters2. unfold unphotographed.
  now rewrite filter_app, map_app.
Qed.

Lemma join_values_texts (sep : string) (items : list pyval) :
  Forall (fun v => exists s, v = PStr s) items ->
  forall i, join_values sep i items = Ok (map text_of items).
Proof.
  induction 1 as [|v items [s ->] _ IH]; intros i; [reflexivity|].
  cbn [join_values map text_of]. now rewrite IH.
Qed.

Lemma join_values_none (sep : string) (items : list pyval) :
  Forall (fun v => v = PNone \/ exists s, v = PStr s) items ->
  In PNone items ->
  forall i, exists msg, join_values sep i items = Raise (Exn TypeError msg).
Proof.
  induction 1 as [|v items Hv _ IH]; intros Hin i; [contradiction|].
  destruct Hv as [-> | [s ->]].
  - cbn [join_values]. unfold raise. eauto.
  - destruct Hin as [Hin | Hin]; [discriminate|].
    cbn [join_values]. destruct (IH Hin (S i)) as [msg ->]. eauto.
Qed.

(** X7. For a staff whose people are objects with a [description] and a
    name that is a [str] or missing, and where everyone without a photo has
    a name: the roster keeps, per profession and in order, the people that
    have a name, each with the name [nameRu], or [nameEn] when [nameRu] is
    empty, and the role [description]; the report lists the names of the
    people without a photo. *)
Theorem roster_of_plain_staff (actors directors : list pyval) :
  Forall plain_person actors -> Forall plain_person directors ->
  Forall (fun v => exists s, v = PStr s)
    (unphotographed (actors ++ directors)) ->
  exists posters,
    get_clean_staff_info (staff_dict actors directors)
    = Ok ([ ("ACTORS", map roster_entry (filter is_named actors));
            ("DIRECTORS", map roster_entry (filter is_named directors)) ],
          posters,
          py_join ", " (map text_of (unphotographed (actors ++ directors)))).
Proof.
  intros Ha Hd Hnames. unfold get_clean_staff_info.
  destruct (staff_fold_plain actors directors Ha Hd) as (posters & ->).
  cbn [rbind]. unfold py_join_values.
  rewrite (join_values_texts ", " _ Hnames 0). cbn [rbind]. eauto.
Qed.


Lemma roster_of_plain_staff_sample :
  exists posters,
    get_clean_staff_info
      (staff_dict
         [ PDict [("nameRu", PStr ""); ("nameEn", PStr "Tom Hardy");
                  ("description", PStr "Eames")];
           PDict [("description", PStr "extra");
                  ("posterUrl", PStr "http://img/x.jpg")] ]
         [Sample.person "DIRECTOR" "Christopher Nolan" "http://img/d.jpg"])
    = Ok ([ ("ACTORS", [[("name", PStr "Tom Hardy"); ("role", PStr "Eames")]]);
            ("DIRECTORS",
             [[("name", PStr "Christopher Nolan"); ("role", PStr "role")]]) ],
          posters, "Tom Hardy").
Proof.
  apply (roster_of_plain_staff
           [ PDict [("nameRu", PStr ""); ("nameEn", PStr "Tom Hardy");
                    ("description", PStr "Eames")];
             PDict [("description", PStr "extra");
                    ("posterUrl", PStr "http://img/x.jpg")] ]
           [Sample.person "DIRECTOR" "Christopher Nolan" "http://img/d.jpg"]).
  - repeat constructor; eexists; (split; [reflexivity|]);
      (split; [reflexivity|]); cbn; eauto.
  - repeat constructor; eexists; (split; [reflexivity|]);
      (split; [reflexivity|]); cbn; eauto.
  - repeat constructor. eexists. reflexivity.
Defined.


(** ** Artwork for any image map *)

Lemma save_posters_ok (env : environment) (root raw_file_name : string)
    (posters_urls : dict) :
  output_succeeds env ->
  forall w, exists w',
    mfor (save_poster env root raw_file_name) posters_urls w = (Ok tt, w') /\
    written_paths w' =
    written_paths w ++ artwork_paths root raw_file_name posters_urls.
Proof.
  intros Hout. unfold artwork_paths.
  induction posters_urls as [|[key value] urls IH]; intros w.
  - exists w. split; [reflexivity|]. cbn [filter map]. now rewrite app_nil_r.
  - cbn [mfor filter snd]. destruct (py_truthy value) eqn:Hv.
    + destruct (save_poster_ok env root raw_file_name key value w Hout Hv)
        as [content Hs].
      rewrite (mbind_ok _ _ _ _ _ Hs).
      destruct (IH (w ++ [WroteFile (artwork_path root raw_file_name key)
                            content])) as (w' & -> & Hw').
      exists w'. split; [reflexivity|].
      rewrite Hw', written_paths_app. cbn [written_paths flat_map app map fst].
      now rewrite <- app_assoc.
    + assert (Hs : save_poster env root raw_file_name (key, value) w
                   = (Ok tt, w))
        by (unfold save_poster; now rewrite Hv).
      rewrite (mbind_ok _ _ _ _ _ Hs). apply IH.
Qed.

(** X9. For any image map and any photo map whose names are strings, when
    downloads and writes succeed: [create_posters] reports success and
    writes, in this order, one file [B-key.jpg] for each entry of the image
    map with a truthy URL and one file [.actors/name.jpg] for each photo;
    entries with a falsy URL write nothing. *)
Theorem create_posters_writes (env : environment) (posters_urls : dict)
    (photos : list (string * pyval)) (root raw_file_name : string)
    (w : world) :
  output_succeeds env ->
  exists w',
    create_posters env posters_urls (named_photos photos) root raw_file_name w
    = (Ok (true, "Постеры успешно сохранены."), w') /\
    written_paths w' =
    written_paths w ++ artwork_paths root raw_file_name posters_urls
    ++ map (fun p => photo_path root (fst p)) photos.
Proof.
  intros Hout. unfold create_posters, try_except, create_posters_body.
  destruct (save_posters_ok env root raw_file_name posters_urls Hout w)
    as (w1 & H1 & Hw1).
  destruct (save_staff_photos env root photos Hout w1) as (w2 & H2 & Hw2).
  rewrite (mbind_ok _ _ _ _ _ H1). unfold named_photos.
  rewrite (mbind_ok _ _ _ _ _ H2).
  exists w2. split; [reflexivity|]. now rewrite Hw2, Hw1, <- app_assoc.
Qed.


Lemma create_posters_writes_sample :
  exists w',
    create_posters Sample.env
      [("poster", PStr "http://img/p.jpg"); ("cover", PNone)]
      (named_photos [("Tom Hardy", PStr "http://img/t.jpg")])
      "/media" "Inception.2010" []
    = (Ok (true, "Постеры успешно сохранены."), w') /\
    written_paths w' =
    [] ++ artwork_paths "/media" "Inception.2010"
            [("poster", PStr "http://img/p.jpg"); ("cover", PNone)]
    ++ map (fun p => photo_path "/media" (fst p))
         [("Tom Hardy", PStr "http://img/t.jpg")].
Proof.
  apply (create_posters_writes Sample.env).
  repeat split; intros; simpl; eauto.
Defined.


(** ** The sidecar *)

(** X11. What the flag of [create_nfo] says about the disk: on success
    exactly one file has been written, the sidecar [path/name.nfo] with the
    rendering of the tree; when building the tree or rendering it raises,
    the flag is false and nothing has been written. *)
Theorem create_nfo_flag_and_disk (env : environment) (clean_film_info : dict)
    (clean_staff_info : list (string * list dict))
    (path raw_file_name : string) (w w' : world) (flag : bool) (msg : string) :
  create_nfo env clean_film_info clean_staff_info path raw_file_name w
  = (Ok (flag, msg), w') ->
  (flag = true ->
   exists film final_xml,
     rfold (film_elements env) clean_film_info [] = Ok film /\
     render_xml env (nfo_tree film clean_staff_info) = Ok final_xml /\
     w' = w ++ [WroteFile (path_join path (raw_file_name +++ ".nfo"))
                  final_xml]) /\
  ((forall film final_xml,
       rfold (film_elements env) clean_film_info [] = Ok film ->
       render_xml env (nfo_tree film clean_staff_info) <> Ok final_xml) ->
   flag = false /\ w' = w).
Proof.
  unfold create_nfo, try_except, create_nfo_body, mbind, lift, mret,
    write_file, emit, nfo_tree.
  destruct (rfold (film_elements env) clean_film_info []) as [film|e].
  - destruct (render_xml env _) as [final_xml|e] eqn:Hr.
    + destruct (write_error env _) as [e|].
      * intros H. injection H as <- <- <-. split; [discriminate|].
        intros Hno. exfalso. eapply Hno; eauto.
      * intros H. injection H as <- <- <-. split; [eauto|].
        intros Hno. exfalso. eapply Hno; eauto.
    + intros H. injection H as <- <- <-. split; [discriminate | auto].
  - intros H. injection H as <- <- <-. split; [discriminate | auto].
Qed.

Lemma create_nfo_flag_and_disk_sample :
  (true = true ->
   exists film final_xml,
     rfold (film_elements Sample.env) [("title", PStr "A")] [] = Ok film /\
     render_xml Sample.env (nfo_tree film []) = Ok final_xml /\
     [WroteFile "/media/A.2010.nfo" "<movie/>"]
     = [] ++ [WroteFile (path_join "/media" ("A.2010" +++ ".nfo")) final_xml])
  /\
  ((forall film final_xml,
       rfold (film_elements Sample.env) [("title", PStr "A")] [] = Ok film ->
       render_xml Sample.env (nfo_tree film []) <> Ok final_xml) ->
   true = false /\ [WroteFile "/media/A.2010.nfo" "<movie/>"] = []).
Proof.
  apply (create_nfo_flag_and_disk Sample.env [("title", PStr "A")] []
           "/media" "A.2010" [] _ true "*.nfo файл успешно создан.").
  reflexivity.
Defined.

Lemma list_elements_tags (env : environment) (tag field : string)
    (tag_value : pyval) (l : list xml) :
  list_elements env tag field tag_value = Ok l ->
  Forall (fun x => tag_of x = tag) l.
Proof.
  unfold list_elements.
  destruct (py_iter tag_value) as [items|e]; [|discriminate]. cbn [rbind].
  assert (H : forall acc l',
             Forall (fun x => tag_of x = tag) acc ->
             rfold (fun acc item =>
                      rbind (py_getitem item field) (fun x =>
                        Ok (acc ++ [leaf tag (PStr (py_str env x))])))
                   items acc = Ok l' ->
             Forall (fun x => tag_of x = tag) l').
  { induction items as [|item items IH]; intros acc l' Hacc Hl.
    - now injection Hl as <-.
    - cbn [rfold] in Hl.
      destruct (py_getitem item field) as [x|e]; [|discriminate].
      cbn [rbind] in Hl.
      apply IH in Hl; [exact Hl|].
      apply Forall_app. split; [exact Hacc | repeat constructor]. }
  apply H. constructor.
Qed.

(** X12. A field of the document whose value is falsy, such as the [None]
    that an unparsable run time leaves, an empty text or a zero, yields no
    element in the sidecar tree. *)
Theorem falsy_field_has_no_element (env : environment) (doc : dict)
    (tag : string) (children : list xml) :
  tag <> "genre" -> tag <> "country" ->
  (forall v, In (tag, v) doc -> py_truthy v = false) ->
  rfold (film_elements env) doc [] = Ok children ->
  ~ In tag (map tag_of children).
Proof.
  intros Hg Hc Hfalsy.
  assert (H : forall acc children',
             ~ In tag (map tag_of acc) ->
             (forall v, In (tag, v) doc -> py_truthy v = false) ->
             rfold (film_elements env) doc acc = Ok children' ->
             ~ In tag (map tag_of children')).
  { clear Hfalsy children.
    induction doc as [|[k v] doc IH]; intros acc children' Hacc Hfalsy Hr.
    - now injection Hr as <-.
    - cbn [rfold] in Hr.
      destruct (film_elements env acc (k, v)) as [acc1|e] eqn:E;
        [|discriminate].
      cbn [rbind] in Hr.
      apply (IH acc1 children'); [|intros v' Hv'; apply Hfalsy; now right | exact Hr].
      unfold film_elements in E.
      destruct (py_truthy v) eqn:Hv; [|now injection E as <-].
      assert (Hk : k <> tag).
      { intros ->. rewrite (Hfalsy v) in Hv by now left. discriminate. }
      assert (Hlist : forall t l,
                 t <> tag -> Forall (fun x => tag_of x = t) l ->
                 ~ In tag (map tag_of (acc ++ l))).
      { intros t l Ht Hl Hin. rewrite map_app, in_app_iff in Hin.
        destruct Hin as [Hin | Hin]; [now apply Hacc|].
        apply in_map_iff in Hin as (x & Hx & Hxin).
        rewrite Forall_forall in Hl. rewrite (Hl x Hxin) in Hx. congruence. }
      destruct (String.eqb k "genres").
      + destruct (list_elements env "genre" "genre" v) as [l|e] eqn:El;
          [|discriminate].
        injection E as <-.
        apply (Hlist "genre" l); [congruence|].
        now apply (list_elements_tags env "genre" "genre" v).
      + destruct (String.eqb k "countries").
        * destruct (list_elements env "country" "country" v) as [l|e] eqn:El;
            [|discriminate].
          injection E as <-.
          apply (Hlist "country" l); [congruence|].
          now apply (list_elements_tags env "country" "country" v).
        * injection E as <-.
          apply (Hlist k); [exact Hk | repeat constructor]. }
  apply H; [intros [] | exact Hfalsy].
Qed.

Lemma falsy_field_has_no_element_sample :
  ~ In "runtime"
      (map tag_of [leaf "title" (PStr "A"); leaf "year" (PStr "2010")]).
Proof.
  apply (falsy_field_has_no_element Sample.env
           [("title", PStr "A"); ("runtime", PNone); ("year", PInt 2010)]
           "runtime").
  - discriminate.
  - discriminate.
  - intros v [H | [H | [H | []]]]; try discriminate.
    injection H as <-. reflexivity.
  - reflexivity.
Defined.

(** X13. The actors of the roster become the [actor] elements in roster
    order, and the element of the actor at position [i] carries the name,
    the role and the order [i], counted from 0. *)
Theorem actor_elements_are_numbered (persons : list dict) (i : nat)
    (person : dict) :
  nth_error persons i = Some person ->
  nth_error (staff_elements ("ACTORS", persons)) i
  = Some (Element "actor" PNone
            [ leaf "name" (py_get "name" person);
              leaf "role" (py_get "role" person);
              leaf "order" (PStr (str_of_int (Z.of_nat i))) ])
  /\ List.length (staff_elements ("ACTORS", persons)) = List.length persons.
Proof.
  cbn [staff_elements String.eqb Ascii.eqb Bool.eqb].
  assert (H : forall k persons' j,
             nth_error persons' j = Some person ->
             nth_error (actor_elements k persons') j
             = Some (Element "actor" PNone
                       [ leaf "name" (py_get "name" person);
                         leaf "role" (py_get "role" person);
                         leaf "order" (PStr (str_of_int (Z.of_nat (k + j)))) ])
             /\ List.length (actor_elements k persons')
                = List.length persons').
  { intros k persons'. revert k.
    induction persons' as [|p persons' IH]; intros k [|j] Hj; try discriminate.
    - injection Hj as ->. cbn [actor_elements nth_error List.length].
      rewrite Nat.add_0_r. split; [reflexivity|].
      f_equal. clear. revert k.
      induction persons' as [|q l IHl]; intros k; cbn; [reflexivity|].
      now rewrite IHl.
    - cbn [actor_elements nth_error List.length].
      destruct (IH (S k) j Hj) as [H1 H2].
      rewrite H1, H2. replace (S k + j) with (k + S j) by lia. auto. }
  intros Hi. apply (H 0 persons i Hi).
Qed.

Lemma actor_elements_are_numbered_sample :
  nth_error
    (staff_elements
       ("ACTORS", [ [("name", PStr "A"); ("role", PStr "x")];
                    [("name", PStr "B"); ("role", PStr "y")] ])) 1
  = Some (Element "actor" PNone
            [ leaf "name" (py_get "name" [("name", PStr "B"); ("role", PStr "y")]);
              leaf "role" (py_get "role" [("name", PStr "B"); ("role", PStr "y")]);
              leaf "order" (PStr (str_of_int (Z.of_nat 1))) ])
  /\ List.length
       (staff_elements
          ("ACTORS", [ [("name", PStr "A"); ("role", PStr "x")];
                       [("name", PStr "B"); ("role", PStr "y")] ]))
     = List.length [ [("name", PStr "A"); ("role", PStr "x")];
                     [("name", PStr "B"); ("role", PStr "y")] ].
Proof.
  apply (actor_elements_are_numbered
           [ [("name", PStr "A"); ("role", PStr "x")];
             [("name", PStr "B"); ("role", PStr "y")] ] 1).
  reflexivity.
Defined.

(** ** The folder pipeline: which files are taken up *)

Lemma str_in_In (s : string) (l : list string) :
  str_in s l = true <-> In s l.
Proof.
  unfold str_in. rewrite existsb_exists. split.
  - intros (x & Hx & Heq). apply String.eqb_eq in Heq. now subst.
  - intros H. exists s. split; [exact H | apply String.eqb_refl].
Qed.

Lemma not_eligible (files : list string) (file : string) :
  ~ In (snd (splitext file)) VIDEO_EXT \/
  In (fst (splitext file) +++ ".nfo") files ->
  eligible files file = false.
Proof.
  unfold eligible, is_nfo_file_exists.
  destruct (splitext file) as [raw_file_name ext]. cbn [fst snd].
  intros [Hext | Hnfo].
  - destruct (str_in ext VIDEO_EXT) eqn:E; [|reflexivity].
    apply str_in_In in E. contradiction.
  - apply str_in_In in Hnfo. rewrite Hnfo. apply andb_false_r.
Qed.

(** X14. A folder in which every file either has no video extension or has
    its sidecar [name.nfo] in the listing is left alone: [process_folder]
    returns the count 0 and an empty summary, writes nothing, and does so
    whatever the catalogue would answer. *)
Theorem folder_without_new_videos (env : environment) (root : string)
    (files : list string) (w : world) :
  (forall file, In file files ->
     ~ In (snd (splitext file)) VIDEO_EXT \/
     In (fst (splitext file) +++ ".nfo") files) ->
  process_folder env root files w = (Ok (0, ""), w).
Proof.
  intros H. unfold process_folder.
  assert (Hrest : forall rest n msg,
             (forall file, In file rest -> eligible files file = false) ->
             process_files env root files rest n msg w = (Ok (n, msg), w)).
  { induction rest as [|file rest IH]; intros n msg Hr; [reflexivity|].
    cbn [process_files]. rewrite (Hr file) by now left.
    apply IH. intros f Hf. apply Hr. now right. }
  apply Hrest. intros file Hin. now apply not_eligible, H.
Qed.

Lemma folder_without_new_videos_sample :
  process_folder Sample.env "/media"
    ["Inception.2010.mkv"; "Inception.2010.nfo"; "notes.txt"] []
  = (Ok (0, ""), []).
Proof.
  apply (folder_without_new_videos Sample.env "/media").
  intros file [<- | [<- | [<- | []]]].
  - right. simpl. tauto.
  - left. simpl. intros [H | [H | [H | [H | []]]]]; discriminate.
  - left. simpl. intros [H | [H | [H | [H | []]]]]; discriminate.
Defined.

Lemma process_files_count (env : environment) (root : string)
    (files rest : list string) :
  forall n0 msg0 w0 n message w',
    process_files env root files rest n0 msg0 w0 = (Ok (n, message), w') ->
    n = n0 + List.length (filter (eligible files) rest).
Proof.
  induction rest as [|file rest IH]; intros n0 msg0 w0 n message w' Hr.
  - cbn in Hr. injection Hr as <- _ _. cbn. lia.
  - cbn [process_files filter] in *.
    destruct (eligible files file).
    + unfold mbind in Hr.
      destruct (process_file env root (fst (splitext file)) msg0 w0)
        as [[msg1|e] w1]; [|discriminate].
      apply IH in Hr. cbn [List.length]. lia.
    + now apply IH in Hr.
Qed.

Lemma process_files_untouched (env : environment) (root : string)
    (files rest : list string) (w : world) :
  (forall file, In file rest -> eligible files file = false) ->
  forall n msg,
    process_files env root files rest n msg w = (Ok (n, msg), w).
Proof.
  induction rest as [|file rest IH]; intros Hr n msg; [reflexivity|].
  cbn [process_files]. rewrite (Hr file) by now left.
  apply IH. intros f Hf. apply Hr. now right.
Qed.

(** X15. When [process_folder] returns, its count is the number of files of
    the listing that have a video extension and no sidecar in the listing:
    each of them has been processed, none has been skipped. *)
Theorem folder_count_is_eligible_files (env : environment) (root : string)
    (files : list string) (w w' : world) (n : nat) (message : string) :
  process_folder env root files w = (Ok (n, message), w') ->
  n = List.length (filter (eligible files) files).
Proof.
  unfold process_folder.
  assert (H : forall rest n0 msg0 w0,
             process_files env root files rest n0 msg0 w0
             = (Ok (n, message), w') ->
             n = n0 + List.length (filter (eligible files) rest)).
  { induction rest as [|file rest IH]; intros n0 msg0 w0 Hr.
    - cbn in Hr. injection Hr as <- _ _. cbn. lia.
    - cbn [process_files filter] in *.
      destruct (eligible files file).
      + unfold mbind in Hr.
        destruct (process_file env root (fst (splitext file)) msg0 w0)
          as [[msg1|e] w1]; [|discriminate].
        apply IH in Hr. cbn [List.length]. lia.
      + now apply IH in Hr. }
  intros Hr. now apply H in Hr.
Qed.

Lemma folder_count_sample :
  1 = List.length
        (filter (eligible ["Inception.2010.mkv"; "notes.txt"])
           ["Inception.2010.mkv"; "notes.txt"]).
Proof.
  eapply (folder_count_is_eligible_files Sample.env "/media"
            ["Inception.2010.mkv"; "notes.txt"] []).
  reflexivity.
Defined.

(** ** The normalised document as a map *)

Lemma dict_get_In {V : Type} (k : string) (v : V) (d : list (string * V)) :
  dict_get k d = Some v -> In (k, v) d.
Proof.
  induction d as [|[k0 v0] d IH]; cbn [dict_get]; [discriminate|].
  destruct (String.eqb_spec k k0) as [-> | Hne].
  - intros H. injection H as ->. now left.
  - intros H. right. auto.
Qed.

Lemma dict_get_None {V : Type} (k : string) (d : list (string * V)) :
  dict_get k d = None -> ~ In k (map fst d).
Proof.
  induction d as [|[k0 v0] d IH]; cbn [dict_get map fst In]; [tauto|].
  destruct (String.eqb_spec k k0) as [-> | Hne]; [discriminate|].
  intros H [E | Hin]; [congruence | now apply IH].
Qed.

Lemma clean_step_field (d : dict) (doc1 urls1 doc2 urls2 : dict)
    (emp1 emp2 : list string) (key api : string) :
  dict_get key doc1 = None ->
  clean_step d (doc1, urls1, emp1) (key, api) = Ok (doc2, urls2, emp2) ->
  dict_get key doc2 = expected_field d key api.
Proof.
  intros Hnone H. unfold clean_step in H. unfold expected_field.
  destruct (py_truthy (py_get api d)); cbn [negb].
  - destruct (String.eqb key "runtime") eqn:Hrt.
    + apply String.eqb_eq in Hrt. subst key. cbn [str_in existsb String.eqb
        Ascii.eqb Bool.eqb orb].
      destruct (py_int (py_get api d)) as [n|e].
      * injection H as <- <- <-. rewrite dict_get_set. reflexivity.
      * destruct (exn_cls e); try discriminate;
          injection H as <- <- <-; rewrite dict_get_set; reflexivity.
    + destruct (str_in key ["poster"; "fanart"]).
      * now injection H as <- <- <-.
      * injection H as <- <- <-. rewrite dict_get_set.
        now rewrite String.eqb_refl.
  - injection H as <- <- <-.
    now destruct (str_in key ["poster"; "fanart"]).
Qed.

(** X16. The normalised document, read as a map: a key outside the field
    table is absent; [poster] and [fanart] are absent; a key whose source
    value is falsy is absent; [runtime] holds [int(value) * 60], or [None]
    when [int] rejects the value; every other key holds its source value
    unchanged. *)
Theorem normalised_document_lookup (d doc urls : dict)
    (empty_fields_str key : string) :
  get_clean_film_info (PDict d) = Ok (doc, urls, empty_fields_str) ->
  dict_get key doc =
  match dict_get key FILM_INFO_STRUCTURE with
  | Some api => expected_field d key api
  | None => None
  end.
Proof.
  intros H.
  destruct (get_clean_film_info_fields d doc urls _ H) as (fields & Hf & _).
  destruct (dict_get key FILM_INFO_STRUCTURE) as [api|] eqn:E.
  - apply dict_get_In in E.
    destruct (clean_fields_around d key api doc urls fields E Hf)
      as (doc1 & urls1 & emp1 & doc2 & urls2 & emp2 & G1 & _ & G3 & G4 & _).
    rewrite G4. now apply (clean_step_field d doc1 urls1 doc2 urls2 emp1 emp2).
  - apply dict_get_None in E.
    unfold clean_film_fields in Hf.
    now destruct (clean_fold_other d FILM_INFO_STRUCTURE key E _ _ _ _ _ _ Hf).
Qed.

Lemma normalised_document_lookup_sample :
  dict_get "mpaa" [ ("title", PStr "A"); ("mpaa", PStr "r");
                    ("certification", PStr "r") ]
  = match dict_get "mpaa" FILM_INFO_STRUCTURE with
    | Some api =>
        expected_field [("nameRu", PStr "A"); ("ratingMpaa", PStr "r")]
          "mpaa" api
    | None => None
    end.
Proof.
  eapply (normalised_document_lookup
            [("nameRu", PStr "A"); ("ratingMpaa", PStr "r")]).
  reflexivity.
Defined.

Lemma clean_fold_reported (d : dict) (table : list (string * string)) :
  forall doc urls emp doc' urls' emp',
    rfold (clean_step d) table (doc, urls, emp) = Ok (doc', urls', emp') ->
    emp' = emp ++ map fst (filter (reported_empty d) table).
Proof.
  induction table as [|[key api] table IH];
    intros doc urls emp doc' urls' emp' H.
  - injection H as <- <- <-. cbn. now rewrite app_nil_r.
  - cbn [rfold] in H.
    destruct (clean_step d (doc, urls, emp) (key, api))
      as [[[doc1 urls1] emp1]|e] eqn:E; [|discriminate].
    cbn [rbind] in H. rewrite (IH _ _ _ _ _ _ H).
    cbn [filter]. unfold reported_empty at 2. cbn [fst snd].
    unfold clean_step in E.
    destruct (py_truthy (py_get api d)); cbn [negb orb].
    + destruct (String.eqb key "runtime"); cbn [andb].
      * destruct (py_int (py_get api d)) as [n|x].
        -- now injection E as <- <- <-.
        -- destruct (exn_cls x); try discriminate;
             injection E as <- <- <-; cbn [map fst];
             now rewrite <- app_assoc.
      * destruct (str_in key ["poster"; "fanart"]);
          now injection E as <- <- <-.
    + injection E as <- <- <-. cbn [map fst]. now rewrite <- app_assoc.
Qed.

(** X17. [empty_fields] lists, in the order of the field table and joined
    by a comma and a space, exactly the keys whose source value is falsy or
    absent, and [runtime] when its value is truthy but [int] rejects it. *)
Theorem empty_fields_are_the_falsy_sources (d doc urls : dict)
    (empty_fields_str : string) :
  get_clean_film_info (PDict d) = Ok (doc, urls, empty_fields_str) ->
  empty_fields_str =
  py_join ", " (map fst (filter (reported_empty d) FILM_INFO_STRUCTURE)).
Proof.
  intros H.
  destruct (get_clean_film_info_fields d doc urls _ H) as (fields & Hf & ->).
  unfold clean_film_fields, initial_clean_state in Hf.
  now rewrite (clean_fold_reported d _ _ _ _ _ _ _ Hf).
Qed.

Lemma empty_fields_sample :
  "originaltitle, year, plot, runtime, rating, votes, mpaa, certification, genres, countries, kinopoisk_id, poster, fanart"
  = py_join ", "
      (map fst
         (filter (reported_empty [("nameRu", PStr "A"); ("filmLength", PStr "abc")])
            FILM_INFO_STRUCTURE)).
Proof.
  eapply (empty_fields_are_the_falsy_sources
            [("nameRu", PStr "A"); ("filmLength", PStr "abc")]).
  reflexivity.
Defined.

(** X18. The image map that normalisation returns: [poster] holds the
    poster URL when it is truthy and [None] otherwise, [cover] always holds
    [None], and [fanart] is present, holding the cover URL, exactly when
    that URL is truthy. *)
Theorem image_map_shape (d doc urls : dict) (empty_fields_str : string) :
  get_clean_film_info (PDict d) = Ok (doc, urls, empty_fields_str) ->
  urls =
  [ ("poster", if py_truthy (py_get "posterUrl" d)
               then py_get "posterUrl" d else PNone);
    ("cover", PNone) ]
  ++ (if py_truthy (py_get "coverUrl" d)
      then [("fanart", py_get "coverUrl" d)] else []).
Proof.
  intros H.
  destruct (get_clean_film_info_fields d doc urls _ H) as (fields & Hf & _).
  unfold clean_film_fields in Hf.
  change FILM_INFO_STRUCTURE with
    (firstn 12 FILM_INFO_STRUCTURE
     ++ [("poster", "posterUrl"); ("fanart", "coverUrl")]) in Hf.
  rewrite rfold_app in Hf.
  destruct (rfold (clean_step d) (firstn 12 FILM_INFO_STRUCTURE)
              initial_clean_state) as [[[doc1 urls1] emp1]|e] eqn:E;
    [|discriminate].
  apply clean_fold_urls in E; [|repeat constructor]. subst urls1.
  cbn [rbind rfold] in Hf. unfold clean_step in Hf.
  destruct (py_truthy (py_get "posterUrl" d)),
    (py_truthy (py_get "coverUrl" d)); cbn in Hf;
    now injection Hf as <- <- <-.
Qed.

Lemma image_map_shape_sample :
  [("poster", PNone); ("cover", PNone); ("fanart", PStr "http://img/c.jpg")]
  = [ ("poster", if py_truthy (py_get "posterUrl" [("coverUrl", PStr "http://img/c.jpg")])
                 then py_get "posterUrl" [("coverUrl", PStr "http://img/c.jpg")]
                 else PNone);
      ("cover", PNone) ]
    ++ (if py_truthy (py_get "coverUrl" [("coverUrl", PStr "http://img/c.jpg")])
        then [("fanart", py_get "coverUrl" [("coverUrl", PStr "http://img/c.jpg")])]
        else []).
Proof.
  eapply (image_map_shape [("coverUrl", PStr "http://img/c.jpg")]).
  reflexivity.
Defined.

(** ** The one error of normalisation *)

Lemma runtime_step_total (d : dict) :
  (forall b, py_get "filmLength" d <> PFloat (FInf b)) ->
  forall st, exists st',
    clean_step d st ("runtime", "filmLength") = Ok st'.
Proof.
  intros Hfin [[doc urls] emp]. unfold clean_step.
  destruct (py_truthy (py_get "filmLength" d)); [|eauto].
  cbn [String.eqb Ascii.eqb Bool.eqb].
  destruct (py_get "filmLength" d) as [| b | n | x | s | l | d0]; cbn [py_int];
    unfold raise; cbn [exn_cls]; eauto.
  - destruct x as [| neg | n den]; cbn [exn_cls]; eauto.
    exfalso. now apply (Hfin neg).
  - destruct (int_of_str s); cbn [exn_cls]; eauto.
Qed.

(** X19. Normalisation of an object raises in one case only: a run time
    that is an infinite float, on which [int] raises [OverflowError], an
    exception the code does not catch.  Every other record is normalised. *)
Theorem normalisation_raises_only_on_infinite_runtime (d : dict) :
  (forall e, get_clean_film_info (PDict d) = Raise e ->
             e = Exn OverflowError "cannot convert float infinity to integer"
             /\ exists b, py_get "filmLength" d = PFloat (FInf b))
  /\
  (forall b, py_get "filmLength" d = PFloat (FInf b) ->
             get_clean_film_info (PDict d)
             = Raise (Exn OverflowError
                        "cannot convert float infinity to integer")).
Proof.
  assert (Hinf : forall b, py_get "filmLength" d = PFloat (FInf b) ->
                 get_clean_film_info (PDict d)
                 = Raise (Exn OverflowError
                            "cannot convert float infinity to integer")).
  { intros b Hb. unfold get_clean_film_info.
    cbn [validate_types is_none py_isinstance type_of orb negb rbind].
    unfold clean_film_fields.
    change FILM_INFO_STRUCTURE with
      (firstn 4 FILM_INFO_STRUCTURE
       ++ ("runtime", "filmLength") :: skipn 5 FILM_INFO_STRUCTURE).
    rewrite rfold_app.
    destruct (clean_fold_total d (firstn 4 FILM_INFO_STRUCTURE))
      with (st := initial_clean_state) as [[[doc1 urls1] emp1] ->];
      [simpl; intuition discriminate|].
    cbn [rbind rfold]. unfold clean_step. rewrite Hb. reflexivity. }
  split; [|exact Hinf].
  intros e He.
  assert (Hcontra : (forall b, py_get "filmLength" d <> PFloat (FInf b)) ->
                    False).
  { intros Hfin.
    destruct (clean_film_fields_total d (runtime_step_total d Hfin))
      as (doc & urls & fields & Hf).
    unfold get_clean_film_info in He.
    cbn [validate_types is_none py_isinstance type_of orb negb rbind] in He.
    rewrite Hf in He. discriminate. }
  assert (Hex : exists b, py_get "filmLength" d = PFloat (FInf b)).
  { destruct (py_get "filmLength" d) as [| b | n | x | s | l | d0] eqn:Hv;
      try (exfalso; apply Hcontra; intros; discriminate).
    destruct x as [| neg | n den];
      try (exfalso; apply Hcontra; intros; discriminate).
    eauto. }
  split; [|exact Hex]. destruct Hex as [b Hb].
  rewrite (Hinf b Hb) in He. now injection He as <-.
Qed.

(** ** The two validators *)

Lemma validate_types_accepts (kwargs : list (string * (pyval * pytype))) :
  validate_types kwargs = Ok tt <-> forallb well_typed kwargs = true.
Proof.
  induction kwargs as [|[name [value expected]] kwargs IH];
    cbn [validate_types forallb]; [tauto|].
  unfold well_typed at 1. cbn [fst snd].
  destruct (is_none value), (py_isinstance value expected);
    cbn [negb orb andb]; try exact IH; split; discriminate.
Qed.

(** X20. [validate_types] of [validators.py] accepts exactly the keyword
    lists in which no value is [None] and every value is an instance of its
    expected type, a [bool] counting as an [int]; otherwise it raises
    [TypeError].  The [validate_types] of [validation.py] accepts the same
    lists, but on the others it raises [AttributeError], because its message
    asks the value for [__name__]. *)
Theorem validators_agree_on_acceptance
    (kwargs : list (string * (pyval * pytype))) :
  (validate_types kwargs = Ok tt <-> forallb well_typed kwargs = true) /\
  (Validation.validate_types kwargs = Ok tt
   <-> forallb well_typed kwargs = true) /\
  (forallb well_typed kwargs = false ->
   (exists msg, validate_types kwargs = Raise (Exn TypeError msg)) /\
   (exists msg, Validation.validate_types kwargs
                = Raise (Exn AttributeError msg))).
Proof.
  split; [apply validate_types_accepts|].
  induction kwargs as [|[name [value expected]] kwargs [IH1 IH2]].
  - split; [cbn; tauto | discriminate].
  - cbn [validate_types Validation.validate_types forallb].
    unfold well_typed at 1 3. cbn [fst snd].
    destruct (is_none value), (py_isinstance value expected);
      cbn [negb orb andb]; unfold raise;
      try (split; [split; discriminate | eauto]).
    split; [exact IH1 | exact IH2].
Qed.

Example validators_on_bool_as_int :
  validate_types [("n", (PBool true, TInt)); ("s", (PStr "", TStr))] = Ok tt.
Proof. reflexivity. Qed.

Example validators_on_none :
  (validate_types [("raw_film_info", (PNone, TDict))],
   Validation.validate_types [("raw_film_info", (PNone, TDict))])
  = (Raise (Exn TypeError "Для raw_film_info ожидался dict, Получен NoneType"),
     Raise (Exn AttributeError
              "'NoneType' object has no attribute '__name__'")).
Proof. reflexivity. Qed.

(** ** Configuration *)

Lemma settings_are_never_missing (env : environment) (h : host) :
  flat_map missing_in (variables env h)
  = blank_variables env h.
Proof.
  unfold variables, blank_variables, env_variables. cbn [flat_map].
  match goal with
  | |- _ ++ ?m ++ [] = _ =>
      assert (Hs : m = []) by (vm_compute; reflexivity); rewrite Hs
  end.
  rewrite !app_nil_r. reflexivity.
Qed.

Lemma check_vars_blank (env : environment) (h : host) :
  blank_variables env h <> [] ->
  check_vars env h
  = Raise (Exn MissingVariableError
             (missing_variables_message (blank_variables env h))).
Proof.
  intros Hne. unfold check_vars. rewrite settings_are_never_missing.
  destruct (blank_variables env h); [contradiction | reflexivity].
Qed.

(** X21. [check_vars] passes exactly when none of the four variables of the
    environment is [None] or a string of whitespace only; the constants of
    [settings.py] never count as missing.  Otherwise it raises
    [MissingVariableError] with a message that names the blank variables in
    the order MEDIA_ROOT_PATH, TELEGRAM_BOT_TOKEN, TELEGRAM_CHAT_ID,
    X_API_KEY. *)
Theorem check_vars_names_the_blank_variables (env : environment) (h : host) :
  (check_vars env h = Ok tt <->
   forall var, In var (env_variables env h) -> is_blank (snd var) = false)
  /\
  (blank_variables env h <> [] ->
   check_vars env h
   = Raise (Exn MissingVariableError
              (missing_variables_message (blank_variables env h)))).
Proof.
  split; [|apply check_vars_blank].
  unfold check_vars. rewrite settings_are_never_missing.
  unfold blank_variables. split.
  - intros H var Hin.
    destruct (is_blank (snd var)) eqn:Hb; [|reflexivity].
    assert (Hf : In var (filter (fun v => is_blank (snd v))
                           (env_variables env h)))
      by (apply filter_In; auto).
    destruct (filter _ (env_variables env h)); [contradiction|].
    discriminate.
  - intros H.
    destruct (filter (fun v => is_blank (snd v)) (env_variables env h))
      as [|var rest] eqn:E; [reflexivity|].
    assert (Hin : In var (filter (fun v => is_blank (snd v))
                            (env_variables env h)))
      by (rewrite E; now left).
    apply filter_In in Hin as [Hin Hb]. rewrite (H var Hin) in Hb.
    discriminate.
Qed.

Lemma py_strip_blank (s : string) :
  py_strip s = "" <-> str_all char_isspace s = true.
Proof.
  unfold py_strip.
  destruct (py_lstrip_split s) as (p & E & Hp & Hs).
  destruct (py_rstrip_split (py_lstrip s)) as (q & E' & Hq & _).
  split.
  - intros H. rewrite H in E'. cbn [String.append] in E'.
    rewrite E, E', str_all_app, Hp, Hq. reflexivity.
  - intros H. rewrite E, str_all_app in H. apply andb_prop in H as [_ H].
    destruct (py_lstrip s) as [|c t]; [reflexivity|].
    cbn [str_all starts_with_space] in *.
    apply andb_prop in H as [H _]. congruence.
Qed.

Example check_vars_sample_blank_token :
  check_vars Sample.env
    (Host (Some "/media") (Some "  ") None "TV"
       (fun _ => Delivered) (Dir [] []))
  = Raise (Exn MissingVariableError
             ("В переменных окружения не определены: "
              +++ ".env: TELEGRAM_BOT_TOKEN, .env: TELEGRAM_CHAT_ID")).
Proof. reflexivity. Qed.

(** ** One pass of [main] *)

Lemma mbind_ext {A B : Type} (m : M A) (k1 k2 : A -> M B) (w : world) :
  (forall a w', k1 a w' = k2 a w') -> mbind m k1 w = mbind m k2 w.
Proof.
  intros H. unfold mbind. destruct (m w) as [[a|e] w']; [apply H | reflexivity].
Qed.

(** X22. The pass never enters the TV-shows folder: what lies under the
    first subdirectory of that name, files and whole subtrees, has no
    influence on what the pass writes, counts and reports. *)
Theorem tv_shows_folder_is_not_entered (env : environment) (h : host)
    (root : string) (files : list string)
    (before after : list (string * dirtree)) (shows other : dirtree)
    (new_files : nat) (bot_message : string) (w : world) :
  ~ In (TV_SHOWS_FOLDER h) (map fst before) ->
  walk env h root
    (Dir files (before ++ (TV_SHOWS_FOLDER h, shows) :: after))
    new_files bot_message w
  = walk env h root
      (Dir files (before ++ (TV_SHOWS_FOLDER h, other) :: after))
      new_files bot_message w.
Proof.
  intros Hbefore. cbn [walk]. apply mbind_ext. intros processed w'.
  generalize (new_files + fst processed).
  generalize (if String.eqb (snd processed) EmptyString then bot_message
              else bot_message +++ "**** " +++ snd processed +++ nl +++ nl).
  revert w'.
  induction before as [|[name sub] before IH]; intros w' m n.
  - cbn [app walk_dirs negb andb]. now rewrite String.eqb_refl.
  - cbn [app walk_dirs negb andb]. cbn [map fst In] in Hbefore.
    destruct (String.eqb_spec name (TV_SHOWS_FOLDER h)) as [-> | Hne];
      [tauto|].
    apply mbind_ext. intros totals w''. apply IH. tauto.
Qed.

Lemma tv_shows_sample :
  walk Sample.env
    (Host (Some "/media") (Some "t") (Some "c") "TV" (fun _ => Delivered)
       (Dir [] []))
    "/media"
    (Dir [] ([("Films", Dir ["notes.txt"] [])]
             ++ ("TV", Dir ["Show.2010.mkv"] []) :: []))
    0 "" []
  = walk Sample.env
      (Host (Some "/media") (Some "t") (Some "c") "TV" (fun _ => Delivered)
         (Dir [] []))
      "/media"
      (Dir [] ([("Films", Dir ["notes.txt"] [])]
               ++ ("TV", Dir [] []) :: []))
      0 "" [].
Proof.
  apply (tv_shows_folder_is_not_entered Sample.env
           (Host (Some "/media") (Some "t") (Some "c") "TV"
              (fun _ => Delivered) (Dir [] []))).
  simpl. intros [H | []]. discriminate.
Defined.



Lemma walk_settled (env : environment) (h : host) :
  forall (t : dirtree) (root : string) (n : nat) (msg : string) (w : world),
    settled t -> walk env h root t n msg w = (Ok (n, msg), w).
Proof.
  fix IH 1. intros [files dirs] root n msg w [Hfiles Hdirs].
  cbn [walk].
  assert (Hp : process_folder env root files w = (Ok (0, ""), w)).
  { unfold process_folder. apply process_files_untouched.
    intros file Hin. now apply not_eligible, Hfiles. }
  rewrite (mbind_ok _ _ _ _ _ Hp). cbn [fst snd String.eqb].
  rewrite Nat.add_0_r.
  generalize false. revert Hdirs.
  induction dirs as [|[name sub] dirs IHd]; intros Hdirs removed.
  - reflexivity.
  - cbn [walk_dirs]. destruct Hdirs as [Hsub Hrest].
    destruct (negb removed && String.eqb name (TV_SHOWS_FOLDER h)).
    + now apply IHd.
    + rewrite (mbind_ok _ _ _ _ _ (IH sub (path_join root name) n msg w Hsub)).
      cbn [fst snd]. now apply IHd.
Qed.

(** X24. A library in which every video has its sidecar: with the variables
    in place the pass writes nothing, hands nothing to the bot and prints
    that there are no new files, whatever the catalogue would answer. *)
Theorem settled_library_is_left_alone (env : environment) (h : host)
    (top latest_error_msg : string) (w : world) :
  blank_variables env h = [] ->
  MEDIA_ROOT_PATH h = Some top ->
  settled (media_tree h) ->
  main_iteration env h latest_error_msg w
  = ((latest_error_msg, [], ["Новых файлов нет"]), w).
Proof.
  intros Hvars Htop Hsettled. unfold main_iteration, scan.
  assert (Hcheck : check_vars env h = Ok tt).
  { unfold check_vars. rewrite settings_are_never_missing, Hvars.
    reflexivity. }
  rewrite (mbind_ok _ _ w w tt (f_equal (fun r => (r, w)) Hcheck)).
  rewrite Htop, (walk_settled env h _ top 0 "" w Hsettled).
  reflexivity.
Qed.

Lemma settled_library_sample :
  main_iteration Sample.env
    (Host (Some "/media") (Some "token") (Some "chat") "TV"
       (fun _ => Delivered)
       (Dir ["Inception.2010.mkv"; "Inception.2010.nfo"]
          [("Old", Dir ["readme.txt"] [])])) "" []
  = (("", [], ["Новых файлов нет"]), []).
Proof.
  apply (settled_library_is_left_alone Sample.env _ "/media").
  - reflexivity.
  - reflexivity.
  - cbn [settled all_dirs media_tree]. repeat split.
    + intros file [<- | [<- | []]].
      * right. simpl. tauto.
      * left. simpl. intros [H | [H | [H | [H | []]]]]; discriminate.
    + intros file [<- | []].
      left. simpl. intros [H | [H | [H | [H | []]]]]; discriminate.
Defined.

Lemma walk_count (env : environment) (h : host) :
  forall (t : dirtree) (root : string) (n0 : nat) (msg0 : string)
         (w : world) (n : nat) (msg : string) (w' : world),
    walk env h root t n0 msg0 w = (Ok (n, msg), w') ->
    n = n0 + new_videos (TV_SHOWS_FOLDER h) t.
Proof.
  fix IH 1. intros [files dirs] root n0 msg0 w n msg w' H.
  cbn [walk new_videos] in *. unfold mbind in H at 1.
  destruct (process_folder env root files w) as [[[k m]|e] w1] eqn:Hp;
    [|discriminate].
  apply process_files_count in Hp. cbn [fst snd Nat.add] in *. subst k.
  rewrite Nat.add_assoc.
  revert H.
  generalize (n0 + List.length (filter (eligible files) files)).
  generalize (if String.eqb m EmptyString then msg0
              else msg0 +++ "**** " +++ m +++ nl +++ nl).
  generalize false. revert w1.
  induction dirs as [|[name sub] dirs IHd]; intros w1 removed m1 n1 H.
  - cbn in H. injection H as <- _ _. cbn [sum_dirs]. lia.
  - cbn [walk_dirs sum_dirs] in *.
    destruct (negb removed && String.eqb name (TV_SHOWS_FOLDER h)).
    + now apply IHd in H.
    + unfold mbind in H at 1.
      destruct (walk env h (path_join root name) sub n1 m1 w1)
        as [[[n2 m2]|e] w2] eqn:Hs; [|discriminate].
      apply IH in Hs. cbn [fst snd] in H. apply IHd in H. lia.
Qed.

(** X25. When the scan of a pass goes through, the number of new films it
    arrives at, which is the number put into the message for the bot, is
    the number of video files without a sidecar in the directories of the
    library, TV-shows folders left out. *)
Theorem scan_counts_the_new_videos (env : environment) (h : host)
    (w w' : world) (new_files : nat) (bot_message : string) :
  scan env h w = (Ok (new_files, bot_message), w') ->
  new_files = new_videos (TV_SHOWS_FOLDER h) (media_tree h).
Proof.
  unfold scan, mbind, lift.
  destruct (check_vars env h); [|discriminate].
  destruct (MEDIA_ROOT_PATH h) as [top|]; [|discriminate].
  intros H. now apply walk_count in H.
Qed.

Lemma scan_counts_sample :
  1 = new_videos "TV"
        (Dir ["Inception.2010.mkv"]
           [("TV", Dir ["Show.2011.mkv"] []); ("Old", Dir ["readme.txt"] [])]).
Proof.
  eapply (scan_counts_the_new_videos Sample.env
            (Host (Some "/media") (Some "token") (Some "chat") "TV"
               (fun _ => Delivered)
               (Dir ["Inception.2010.mkv"]
                  [("TV", Dir ["Show.2011.mkv"] []);
                   ("Old", Dir ["readme.txt"] [])])) []).
  reflexivity.
Defined.

Lemma infinite_runtime_sample :
  get_clean_film_info (PDict [("filmLength", PFloat (FInf false))])
  = Raise (Exn OverflowError "cannot convert float infinity to integer").
Proof.
  apply (proj2 (normalisation_raises_only_on_infinite_runtime
                  [("filmLength", PFloat (FInf false))]) false).
  reflexivity.
Defined.

Lemma validators_on_none_sample :
  (exists msg, validate_types [("raw_film_info", (PNone, TDict))]
               = Raise (Exn TypeError msg)) /\
  (exists msg, Validation.validate_types [("raw_film_info", (PNone, TDict))]
               = Raise (Exn AttributeError msg)).
Proof.
  apply (proj2 (proj2 (validators_agree_on_acceptance
                         [("raw_film_info", (PNone, TDict))]))).
  reflexivity.
Defined.

Lemma check_vars_blank_token_sample :
  check_vars Sample.env
    (Host (Some "/media") (Some "  ") None "TV"
       (fun _ => Delivered) (Dir [] []))
  = Raise (Exn MissingVariableError
             (missing_variables_message
                [".env: TELEGRAM_BOT_TOKEN"; ".env: TELEGRAM_CHAT_ID"])).
Proof.
  apply (proj2 (check_vars_names_the_blank_variables Sample.env
                  (Host (Some "/media") (Some "  ") None "TV"
                     (fun _ => Delivered) (Dir [] [])))).
  discriminate.
Defined.

(* ===================================================================== *)
(** * Key extraction on the whole of [str] *)
(* ===================================================================== *)

Example key_of_a_cyrillic_name :
  Uni.get_film_name_year
    (Uni.text "Страх.и.ненависть.в.Лас-Вегасе.(1998).BDRip")
  = Uni.Returns (Uni.text "Страх и ненависть в Лас-Вегасе", Uni.text "1998").
Proof. vm_compute. reflexivity. Qed.

Example key_of_a_name_without_year :
  Uni.get_film_name_year (Uni.text "Россия")
  = Uni.Raises NoYearError
      (Uni.text "У файла Россия год выпуска не найден."
       ++ [10%N] ++ Uni.text "Проверьте имя файла.").
Proof. vm_compute. reflexivity. Qed.

Example key_of_a_name_with_wide_spaces :
  Uni.get_film_name_year
    ([12288%N] ++ Uni.text "Большой" ++ [160%N; 8195%N] ++ Uni.text "фильм"
     ++ [8239%N] ++ Uni.text "2020")
  = Uni.Returns (Uni.text "Большой фильм", Uni.text "2020").
Proof. vm_compute. reflexivity. Qed.

(** The two character classes: 680 decimal digits, 29 whitespace
    characters. *)
Example size_of_the_character_classes :
  fold_right (fun r n => N.to_nat (snd r - fst r + 1) + n) 0
    Uni.DECIMAL_DIGITS = 680 /\
  fold_right (fun r n => N.to_nat (snd r - fst r + 1) + n) 0
    Uni.WHITESPACE = 29.
Proof. split; vm_compute; reflexivity. Qed.

Example classes_of_some_characters :
  map Uni.is_decimal (Uni.text "7２٣²Ⅷ") = [true; true; true; false; false]
  /\ map Uni.is_space [9; 31; 32; 133; 160; 8203; 8239; 12288; 65279]%N
     = [true; true; true; true; true; false; true; true; false].
Proof. split; vm_compute; reflexivity. Qed.

(** ** The regular expressions, unfolded *)

Lemma uni_search_unfold (r : Uni.Re.regex) (s : Uni.str) :
  Uni.Re.search r s =
  match Uni.Re.match_here r s with
  | Some g => Some (Uni.Re.Match 0 g)
  | None =>
      match s with
      | [] => None
      | _ :: s' =>
          match Uni.Re.search r s' with
          | Some m =>
              Some (Uni.Re.Match (S (Uni.Re.m_start m)) (Uni.Re.m_group m))
          | None => None
          end
      end
  end.
Proof. destruct s; reflexivity. Qed.

(** [YEAR_STAMP] matches at the start of a text exactly when the text
    starts with 19xx or 20xx, the x being decimal digits of any script, and
    then it matches those four characters. *)
Lemma uni_match_here_YEAR_STAMP (s : Uni.str) :
  Uni.Re.match_here Uni.YEAR_STAMP s =
  if Uni.year_here Uni.is_decimal s then Some (firstn 4 s) else None.
Proof.
  assert (Hlen : forall n, S (S (S (S n))) - n = 4) by (intros; lia).
  unfold Uni.Re.match_here, Uni.YEAR_STAMP.
  change (Uni.ord "1") with 49%N. change (Uni.ord "9") with 57%N.
  change (Uni.ord "2") with 50%N. change (Uni.ord "0") with 48%N.
  destruct s as [|a [|b [|c [|d s]]]];
    cbn [Uni.Re.rmatch Uni.Re.one flat_map app Uni.year_here List.length];
    rewrite ?(N.eqb_sym a), ?(N.eqb_sym b);
    try reflexivity;
    destruct (N.eqb 49 a), (N.eqb 50 a);
    cbn [Uni.Re.rmatch Uni.Re.one flat_map app andb orb]; try reflexivity;
    try (destruct (N.eqb 57 b));
    try (destruct (N.eqb 48 b));
    cbn [Uni.Re.rmatch Uni.Re.one flat_map app andb orb]; try reflexivity;
    try (destruct (Uni.is_decimal c));
    cbn [Uni.Re.rmatch Uni.Re.one flat_map app andb orb]; try reflexivity;
    try (destruct (Uni.is_decimal d));
    cbn [Uni.Re.rmatch Uni.Re.one flat_map app andb orb]; try reflexivity;
    rewrite ?Hlen; reflexivity.
Qed.

Lemma uni_search_YEAR_STAMP (s : Uni.str) :
  Uni.Re.search Uni.YEAR_STAMP s =
  match Uni.first_year Uni.is_decimal s with
  | Some i => Some (Uni.Re.Match i (firstn 4 (skipn i s)))
  | None => None
  end.
Proof.
  induction s as [|c s IH].
  - reflexivity.
  - rewrite uni_search_unfold, uni_match_here_YEAR_STAMP.
    change (Uni.first_year Uni.is_decimal (c :: s))
      with (if Uni.year_here Uni.is_decimal (c :: s) then Some 0
            else option_map S (Uni.first_year Uni.is_decimal s)).
    destruct (Uni.year_here Uni.is_decimal (c :: s)); [reflexivity|].
    rewrite IH. destruct (Uni.first_year Uni.is_decimal s); reflexivity.
Qed.

(** [re.sub(SPLITTERS, ' ', s)] replaces each separator by a space. *)
Lemma uni_sub_SPLITTERS (s : Uni.str) :
  Uni.Re.sub Uni.SPLITTERS [Uni.ord " "] s = Uni.separators_to_spaces s.
Proof.
  unfold Uni.Re.sub, Uni.separators_to_spaces.
  change (Uni.ord " ") with 32%N.
  induction s as [|c s IH]; [reflexivity|].
  assert (Hsep : existsb (N.eqb c)
                   [Uni.ord "_"; Uni.ord "."; Uni.ord "("; Uni.ord ")"]
                 = Uni.is_separator c).
  { unfold Uni.is_separator; cbn [existsb].
    now rewrite orb_false_r, !orb_assoc. }
  cbn [Uni.Re.sub_from map]. unfold Uni.Re.match_here.
  cbn [Uni.SPLITTERS Uni.Re.rmatch Uni.Re.one]. rewrite Hsep.
  destruct (Uni.is_separator c).
  - assert (Hl : List.length (c :: s) - List.length s = 1)
      by (cbn [List.length]; lia).
    rewrite Hl. cbn [firstn List.length Nat.sub app].
    now rewrite IH.
  - now rewrite IH.
Qed.

Lemma uni_lstrip_length (s : Uni.str) :
  List.length (Uni.lstrip s) <= List.length s.
Proof.
  induction s as [|c s IH]; cbn [Uni.lstrip List.length]; [lia|].
  destruct (Uni.is_space c); cbn [List.length]; lia.
Qed.

Lemma uni_rmatch_plus_space_cons (c : N) (s : Uni.str) :
  Uni.Re.rmatch (Uni.Re.Plus Uni.Re.Space) (c :: s) =
  if Uni.is_space c
  then Uni.Re.rmatch (Uni.Re.Plus Uni.Re.Space) s ++ [s] else [].
Proof.
  cbn [Uni.Re.rmatch Uni.Re.one List.length].
  destruct (Uni.is_space c); cbn [flat_map app]; [|reflexivity].
  now rewrite app_nil_r.
Qed.

Lemma uni_rmatch_plus_space_head (s : Uni.str) :
  hd_error (Uni.Re.rmatch (Uni.Re.Plus Uni.Re.Space) s ++ [s])
  = Some (Uni.lstrip s).
Proof.
  induction s as [|c s IH]; [reflexivity|].
  rewrite uni_rmatch_plus_space_cons. cbn [Uni.lstrip].
  destruct (Uni.is_space c); [|reflexivity].
  rewrite <- IH.
  now destruct (Uni.Re.rmatch (Uni.Re.Plus Uni.Re.Space) s).
Qed.

(** [\s+] matches at the start of a text exactly when it starts with a
    whitespace character, and then through the whole run. *)
Lemma uni_match_here_plus_space (c : N) (s : Uni.str) :
  Uni.Re.match_here (Uni.Re.Plus Uni.Re.Space) (c :: s) =
  if Uni.is_space c
  then Some (firstn (S (List.length s - List.length (Uni.lstrip s)))
               (c :: s))
  else None.
Proof.
  unfold Uni.Re.match_here. rewrite uni_rmatch_plus_space_cons.
  destruct (Uni.is_space c); [|reflexivity].
  pose proof (uni_rmatch_plus_space_head s) as H.
  pose proof (uni_lstrip_length s) as Hl.
  destruct (Uni.Re.rmatch (Uni.Re.Plus Uni.Re.Space) s ++ [s]) as [|rest l]
    eqn:E in H |- *; [discriminate|].
  cbn [hd_error] in H. injection H as ->.
  replace (List.length (c :: s) - List.length (Uni.lstrip s))
    with (S (List.length s - List.length (Uni.lstrip s)))
    by (cbn [List.length]; lia).
  reflexivity.
Qed.

Lemma uni_sub_plus_space_collapse (s : Uni.str) :
  Uni.Re.sub_from (Uni.Re.Plus Uni.Re.Space) [32%N] 0 s
  = Uni.collapse_from false s /\
  Uni.Re.sub_from (Uni.Re.Plus Uni.Re.Space) [32%N]
    (List.length s - List.length (Uni.lstrip s)) s
  = Uni.collapse_from true s.
Proof.
  induction s as [|c s [IH0 IH1]]; [split; reflexivity|].
  assert (H0 : Uni.Re.sub_from (Uni.Re.Plus Uni.Re.Space) [32%N] 0 (c :: s)
               = Uni.collapse_from false (c :: s)).
  { cbn [Uni.Re.sub_from Uni.collapse_from].
    rewrite uni_match_here_plus_space.
    destruct (Uni.is_space c).
    - rewrite length_firstn.
      pose proof (uni_lstrip_length s).
      replace (Nat.min (S (List.length s - List.length (Uni.lstrip s)))
                 (List.length (c :: s)) - 1)
        with (List.length s - List.length (Uni.lstrip s))
        by (cbn [List.length]; lia).
      rewrite IH1. reflexivity.
    - now rewrite IH0. }
  split; [exact H0|].
  cbn [Uni.lstrip Uni.collapse_from].
  destruct (Uni.is_space c) eqn:Hc.
  - pose proof (uni_lstrip_length s).
    replace (List.length (c :: s) - List.length (Uni.lstrip s))
      with (S (List.length s - List.length (Uni.lstrip s)))
      by (cbn [List.length]; lia).
    cbn [Uni.Re.sub_from]. exact IH1.
  - rewrite Nat.sub_diag, H0. cbn [Uni.collapse_from]. now rewrite Hc.
Qed.

(** [re.sub(r'\s+', ' ', s)] collapses each run of whitespace. *)
Lemma uni_sub_plus_space (s : Uni.str) :
  Uni.Re.sub (Uni.Re.Plus Uni.Re.Space) [Uni.ord " "] s
  = Uni.collapse_whitespace s.
Proof. apply uni_sub_plus_space_collapse. Qed.

(** ** [str.strip] takes the whitespace off both ends *)

Lemma uni_lstrip_trim_start (s : Uni.str) : Uni.lstrip s = Uni.trim_start s.
Proof.
  induction s as [|c s IH]; [reflexivity|].
  cbn [Uni.lstrip Uni.trim_start]. now rewrite IH.
Qed.

Lemma uni_trim_end_space (s : Uni.str) (c : N) :
  Uni.is_space c = true -> Uni.trim_end (s ++ [c]) = Uni.trim_end s.
Proof.
  intros Hc. induction s as [|a s IH].
  - cbn [app Uni.trim_end]. now rewrite Hc.
  - cbn [app Uni.trim_end]. now rewrite IH.
Qed.

Lemma uni_trim_end_other (s : Uni.str) (c : N) :
  Uni.is_space c = false -> Uni.trim_end (s ++ [c]) = s ++ [c].
Proof.
  intros Hc. induction s as [|a s IH].
  - cbn [app Uni.trim_end]. now rewrite Hc.
  - cbn [app Uni.trim_end]. rewrite IH.
    destruct (s ++ [c]) eqn:E; [|reflexivity].
    symmetry in E. now apply app_cons_not_nil in E.
Qed.

Lemma uni_rstrip_trim_end (s : Uni.str) : Uni.rstrip s = Uni.trim_end s.
Proof.
  unfold Uni.rstrip.
  induction s as [|c s IH] using rev_ind; [reflexivity|].
  rewrite rev_unit. cbn [Uni.lstrip].
  destruct (Uni.is_space c) eqn:Hc.
  - now rewrite IH, uni_trim_end_space.
  - cbn [rev]. rewrite rev_involutive. now rewrite uni_trim_end_other.
Qed.

Lemma uni_strip_trim (s : Uni.str) : Uni.strip s = Uni.trim s.
Proof.
  unfold Uni.strip, Uni.trim.
  now rewrite uni_rstrip_trim_end, uni_lstrip_trim_start.
Qed.

(** ** The key *)

Lemma uni_key_extraction (raw_file_name : Uni.str) :
  Uni.get_film_name_year raw_file_name =
  match Uni.extract_key Uni.is_decimal raw_file_name with
  | Some key => Uni.Returns key
  | None => Uni.Raises NoYearError (Uni.no_year_message raw_file_name)
  end.
Proof.
  unfold Uni.get_film_name_year, Uni.extract_key.
  rewrite uni_search_YEAR_STAMP.
  destruct (Uni.first_year Uni.is_decimal raw_file_name) as [i|];
    [|reflexivity].
  cbn [Uni.Re.m_start Uni.Re.m_group].
  now rewrite uni_sub_SPLITTERS, uni_sub_plus_space, uni_strip_trim.
Qed.

(** [first_year] is the position of the first run of the form 19xx or
    20xx. *)
Lemma uni_first_year_is_first (digit : N -> bool) (s : Uni.str) :
  match Uni.first_year digit s with
  | Some i =>
      Uni.year_here digit (skipn i s) = true /\
      forall j, j < i -> Uni.year_here digit (skipn j s) = false
  | None => forall j, Uni.year_here digit (skipn j s) = false
  end.
Proof.
  induction s as [|c s IH].
  - cbn. intros [|j]; reflexivity.
  - change (Uni.first_year digit (c :: s))
      with (if Uni.year_here digit (c :: s) then Some 0
            else option_map S (Uni.first_year digit s)).
    destruct (Uni.year_here digit (c :: s)) eqn:E.
    + split; [exact E | intros j Hj; lia].
    + destruct (Uni.first_year digit s) as [i|]; cbn [option_map].
      * destruct IH as [H1 H2]. split; [exact H1|].
        intros [|j] Hj; [exact E | apply H2; lia].
      * intros [|j]; [exact E | apply IH].
Qed.

(** C6, as the code has it. For a file name that contains a run of four
    characters of the form 19xx or 20xx, where an x is a decimal digit of
    any script, as [\d] matches them, key extraction returns the characters
    of the first such run as the year, and as the title the text before
    that run with each separator character replaced by a space, whitespace
    runs collapsed and the ends trimmed; for a file name without such a run
    it raises [NoYearError]. *)
Theorem get_film_name_year_spec (raw_file_name : Uni.str) :
  Uni.get_film_name_year raw_file_name =
  match Uni.first_year Uni.is_decimal raw_file_name with
  | Some i =>
      Uni.Returns
        (Uni.trim (Uni.collapse_whitespace
                     (Uni.separators_to_spaces (firstn i raw_file_name))),
         firstn 4 (skipn i raw_file_name))
  | None => Uni.Raises NoYearError (Uni.no_year_message raw_file_name)
  end.
Proof.
  rewrite uni_key_extraction. unfold Uni.extract_key.
  now destruct (Uni.first_year Uni.is_decimal raw_file_name).
Qed.

(** C6 as stated fails: the name below has no run of the form 19xx or 20xx
    made of the digits 0 to 9, and key extraction does not raise
    [NoYearError]: it takes the fullwidth digits for a year. *)
Lemma fullwidth_digits_are_taken_for_a_year :
  Uni.first_year Uni.ascii_digit (Uni.text "Film.20２０") = None /\
  Uni.get_film_name_year (Uni.text "Film.20２０")
  = Uni.Returns (Uni.text "Film", Uni.text "20２０").
Proof. split; vm_compute; reflexivity. Qed.

(** On a name whose decimal digits are all among 0 to 9 the two readings of
    "digit" give the same key. *)
Lemma key_extraction_with_plain_digits (raw_file_name : Uni.str) :
  (forall c, In c raw_file_name -> Uni.is_decimal c = Uni.ascii_digit c) ->
  Uni.extract_key Uni.is_decimal raw_file_name
  = Uni.extract_key Uni.ascii_digit raw_file_name.
Proof.
  intros H. unfold Uni.extract_key.
  assert (Hfirst : Uni.first_year Uni.is_decimal raw_file_name
                   = Uni.first_year Uni.ascii_digit raw_file_name).
  { induction raw_file_name as [|a s IH]; [reflexivity|].
    assert (Hhere : Uni.year_here Uni.is_decimal (a :: s)
                    = Uni.year_here Uni.ascii_digit (a :: s)).
    { destruct s as [|b [|c [|d s]]]; try reflexivity.
      cbn [Uni.year_here].
      rewrite (H c), (H d); [reflexivity | cbn; tauto | cbn; tauto]. }
    change (Uni.first_year Uni.is_decimal (a :: s))
      with (if Uni.year_here Uni.is_decimal (a :: s) then Some 0
            else option_map S (Uni.first_year Uni.is_decimal s)).
    change (Uni.first_year Uni.ascii_digit (a :: s))
      with (if Uni.year_here Uni.ascii_digit (a :: s) then Some 0
            else option_map S (Uni.first_year Uni.ascii_digit s)).
    rewrite Hhere, IH; [reflexivity|].
    intros c Hc. apply H. now right. }
  now rewrite Hfirst.
Qed.

(** ** The shape of the year *)

Lemma uni_year_here_take (digit : N -> bool) (s : Uni.str) :
  Uni.year_here digit s = true ->
  List.length (firstn 4 s) = 4 /\ Uni.year_here digit (firstn 4 s) = true.
Proof.
  destruct s as [|a [|b [|c [|d s]]]]; try discriminate.
  intros H. split; [reflexivity | exact H].
Qed.

(** X1. Whenever key extraction returns, the year is four characters of the
    form 19xx or 20xx, an x being a decimal digit of any script; the file
    name is the text before the year, the year, and the text after it; and
    no earlier position of the name starts such a run. *)
Theorem extracted_year_shape (raw_file_name title year : Uni.str) :
  Uni.get_film_name_year raw_file_name = Uni.Returns (title, year) ->
  List.length year = 4 /\ Uni.year_here Uni.is_decimal year = true /\
  exists i,
    raw_file_name = firstn i raw_file_name ++ year
                    ++ skipn (i + 4) raw_file_name /\
    forall j, j < i ->
              Uni.year_here Uni.is_decimal (skipn j raw_file_name) = false.
Proof.
  rewrite uni_key_extraction. unfold Uni.extract_key.
  pose proof (uni_first_year_is_first Uni.is_decimal raw_file_name) as Hfirst.
  destruct (Uni.first_year Uni.is_decimal raw_file_name) as [i|];
    [|discriminate].
  destruct Hfirst as [Hhere Hbefore].
  destruct (uni_year_here_take _ _ Hhere) as [Hlen Hy].
  intros H. injection H as _ <-.
  split; [exact Hlen|]. split; [exact Hy|].
  exists i. split; [|exact Hbefore].
  symmetry. etransitivity; [|apply (firstn_skipn i raw_file_name)].
  f_equal.
  replace (skipn (i + 4) raw_file_name)
    with (skipn 4 (skipn i raw_file_name))
    by (rewrite skipn_skipn; f_equal; lia).
  apply (firstn_skipn 4 (skipn i raw_file_name)).
Qed.

Lemma extracted_year_shape_sample :
  List.length (Uni.text "2010") = 4 /\
  Uni.year_here Uni.is_decimal (Uni.text "2010") = true /\
  exists i,
    Uni.text "Начало.2010.1080p"
    = firstn i (Uni.text "Начало.2010.1080p") ++ Uni.text "2010"
      ++ skipn (i + 4) (Uni.text "Начало.2010.1080p") /\
    forall j, j < i ->
              Uni.year_here Uni.is_decimal
                (skipn j (Uni.text "Начало.2010.1080p")) = false.
Proof.
  apply (extracted_year_shape (Uni.text "Начало.2010.1080p")
           (Uni.text "Начало") (Uni.text "2010")).
  vm_compute. reflexivity.
Defined.

(** ** The shape of the title *)

(** What [lstrip] removes is whitespace, and what it leaves does not start
    with whitespace. *)
Lemma uni_lstrip_split (s : Uni.str) :
  exists p, s = p ++ Uni.lstrip s /\ forallb Uni.is_space p = true /\
            Uni.starts_with_space (Uni.lstrip s) = false.
Proof.
  induction s as [|c s (p & E & Hp & Hs)].
  - exists []. auto.
  - cbn [Uni.lstrip]. destruct (Uni.is_space c) eqn:Hc.
    + exists (c :: p). cbn [app forallb].
      rewrite <- E, Hc, Hp. auto.
    + exists []. cbn [app forallb Uni.starts_with_space]. auto.
Qed.

(** What [rstrip] removes is whitespace at the end, and what it leaves does
    not end with whitespace. *)
Lemma uni_rstrip_split (s : Uni.str) :
  exists q, s = Uni.rstrip s ++ q /\ forallb Uni.is_space q = true /\
            Uni.starts_with_space (rev (Uni.rstrip s)) = false.
Proof.
  unfold Uni.rstrip.
  destruct (uni_lstrip_split (rev s)) as (p & E & Hp & Hs).
  exists (rev p). repeat split.
  - rewrite <- rev_app_distr, <- E. symmetry. apply rev_involutive.
  - rewrite forallb_forall in *. intros x Hx. apply Hp.
    now apply in_rev.
  - now rewrite rev_involutive.
Qed.

Lemma uni_separators_to_spaces_clean (s : Uni.str) :
  Uni.no_separator (Uni.separators_to_spaces s) = true.
Proof.
  unfold Uni.no_separator, Uni.separators_to_spaces.
  induction s as [|c s IH]; [reflexivity|].
  cbn [map forallb]. rewrite IH, andb_true_r.
  destruct (Uni.is_separator c) eqn:E; [reflexivity | now rewrite E].
Qed.

Lemma uni_collapse_from_all (p : N -> bool) (s : Uni.str) :
  p 32%N = true -> forallb p s = true ->
  forall b, forallb p (Uni.collapse_from b s) = true.
Proof.
  intros Hsp. induction s as [|c s IH]; intros H b; [reflexivity|].
  cbn [forallb] in H. apply andb_prop in H as [Hc Hs].
  cbn [Uni.collapse_from].
  destruct (Uni.is_space c), b; cbn [forallb];
    rewrite ?Hsp, ?Hc, ?IH; auto.
Qed.

Lemma uni_collapse_from_single_spaced (s : Uni.str) :
  forall b,
    Uni.single_spaced (Uni.collapse_from b s) = true /\
    (b = true -> Uni.starts_with_space (Uni.collapse_from b s) = false).
Proof.
  induction s as [|c s IH]; intros b; [split; reflexivity|].
  cbn [Uni.collapse_from].
  destruct (Uni.is_space c) eqn:Hc.
  - destruct (IH true) as [H1 H2]. specialize (H2 eq_refl).
    destruct b; [split; auto|]. split; [|discriminate].
    cbn [Uni.single_spaced]. rewrite H1, andb_true_r.
    change (Uni.is_space 32) with true. cbn [andb N.eqb Pos.eqb].
    destruct (Uni.collapse_from true s); [reflexivity|].
    cbn [Uni.starts_with_space] in H2. now rewrite H2.
  - destruct (IH false) as [H1 _]. split.
    + cbn [Uni.single_spaced]. now rewrite Hc, H1.
    + intros _. cbn [Uni.starts_with_space]. exact Hc.
Qed.

Lemma uni_single_spaced_app (a b : Uni.str) :
  Uni.single_spaced (a ++ b) = true ->
  Uni.single_spaced a = true /\ Uni.single_spaced b = true.
Proof.
  induction a as [|c a IH]; cbn [app]; [auto|].
  cbn [Uni.single_spaced]. intros H. apply andb_prop in H as [Hc Hrest].
  destruct (IH Hrest) as [Ha Hb]. split; [|exact Hb].
  rewrite Ha, andb_true_r.
  destruct (Uni.is_space c); [|reflexivity].
  apply andb_prop in Hc as [Heq Hnext]. rewrite Heq.
  destruct a as [|c' a]; [reflexivity | exact Hnext].
Qed.

Lemma uni_strip_keeps (P : Uni.str -> bool) (s : Uni.str) :
  (forall a b, P (a ++ b) = true -> P a = true /\ P b = true) ->
  P s = true -> P (Uni.strip s) = true.
Proof.
  intros Happ H. unfold Uni.strip.
  destruct (uni_lstrip_split s) as (p & E & _ & _).
  rewrite E in H. apply Happ in H as [_ H].
  destruct (uni_rstrip_split (Uni.lstrip s)) as (q & E' & _ & _).
  rewrite E' in H. now apply Happ in H as [H _].
Qed.

Lemma uni_strip_trimmed (s : Uni.str) : Uni.trimmed (Uni.strip s) = true.
Proof.
  unfold Uni.trimmed, Uni.strip.
  destruct (uni_lstrip_split s) as (p & _ & _ & Hstart).
  destruct (uni_rstrip_split (Uni.lstrip s)) as (q & E & _ & Hend).
  rewrite Hend, andb_true_r.
  destruct (Uni.rstrip (Uni.lstrip s)) as [|c r]; [reflexivity|].
  rewrite E in Hstart. cbn [app Uni.starts_with_space] in *.
  now rewrite Hstart.
Qed.

(** X2. Whenever key extraction returns, the title contains none of the
    separator characters, neither starts nor ends with whitespace, and its
    only whitespace is single spaces between words. *)
Theorem extracted_title_shape (raw_file_name title year : Uni.str) :
  Uni.get_film_name_year raw_file_name = Uni.Returns (title, year) ->
  Uni.no_separator title = true /\ Uni.trimmed title = true /\
  Uni.single_spaced title = true.
Proof.
  unfold Uni.get_film_name_year.
  destruct (Uni.Re.search Uni.YEAR_STAMP raw_file_name) as [m|];
    [|discriminate].
  intros H. injection H as <- _.
  rewrite uni_sub_SPLITTERS, uni_sub_plus_space.
  repeat split.
  - apply (uni_strip_keeps Uni.no_separator).
    + intros a b Hab. unfold Uni.no_separator in *.
      rewrite forallb_app in Hab. now apply andb_prop in Hab.
    + apply uni_collapse_from_all; [reflexivity|].
      apply uni_separators_to_spaces_clean.
  - apply uni_strip_trimmed.
  - apply (uni_strip_keeps Uni.single_spaced); [apply uni_single_spaced_app|].
    apply uni_collapse_from_single_spaced.
Qed.

Lemma extracted_title_shape_sample :
  Uni.no_separator (Uni.text "Большой Фильм") = true /\
  Uni.trimmed (Uni.text "Большой Фильм") = true /\
  Uni.single_spaced (Uni.text "Большой Фильм") = true.
Proof.
  apply (extracted_title_shape (Uni.text "Большой_.Фильм  (1999)")
           (Uni.text "Большой Фильм") (Uni.text "1999")).
  vm_compute. reflexivity.
Defined.

(** ** The pipeline's key extraction is this one *)

(** The pipeline runs [get_film_name_year] on a [string]; on a name of the
    Latin-1 range, whose characters are its code points, that is key
    extraction as above. *)

Lemma ord_eqb (a b : ascii) : N.eqb (Uni.ord a) (Uni.ord b) = Ascii.eqb a b.
Proof.
  unfold Uni.ord. destruct (Ascii.eqb_spec a b) as [-> | Hne].
  - apply N.eqb_refl.
  - apply N.eqb_neq. intros H. apply Hne.
    now rewrite <- (ascii_N_embedding a), <- (ascii_N_embedding b), H.
Qed.

Lemma ord_decimal (c : ascii) : Uni.is_decimal (Uni.ord c) = is_decimal c.
Proof. destruct c as [[] [] [] [] [] [] [] []]; vm_compute; reflexivity. Qed.

Lemma ord_space (c : ascii) : Uni.is_space (Uni.ord c) = char_isspace c.
Proof. destruct c as [[] [] [] [] [] [] [] []]; vm_compute; reflexivity. Qed.

Lemma ord_separator (c : ascii) : Uni.is_separator (Uni.ord c) = is_separator c.
Proof.
  unfold Uni.is_separator, is_separator.
  change 95%N with (Uni.ord "_"). change 46%N with (Uni.ord ".").
  change 40%N with (Uni.ord "("). change 41%N with (Uni.ord ")").
  now rewrite !ord_eqb.
Qed.

Lemma codes_app (a b : string) :
  Uni.codes (a +++ b) = Uni.codes a ++ Uni.codes b.
Proof.
  induction a as [|c a IH]; [reflexivity|].
  cbn [String.append Uni.codes app]. now rewrite IH.
Qed.

Lemma codes_take (n : nat) (s : string) :
  Uni.codes (str_take n s) = firstn n (Uni.codes s).
Proof.
  revert s. induction n as [|n IH]; intros [|c s]; try reflexivity.
  cbn [str_take Uni.codes firstn]. now rewrite IH.
Qed.

Lemma codes_drop (n : nat) (s : string) :
  Uni.codes (str_drop n s) = skipn n (Uni.codes s).
Proof.
  revert s. induction n as [|n IH]; intros [|c s]; try reflexivity.
  cbn [str_drop Uni.codes skipn]. apply IH.
Qed.

Lemma codes_rev (s : string) : Uni.codes (str_rev s) = rev (Uni.codes s).
Proof.
  induction s as [|c s IH]; [reflexivity|].
  rewrite str_rev_cons, codes_app, IH. reflexivity.
Qed.

Lemma codes_year_here (s : string) :
  Uni.year_here Uni.is_decimal (Uni.codes s) = year_here s.
Proof.
  destruct s as [|a [|b [|c [|d s]]]]; try reflexivity.
  cbn [Uni.codes Uni.year_here year_here].
  change 49%N with (Uni.ord "1"). change 57%N with (Uni.ord "9").
  change 50%N with (Uni.ord "2"). change 48%N with (Uni.ord "0").
  rewrite !ord_eqb, !ord_decimal.
  now rewrite (Ascii.eqb_sym a), (Ascii.eqb_sym b), (Ascii.eqb_sym a "2"),
    (Ascii.eqb_sym b "0").
Qed.

Lemma codes_first_year (s : string) :
  Uni.first_year Uni.is_decimal (Uni.codes s) = first_year s.
Proof.
  induction s as [|c s IH]; [reflexivity|].
  change (first_year (String c s))
    with (if year_here (String c s) then Some 0
          else option_map S (first_year s)).
  change (Uni.first_year Uni.is_decimal (Uni.codes (String c s)))
    with (if Uni.year_here Uni.is_decimal (Uni.codes (String c s))
          then Some 0
          else option_map S (Uni.first_year Uni.is_decimal (Uni.codes s))).
  now rewrite codes_year_here, IH.
Qed.

Lemma codes_separators (s : string) :
  Uni.separators_to_spaces (Uni.codes s) = Uni.codes (separators_to_spaces s).
Proof.
  unfold Uni.separators_to_spaces, separators_to_spaces.
  induction s as [|c s IH]; [reflexivity|].
  cbn [Uni.codes map str_map]. rewrite IH, ord_separator.
  now destruct (is_separator c).
Qed.

Lemma codes_collapse (s : string) (b : bool) :
  Uni.collapse_from b (Uni.codes s) = Uni.codes (collapse_from b s).
Proof.
  revert b. induction s as [|c s IH]; intros b; [reflexivity|].
  cbn [Uni.codes Uni.collapse_from collapse_from]. rewrite ord_space.
  destruct (char_isspace c), b; cbn [Uni.codes]; now rewrite IH.
Qed.

Lemma codes_lstrip (s : string) :
  Uni.lstrip (Uni.codes s) = Uni.codes (py_lstrip s).
Proof.
  induction s as [|c s IH]; [reflexivity|].
  cbn [Uni.codes Uni.lstrip py_lstrip]. rewrite ord_space.
  now destruct (char_isspace c).
Qed.

Lemma codes_strip (s : string) :
  Uni.strip (Uni.codes s) = Uni.codes (py_strip s).
Proof.
  unfold Uni.strip, Uni.rstrip, py_strip, py_rstrip.
  now rewrite codes_lstrip, <- codes_rev, codes_lstrip, <- codes_rev.
Qed.

Lemma key_extraction_on_latin1 (raw_file_name : string) :
  Uni.get_film_name_year (Uni.codes raw_file_name) =
  match get_film_name_year raw_file_name with
  | Ok (title, year) => Uni.Returns (Uni.codes title, Uni.codes year)
  | Raise e =>
      Uni.Raises (exn_cls e) (Uni.no_year_message (Uni.codes raw_file_name))
  end.
Proof.
  rewrite uni_key_extraction, key_extraction_unfolded.
  unfold Uni.extract_key. rewrite codes_first_year.
  destruct (first_year raw_file_name) as [i|]; [|reflexivity].
  rewrite <- uni_strip_trim, <- codes_take, codes_separators.
  unfold Uni.collapse_whitespace, collapse_whitespace.
  now rewrite codes_collapse, codes_strip, <- codes_drop, <- codes_take.
Qed.

Example latin1_name_both_ways :
  get_film_name_year "The_Big..Movie  (1999)" = Ok ("The Big Movie", "1999") /\
  Uni.get_film_name_year (Uni.text "The_Big..Movie  (1999)")
  = Uni.Returns (Uni.text "The Big Movie", Uni.text "1999").
Proof. split; vm_compute; reflexivity. Qed.
